(** * Frame quality and composition scoring

    A shallow embedding of the frame-analysis engine of the thumbnail
    generator: [python/yolo_service.py] (the REST service with its
    single-frame and batch surfaces) and [python/yolo_analyzer.py] (the
    command-line analyzer of the thumbnail-selection path).

    Python [float] arithmetic is written once, over the interface
    [PyFloat], and instantiated twice: at IEEE binary64 ([binary64], the
    arithmetic the interpreter runs, which evaluates by computation) and at
    the real numbers ([exact], the arithmetic the specification speaks in).
    OpenCV, NumPy, the file system and the detection model are outside the
    repository: they appear as records of the observations the code makes
    of them. *)

From Stdlib Require Import ZArith QArith Reals Lra Lia List String Bool.
From Stdlib Require PrimFloat Uint63.
From Stdlib Require Import SpecFloat FloatOps FloatAxioms.
From Stdlib Require Import Sorted.
From stdpp Require Import base option gmap sets strings pretty.
Import ListNotations.

Set Implicit Arguments.
Set Default Proof Using "Type".

(** ** Python floats *)

Declare Scope py_scope.
Delimit Scope py_scope with py.

Class PyFloat (F : Type) := {
  fadd : F -> F -> F;
  fsub : F -> F -> F;
  fmul : F -> F -> F;
  fdiv : F -> F -> F;
  fsqrt : F -> F;              (* np.sqrt *)
  fltb : F -> F -> bool;       (* a < b *)
  fleb : F -> F -> bool;       (* a <= b *)
  flit : Q -> F                (* a decimal literal of the source *)
}.

Infix "+" := fadd : py_scope.
Infix "-" := fsub : py_scope.
Infix "*" := fmul : py_scope.
Infix "/" := fdiv : py_scope.
Infix "<?" := fltb : py_scope.
Infix "<=?" := fleb : py_scope.
Notation "# q" := (flit q%Q) (at level 1, q at level 0, format "# q") : py_scope.

(** IEEE 754 binary64.  A decimal literal [n/d] with [n] and [d] below
    [2^53] is the correctly rounded quotient of two exact values, which is
    the double the Python parser produces for it. *)
#[export] Instance binary64 : PyFloat PrimFloat.float := {
  fadd := PrimFloat.add;
  fsub := PrimFloat.sub;
  fmul := PrimFloat.mul;
  fdiv := PrimFloat.div;
  fsqrt := PrimFloat.sqrt;
  fltb := PrimFloat.ltb;
  fleb := PrimFloat.leb;
  flit q := PrimFloat.div (PrimFloat.of_uint63 (Uint63.of_Z (Qnum q)))
                          (PrimFloat.of_uint63 (Uint63.of_Z (Zpos (Qden q))))
}.

Definition Rltb (x y : R) : bool := if Rlt_dec x y then true else false.
Definition Rleb (x y : R) : bool := if Rle_dec x y then true else false.

(** Exact real arithmetic: rounding is not modelled. *)
#[export] Instance exact : PyFloat R := {
  fadd := Rplus;
  fsub := Rminus;
  fmul := Rmult;
  fdiv := Rdiv;
  fsqrt := R_sqrt.sqrt;
  fltb := Rltb;
  fleb := Rleb;
  flit := Q2R
}.

Section Builtins.
Context {F : Type} `{PyFloat F}.
Local Open Scope py_scope.

(** [min(a, b)] returns [a] unless [b < a]; [max(a, b)] returns [a] unless
    [b > a]. *)
Definition py_min (a b : F) : F := if b <? a then b else a.
Definition py_max (a b : F) : F := if a <? b then b else a.
End Builtins.

(** ** Exceptions *)

Inductive exn : Type :=
| FileNotFoundError (msg : string)
| ValueError (msg : string)
| KeyError (key : Z)
| cv2_error (msg : string)
| ModelError (msg : string)
| RuntimeError (msg : string)
| HTTPException (status_code : Z) (detail : string).

(** [str(e)] *)
Definition str (e : exn) : string :=
  match e with
  | FileNotFoundError msg | ValueError msg | cv2_error msg
  | ModelError msg | RuntimeError msg => msg
  | KeyError _ => "KeyError"
  | HTTPException _ detail => detail
  end.

Inductive outcome (A : Type) : Type :=
| Return (a : A)
| Raise (e : exn).
Arguments Return {A} a.
Arguments Raise {A} e.

#[export] Instance outcome_ret : MRet outcome := fun _ a => Return a.
#[export] Instance outcome_bind : MBind outcome := fun _ _ k c =>
  match c with
  | Return a => k a
  | Raise e => Raise e
  end.

(** [try: body / except Exception as e: handler e].  Every constructor of
    [exn] is a subclass of [Exception]. *)
Definition try_except {A} (body : outcome A) (handler : exn -> outcome A) : outcome A :=
  match body with
  | Return a => Return a
  | Raise e => handler e
  end.

(** [for x in xs: s = body s x], stopping at the first exception. *)
Fixpoint for_each {A S} (xs : list A) (body : S -> A -> outcome S) (s : S) : outcome S :=
  match xs with
  | [] => Return s
  | x :: xs' => s' ← body s x; for_each xs' body s'
  end.

(** ** The world outside the repository *)

(** What the code observes of a grayscale grid: the variance of its
    Laplacian, its mean and its standard deviation. *)
Record Gray (F : Type) := {
  Laplacian_var : F;
  np_mean : F;
  np_std : F
}.

(** A decoded image: its shape, and [cv2.cvtColor(image, COLOR_BGR2GRAY)],
    which may raise. *)
Record Image (F : Type) := {
  shape : Z * Z * Z;
  cvtColor : outcome (Gray F)
}.

Record FileSystem (F : Type) := {
  path_exists : string -> bool;              (* os.path.exists *)
  imread : string -> option (Image F)        (* cv2.imread; None when undecodable *)
}.

(** One row of a YOLO [Boxes] object. *)
Record Box (F : Type) := {
  cls : Z;
  conf : F;
  xyxy : F * F * F * F;
  xyxyn : F * F * F * F
}.

Record Result (F : Type) := {
  boxes : option (list (Box F))
}.

(** The loaded detector: [model(image, conf=..., iou=..., verbose=False)]
    and [model.names]. *)
Record YOLO (F : Type) := {
  predict : Image F -> F -> option F -> outcome (list (Result F));
  names : gmap Z string
}.

(** [model.names[class_id]] *)
Definition names_getitem {F} (m : YOLO F) (class_id : Z) : outcome string :=
  match names m !! class_id with
  | Some n => Return n
  | None => Raise (KeyError class_id)
  end.

(** ** yolo_service.py *)

Module yolo_service.

Module FrameAnalysisRequest.
Record t (F : Type) := {
    frame_path : string;
    frame_index : Z;
    timestamp : F
  }.
End FrameAnalysisRequest.

Module DetectedObject.
Record t (F : Type) := {
    class_name : string;
    confidence : F;
    bbox : list F              (* [x1, y1, x2, y2] *)
  }.
End DetectedObject.

Module FrameAnalysisResponse.
Record t (F : Type) := {
    frame_index : Z;
    timestamp : F;
    has_product : bool;
    quality_score : F;
    brightness_score : F;
    blur_score : F;
    detected_objects : list (DetectedObject.t F)
  }.
End FrameAnalysisResponse.

Module YOLOService.

  (** [self.product_classes], assigned once in [__init__] and never
      written again. *)
Definition product_classes : gset string := list_to_set [
    "person"; "bicycle"; "car"; "motorcycle"; "airplane"; "bus"; "train"; "truck"; "boat";
    "bottle"; "wine glass"; "cup"; "fork"; "knife"; "spoon"; "bowl"; "banana"; "apple";
    "sandwich"; "orange"; "broccoli"; "carrot"; "hot dog"; "pizza"; "donut"; "cake";
    "chair"; "couch"; "potted plant"; "bed"; "dining table"; "toilet"; "tv"; "laptop";
    "mouse"; "remote"; "keyboard"; "cell phone"; "microwave"; "oven"; "toaster"; "sink";
    "refrigerator"; "book"; "clock"; "vase"; "scissors"; "teddy bear"; "hair drier";
    "toothbrush"; "handbag"; "tie"; "suitcase"; "frisbee"; "skis"; "snowboard";
    "sports ball"; "kite"; "baseball bat"; "baseball glove"; "skateboard"; "surfboard";
    "tennis racket"; "backpack"; "umbrella"; "shoe"
  ]%string.

Record t (F : Type) := {
    confidence_threshold : F;
    model_path : string;
    model : YOLO F
  }.

Section Methods.
Context {F : Type} `{PyFloat F}.
Local Open Scope py_scope.

    (** [__init__] with [load_model] inlined; [YOLO_load] stands for the
        [YOLO(path)] constructor, whose failure is re-raised. *)
Definition __init__ (YOLO_load : string -> outcome (YOLO F))
        (model_path : string) (confidence_threshold : F) : outcome (t F) :=
      m ← try_except (YOLO_load model_path) (fun e => Raise e);
      mret {| confidence_threshold := confidence_threshold;
              model_path := model_path;
              model := m |}.

Definition calculate_blur_score (image : Image F) : F :=
      match cvtColor image with
      | Return gray =>
          let laplacian_var := Laplacian_var gray in
          (* Normalize to 0-1 scale (higher = less blurry) *)
          let blur_score := py_min (laplacian_var / #1000.0) #1.0 in
          blur_score
      | Raise e => #0.5
      end.

Definition calculate_brightness_score (image : Image F) : F :=
      match cvtColor image with
      | Return gray =>
          let mean_brightness := np_mean gray / #255.0 in
          let brightness_score :=
            if (#0.3 <=? mean_brightness) && (mean_brightness <=? #0.8) then #1.0
            else if mean_brightness <? #0.3 then mean_brightness / #0.3
            else (#1.0 - mean_brightness) / #0.2 in
          py_max #0.0 (py_min #1.0 brightness_score)
      | Raise e => #0.5
      end.

    (** The body of the inner [for box in result.boxes] loop; the state is
        [(detected_objects, has_product)]. *)
Definition process_box (self : t F)
        (st : list (DetectedObject.t F) * bool) (box : Box F)
        : outcome (list (DetectedObject.t F) * bool) :=
      let '(detected_objects, has_product) := st in
      let class_id := cls box in
      class_name ← names_getitem (model self) class_id;
      let confidence := conf box in
      let has_product :=
        if bool_decide (class_name ∈ product_classes) then true else has_product in
      let '(x1, y1, x2, y2) := xyxy box in
      let bbox := [x1; y1; x2; y2] in
      mret (detected_objects ++
              [ {| DetectedObject.class_name := class_name;
                   DetectedObject.confidence := confidence;
                   DetectedObject.bbox := bbox |} ],
            has_product).

    (** The body of the outer [for result in results] loop. *)
Definition process_result (self : t F)
        (st : list (DetectedObject.t F) * bool) (result : Result F)
        : outcome (list (DetectedObject.t F) * bool) :=
      match boxes result with
      | Some bs => for_each bs (process_box self) st
      | None => mret st
      end.

    (** The response of the [except] branch. *)
Definition failed_analysis (frame_index : Z) (timestamp : F)
        : FrameAnalysisResponse.t F :=
      {| FrameAnalysisResponse.frame_index := frame_index;
         FrameAnalysisResponse.timestamp := timestamp;
         FrameAnalysisResponse.has_product := false;
         FrameAnalysisResponse.quality_score := #0.0;
         FrameAnalysisResponse.brightness_score := #0.0;
         FrameAnalysisResponse.blur_score := #0.0;
         FrameAnalysisResponse.detected_objects := [] |}.

    (** The [try] block of [analyze_frame]. *)
Definition analyze_frame_body (self : t F) (fs : FileSystem F)
        (frame_path : string) (frame_index : Z) (timestamp : F)
        : outcome (FrameAnalysisResponse.t F) :=
      (* Load image *)
      if negb (path_exists fs frame_path)
      then Raise (FileNotFoundError ("Frame not found: " +:+ frame_path))
      else
        match imread fs frame_path with
        | None => Raise (ValueError ("Could not load image: " +:+ frame_path))
        | Some image =>
            (* Run YOLO detection *)
            results ← predict (model self) image (confidence_threshold self) None;
            (* Process detections *)
            '(detected_objects, has_product) ←
              for_each results (process_result self) ([], false);
            (* Calculate quality metrics *)
            let blur_score := calculate_blur_score image in
            let brightness_score := calculate_brightness_score image in
            (* Calculate overall quality score *)
            let detection_score := if (has_product : bool) then #1.0 else #0.3 in
            let quality_score :=
              detection_score * #0.4 + blur_score * #0.3 + brightness_score * #0.3 in
            mret {| FrameAnalysisResponse.frame_index := frame_index;
                    FrameAnalysisResponse.timestamp := timestamp;
                    FrameAnalysisResponse.has_product := has_product;
                    FrameAnalysisResponse.quality_score := quality_score;
                    FrameAnalysisResponse.brightness_score := brightness_score;
                    FrameAnalysisResponse.blur_score := blur_score;
                    FrameAnalysisResponse.detected_objects := detected_objects |}
        end.

Definition analyze_frame (self : t F) (fs : FileSystem F)
        (frame_path : string) (frame_index : Z) (timestamp : F)
        : outcome (FrameAnalysisResponse.t F) :=
      try_except
        (analyze_frame_body self fs frame_path frame_index timestamp)
        (fun e =>
           (* Return default response for failed analysis *)
           mret (failed_analysis frame_index timestamp)).

End Methods.
End YOLOService.

Section App.
Context {F : Type} `{PyFloat F}.

  (** The module-level [yolo_service] is [None] until [startup_event] has
      run; the handlers read it. *)
Definition startup_event (YOLO_load : string -> outcome (YOLO F))
      (model_path : string) (confidence_threshold : F)
      : outcome (option (YOLOService.t F)) :=
    svc ← YOLOService.__init__ YOLO_load model_path confidence_threshold;
    mret (Some svc).

  (** [GET /health]: the [model_loaded] entry of the returned dict. *)
Definition health_check (yolo_service : option (YOLOService.t F)) : bool :=
    match yolo_service with Some _ => true | None => false end.

  (** [POST /analyze] *)
Definition analyze_frame (yolo_service : option (YOLOService.t F))
      (fs : FileSystem F) (request : FrameAnalysisRequest.t F)
      : outcome (FrameAnalysisResponse.t F) :=
    match yolo_service with
    | None => Raise (HTTPException 503 "YOLO service not initialized")
    | Some svc =>
        try_except
          (result ← YOLOService.analyze_frame svc fs
                      (FrameAnalysisRequest.frame_path request)
                      (FrameAnalysisRequest.frame_index request)
                      (FrameAnalysisRequest.timestamp request);
           mret result)
          (fun e => Raise (HTTPException 500 ("Analysis failed: " +:+ str e)))
    end.

  (** The body of the [for request in requests] loop of [analyze_batch]. *)
Definition analyze_batch_step (svc : YOLOService.t F) (fs : FileSystem F)
      (results : list (FrameAnalysisResponse.t F)) (request : FrameAnalysisRequest.t F)
      : list (FrameAnalysisResponse.t F) :=
    match YOLOService.analyze_frame svc fs
            (FrameAnalysisRequest.frame_path request)
            (FrameAnalysisRequest.frame_index request)
            (FrameAnalysisRequest.timestamp request) with
    | Return result => results ++ [result]
    | Raise e =>
        (* Add failed result *)
        results ++
          [ {| FrameAnalysisResponse.frame_index := FrameAnalysisRequest.frame_index request;
               FrameAnalysisResponse.timestamp := FrameAnalysisRequest.timestamp request;
               FrameAnalysisResponse.has_product := false;
               FrameAnalysisResponse.quality_score := (#0.0)%py;
               FrameAnalysisResponse.brightness_score := (#0.0)%py;
               FrameAnalysisResponse.blur_score := (#0.0)%py;
               FrameAnalysisResponse.detected_objects := [] |} ]
    end.

  (** [POST /analyze_batch] *)
Definition analyze_batch (yolo_service : option (YOLOService.t F))
      (fs : FileSystem F) (requests : list (FrameAnalysisRequest.t F))
      : outcome (list (FrameAnalysisResponse.t F)) :=
    match yolo_service with
    | None => Raise (HTTPException 503 "YOLO service not initialized")
    | Some svc => mret (fold_left (analyze_batch_step svc fs) requests [])
    end.
End App.

End yolo_service.

(** ** yolo_analyzer.py *)

Module yolo_analyzer.

(** The dicts of the analyzer, as records. *)
Module BBox.
Record t (F : Type) := {
  x : F;
  y : F;
  width : F;
  height : F
}.
End BBox.

Module Detection.
Record t (F : Type) := {
  class_name : string;
  confidence : F;
  bbox : BBox.t F
}.
End Detection.

Module QualityMetrics.
Record t (F : Type) := {
  blur_score : F;
  brightness_score : F;
  contrast_score : F;
  overall_quality : F
}.
End QualityMetrics.

Module FrameAnalysis.
Record t (F : Type) := {
  detected_objects : list (Detection.t F);
  has_product : bool;
  quality_score : F;
  blur_score : F;
  brightness_score : F;
  composition_score : F
}.
End FrameAnalysis.

Module FrameAnalyzer.

Definition product_classes : gset string := list_to_set [
  "person"; "bicycle"; "car"; "motorcycle"; "airplane"; "bus"; "train"; "truck"; "boat";
  "bottle"; "wine glass"; "cup"; "fork"; "knife"; "spoon"; "bowl"; "banana"; "apple";
  "sandwich"; "orange"; "broccoli"; "carrot"; "hot dog"; "pizza"; "donut"; "cake";
  "chair"; "couch"; "potted plant"; "bed"; "dining table"; "toilet"; "tv"; "laptop";
  "mouse"; "remote"; "keyboard"; "cell phone"; "microwave"; "oven"; "toaster"; "sink";
  "refrigerator"; "book"; "clock"; "vase"; "scissors"; "teddy bear"; "hair drier";
  "toothbrush"; "handbag"; "tie"; "suitcase"; "frisbee"; "skis"; "snowboard";
  "sports ball"; "kite"; "baseball bat"; "baseball glove"; "skateboard"; "surfboard";
  "tennis racket"; "backpack"; "umbrella"
]%string.

Record t (F : Type) := {
  model : YOLO F;
  confidence_threshold : F;
  iou_threshold : F
}.

Section Methods.
Context {F : Type} `{PyFloat F}.
Local Open Scope py_scope.

(** [Path_exists] is [Path(p).exists()], [YOLO_load] the [YOLO(path)]
    constructor. *)
Definition __init__ (Path_exists : string -> bool)
    (YOLO_load : string -> outcome (YOLO F))
    (model_path : string) (confidence_threshold iou_threshold : F) : outcome (t F) :=
  try_except
    (m ← (if Path_exists model_path
          then YOLO_load model_path
          else YOLO_load "yolov8n.pt"%string);
     mret {| model := m;
             confidence_threshold := confidence_threshold;
             iou_threshold := iou_threshold |})
    (fun e => Raise (RuntimeError ("Failed to initialize YOLO model: " +:+ str e))).

Definition _calculate_quality_metrics (image : Image F) : outcome (QualityMetrics.t F) :=
  (* Convert to grayscale for analysis *)
  gray ← cvtColor image;
  (* Calculate blur score using Laplacian variance *)
  let blur_score := Laplacian_var gray in
  (* Normalize blur score (higher variance = less blur) *)
  let normalized_blur := py_min (blur_score / #1000.0) #1.0 in
  let blur_score_final := #1.0 - normalized_blur in
  (* Calculate brightness score *)
  let brightness := np_mean gray / #255.0 in
  let brightness_score :=
    if brightness <? #0.2 then brightness * #2.5
    else if #0.8 <? brightness then (#1.0 - brightness) * #5
    else #1.0 in
  let brightness_score := py_max #0.0 (py_min #1.0 brightness_score) in
  (* Calculate contrast score *)
  let contrast := np_std gray / #255.0 in
  let contrast_score := py_min (contrast * #2) #1.0 in
  (* Overall quality score *)
  let overall_quality :=
    (#1.0 - blur_score_final) * #0.4 +
    brightness_score * #0.3 +
    contrast_score * #0.3 in
  mret {| QualityMetrics.blur_score := blur_score_final;
          QualityMetrics.brightness_score := brightness_score;
          QualityMetrics.contrast_score := contrast_score;
          QualityMetrics.overall_quality := overall_quality |}.

(** [v ** 2], written as a product. *)
Definition pow2 (v : F) : F := v * v.

(** The body of the [for obj in detected_objects] loop; the state is
    [(composition_score, max_confidence)]. *)
Definition composition_step (st : F * F) (obj : Detection.t F) : F * F :=
  let '(composition_score, max_confidence) := st in
  let center_x := #0.5 in
  let center_y := #0.5 in
  let bbox := Detection.bbox obj in
  let confidence := Detection.confidence obj in
  (* Calculate object center *)
  let obj_center_x := BBox.x bbox + BBox.width bbox / #2 in
  let obj_center_y := BBox.y bbox + BBox.height bbox / #2 in
  (* Distance from image center *)
  let distance_from_center :=
    fsqrt (pow2 (obj_center_x - center_x) + pow2 (obj_center_y - center_y)) in
  let center_score := #1.0 - py_min (distance_from_center * #2) #1.0 in
  (* Size score *)
  let obj_area := BBox.width bbox * BBox.height bbox in
  let size_score :=
    if (#0.1 <=? obj_area) && (obj_area <=? #0.6) then #1.0
    else if obj_area <? #0.1 then obj_area * #10
    else py_max #0.2 (#1.0 - (obj_area - #0.6) * #2) in
  (* Combined score for this object *)
  let obj_score := (center_score * #0.4 + size_score * #0.6) * confidence in
  let composition_score := py_max composition_score obj_score in
  let max_confidence := py_max max_confidence confidence in
  (composition_score, max_confidence).

Definition _calculate_composition_score (detected_objects : list (Detection.t F))
    (image_shape : Z * Z * Z) : F :=
  match detected_objects with
  | [] => #0.3 (* Low score for no objects *)
  | _ =>
      let '(height, width, _) := image_shape in
      let '(composition_score, max_confidence) :=
        fold_left composition_step detected_objects (#0.0, #0.0) in
      (* Boost score if we have high-confidence detections *)
      let composition_score :=
        if #0.8 <? max_confidence then composition_score * #1.2
        else composition_score in
      py_min composition_score #1.0
  end.

(** The body of the [for i in range(len(boxes))] loop; the state is
    [(detected_objects, has_product)]. *)
Definition process_box (self : t F)
    (st : list (Detection.t F) * bool) (box : Box F)
    : outcome (list (Detection.t F) * bool) :=
  let '(detected_objects, has_product) := st in
  let class_id := cls box in
  class_name ← names_getitem (model self) class_id;
  let confidence := conf box in
  (* Get bounding box (normalized) *)
  let '(x1, y1, x2, y2) := xyxyn box in
  let detected_objects :=
    detected_objects ++
      [ {| Detection.class_name := class_name;
           Detection.confidence := confidence;
           Detection.bbox := {| BBox.x := x1;
                                BBox.y := y1;
                                BBox.width := x2 - x1;
                                BBox.height := y2 - y1 |} |} ] in
  (* Check if it's a product-related object *)
  let has_product :=
    if bool_decide (class_name ∈ product_classes) then true else has_product in
  mret (detected_objects, has_product).

(** The [try] block of [analyze_frame]. *)
Definition analyze_frame_body (self : t F) (fs : FileSystem F) (image_path : string)
    : outcome (FrameAnalysis.t F) :=
  match imread fs image_path with
  | None => Raise (ValueError ("Could not load image: " +:+ image_path))
  | Some image =>
      (* Run YOLO detection *)
      results ← predict (model self) image (confidence_threshold self)
                  (Some (iou_threshold self));
      (* Extract detections *)
      '(detected_objects, has_product) ←
        match results with
        | {| boxes := Some bs |} :: _ => for_each bs (process_box self) ([], false)
        | _ => mret ([], false)
        end;
      (* Calculate quality metrics *)
      quality_metrics ← _calculate_quality_metrics image;
      (* Calculate composition score based on detections *)
      let composition_score :=
        _calculate_composition_score detected_objects (shape image) in
      mret {| FrameAnalysis.detected_objects := detected_objects;
              FrameAnalysis.has_product := has_product;
              FrameAnalysis.quality_score := QualityMetrics.overall_quality quality_metrics;
              FrameAnalysis.blur_score := QualityMetrics.blur_score quality_metrics;
              FrameAnalysis.brightness_score := QualityMetrics.brightness_score quality_metrics;
              FrameAnalysis.composition_score := composition_score |}
  end.

Definition analyze_frame (self : t F) (fs : FileSystem F) (image_path : string)
    : outcome (FrameAnalysis.t F) :=
  try_except (analyze_frame_body self fs image_path)
    (fun e => Raise (RuntimeError ("Frame analysis failed: " +:+ str e))).

End Methods.
End FrameAnalyzer.

Section Main.
Context {F : Type} `{PyFloat F}.
Local Open Scope py_scope.

(** What [main] prints and the status it exits with, once the four
    command-line arguments are parsed. *)
Record Printed := {
  error : option string;
  result : FrameAnalysis.t F;
  exit_code : Z
}.

Definition main (Path_exists : string -> bool)
    (YOLO_load : string -> outcome (YOLO F)) (fs : FileSystem F)
    (image_path model_path : string) (confidence_threshold iou_threshold : F)
    : Printed :=
  match (analyzer ← FrameAnalyzer.__init__ Path_exists YOLO_load model_path
                      confidence_threshold iou_threshold;
         FrameAnalyzer.analyze_frame analyzer fs image_path) with
  | Return result => {| error := None; result := result; exit_code := 0 |}
  | Raise e =>
      let error_result :=
        {| FrameAnalysis.detected_objects := [];
           FrameAnalysis.has_product := false;
           FrameAnalysis.quality_score := #0.0;
           FrameAnalysis.blur_score := #1.0;
           FrameAnalysis.brightness_score := #0.0;
           FrameAnalysis.composition_score := #0.0 |} in
      {| error := Some (str e); result := error_result; exit_code := 1 |}
  end.
End Main.

End yolo_analyzer.

(** ** The composition score as the specification words it (§4.2)

    Written over the reals from the text of the specification, to be
    compared with [FrameAnalyzer._calculate_composition_score]. *)

Module CompositionScorer.
Import yolo_analyzer.
Local Open Scope R_scope.

Definition clamp01 (v : R) : R := Rmax 0 (Rmin v 1).

(** Steps 1 and 2: the normalized center and its distance to [(0.5, 0.5)]. *)
Definition center (b : BBox.t R) : R * R :=
  (BBox.x b + BBox.width b / 2, BBox.y b + BBox.height b / 2).

Definition distance_to_center (c : R * R) : R :=
  sqrt ((fst c - 0.5) * (fst c - 0.5) + (snd c - 0.5) * (snd c - 0.5)).

(** Step 3. *)
Definition center_score (d : R) : R := 1 - Rmin (d * 2) 1.

(** Step 4, on the normalized area. *)
Definition size_score (a : R) : R :=
  if Rle_dec 0.1 a then
    if Rle_dec a 0.6 then 1 else Rmax 0.2 (1 - (a - 0.6) * 2)
  else a * 10.

(** Step 5. *)
Definition object_score (d : Detection.t R) : R :=
  let b := Detection.bbox d in
  (center_score (distance_to_center (center b)) * 0.4
   + size_score (BBox.width b * BBox.height b) * 0.6) * Detection.confidence d.

(** The maximum of the non-empty list [v :: vs]. *)
Definition maximum (v : R) (vs : list R) : R := fold_right Rmax v vs.

(** The final score. *)
Definition composition_score (ds : list (Detection.t R)) : R :=
  match ds with
  | [] => 0.3
  | d :: ds' =>
      let best := maximum (object_score d) (map object_score ds') in
      let top_confidence :=
        maximum (Detection.confidence d) (map (@Detection.confidence R) ds') in
      clamp01 (if Rlt_dec 0.8 top_confidence then best * 1.2 else best)
  end.

End CompositionScorer.

(** ** Conditions on the world *)

Section Conditions.
Context {F : Type} `{PyFloat F}.
Import yolo_service.

(** The frame reference does not resolve to a file. *)
Definition frame_not_found (fs : FileSystem F) (frame_path : string) : Prop :=
  path_exists fs frame_path = false.

(** The file is there but [cv2.imread] produces no pixel data. *)
Definition frame_undecodable (fs : FileSystem F) (frame_path : string) : Prop :=
  path_exists fs frame_path = true /\ imread fs frame_path = None.

(** The frame loads and the detector raises on it. *)
Definition detector_fails (self : YOLOService.t F) (fs : FileSystem F)
    (frame_path : string) : Prop :=
  exists image e,
    path_exists fs frame_path = true /\
    imread fs frame_path = Some image /\
    predict (YOLOService.model self) image
      (YOLOService.confidence_threshold self) None = Raise e.

(** The frame loads, the detector answers and every reported class id has
    a name: the [try] block of [YOLOService.analyze_frame] reaches its
    [return]. *)
Definition analysis_succeeds (self : YOLOService.t F) (fs : FileSystem F)
    (frame_path : string) : Prop :=
  exists image results st,
    path_exists fs frame_path = true /\
    imread fs frame_path = Some image /\
    predict (YOLOService.model self) image
      (YOLOService.confidence_threshold self) None = Return results /\
    for_each results (YOLOService.process_result self) ([], false) = Return st.

(** How a detection loop extends its state [(detected_objects, has_product)]:
    it appends detections and raises the flag when one of them carries a
    label of [classes]. *)
Definition extends {D} (label : D -> string) (classes : gset string)
    (st st' : list D * bool) : Prop :=
  exists new,
    st'.1 = st.1 ++ new /\
    st'.2 = st.2 || existsb (fun d => bool_decide (label d ∈ classes)) new.

End Conditions.

(** A variance is never negative: the one fact about OpenCV's numbers that
    the bounds below rest on. *)
Definition image_measured (image : Image R) : Prop :=
  forall gray, cvtColor image = Return gray -> (0 <= Laplacian_var gray)%R.

Definition measured (fs : FileSystem R) : Prop :=
  forall p image, imread fs p = Some image -> image_measured image.

(** ** Binary64 values as scaled integers

    What the bounds in binary64 are proved with: a non-negative finite
    double [m * 2^e] is carried as the integer [m * 2^(e + scale)], and
    rounding to nearest, ties to even, is a function on these integers. *)

Section Binary64Values.
Local Open Scope Z_scope.

(** [rne m n]: [m / 2^n] rounded to the nearest integer, ties to even. *)
Definition rne (m n : Z) : Z :=
  let q := m / 2 ^ n in
  if n =? 0 then m
  else if Z.testbit m (n - 1) then
         if m mod 2 ^ (n - 1) =? 0 then (if Z.even q then q else q + 1) else q + 1
       else q.

(** The exponent of the format at magnitude [d]: [fexp], for binary64. *)
Definition fexp64 (d : Z) : Z := Z.max (d - 53) (-1074).

Definition scale : Z := 1200.

(** The canonical exponent, scaled, of a value. *)
Definition cexp (X : Z) : Z := Z.max (Z.log2 X + 1 - 53) (-1074 + scale).

(** Round to nearest, ties to even, in the format. *)
Definition Rnd (X : Z) : Z := rne X (cexp X) * 2 ^ cexp X.

(** The scaled value of a non-negative finite float. *)
Definition sf_value (x : spec_float) : option Z :=
  match x with
  | S754_zero _ => Some 0
  | S754_finite false m e => Some (Z.pos m * 2 ^ (e + scale))
  | _ => None
  end.

(** Floats that are zero, positive, or plus infinity. *)
Definition nonneg_sf (x : spec_float) : Prop :=
  match x with
  | S754_zero _ | S754_finite false _ _ | S754_infinity false => True
  | _ => False
  end.

Definition fval (x : PrimFloat.float) : option Z := sf_value (Prim2SF x).

(** [0 <= x <= 1] as the interpreter tests it. *)
Definition unit64 (x : PrimFloat.float) : Prop :=
  PrimFloat.leb (#0.0)%py x = true /\ PrimFloat.leb x (#1.0)%py = true.

(** The mantissa of the double 0.3, which is [m03 * 2^-54]. *)
Definition m03 : positive := 5404319552844595.

(** The scaled value of [x * 0.3]. *)
Definition times03 (v : Z) : Z := Rnd (v * Z.pos m03 / 2 ^ 54).

(** The blend [a*0.4 + b*0.3 + c*0.3] of the service, on scaled values. *)
Definition blend (va vb vc : Z) : Z := Rnd (Rnd (va + times03 vb) + times03 vc).

End Binary64Values.

(** The variance is a number and is not negative, as the interpreter
    tests it. *)
Definition image_measured64 (image : Image PrimFloat.float) : Prop :=
  forall gray, cvtColor image = Return gray ->
    PrimFloat.leb (#0.0)%py (Laplacian_var gray) = true.

Definition measured64 (fs : FileSystem PrimFloat.float) : Prop :=
  forall p image, imread fs p = Some image -> image_measured64 image.

(** ** A small world to run the code in *)

Section Demo.
Context {F : Type} `{PyFloat F}.
Local Open Scope py_scope.
Import yolo_service.

Definition demo_gray : Gray F :=
  {| Laplacian_var := #250.0; np_mean := #127.5; np_std := #51.0 |}.

Definition flat_black_gray : Gray F :=
  {| Laplacian_var := #0.0; np_mean := #0.0; np_std := #0.0 |}.

Definition demo_image : Image F :=
  {| shape := (720, 1280, 3)%Z; cvtColor := Return demo_gray |}.

Definition black_image : Image F :=
  {| shape := (480, 640, 3)%Z; cvtColor := Return flat_black_gray |}.

(** An image the detector chokes on. *)
Definition poison_image : Image F :=
  {| shape := (1, 1, 3)%Z; cvtColor := Return demo_gray |}.

(** An image whose grayscale conversion raises. *)
Definition odd_image : Image F :=
  {| shape := (720, 1280, 2)%Z;
     cvtColor := Raise (cv2_error "Invalid number of channels in input image") |}.

Definition demo_fs : FileSystem F :=
  {| path_exists p :=
       bool_decide (p ∈ ["f1.jpg"; "f2.jpg"; "f3.jpg"; "f4.jpg"; "f5.jpg";
                         "odd.jpg"; "truncated.jpg"]%string);
     imread p :=
       if bool_decide (p ∈ ["f1.jpg"; "f4.jpg"]%string) then Some demo_image
       else if bool_decide (p ∈ ["f2.jpg"; "f5.jpg"]%string) then Some black_image
       else if bool_decide (p = "f3.jpg"%string) then Some poison_image
       else if bool_decide (p = "odd.jpg"%string) then Some odd_image
       else None |}.

Definition bottle_box : Box F :=
  {| cls := 39; conf := #0.9;
     xyxy := (#512.0, #288.0, #768.0, #432.0);
     xyxyn := (#0.4, #0.4, #0.6, #0.6) |}.

Definition traffic_light_box : Box F :=
  {| cls := 9; conf := #0.7;
     xyxy := (#0.0, #0.0, #64.0, #72.0);
     xyxyn := (#0.0, #0.0, #0.05, #0.1) |}.

Definition shoe_box : Box F :=
  {| cls := 80; conf := #0.9;
     xyxy := (#512.0, #288.0, #768.0, #432.0);
     xyxyn := (#0.4, #0.4, #0.6, #0.6) |}.

Definition demo_names : gmap Z string :=
  {[ 0%Z := "person"; 9%Z := "traffic light"; 39%Z := "bottle" ]}%string.

(** Detects a bottle and a traffic light on large frames, nothing on
    640x480 ones, and raises on 1x1 ones. *)
Definition demo_model : YOLO F :=
  {| predict image conf iou :=
       match shape image with
       | (1, 1, _)%Z => Raise (ModelError "CUDA error: out of memory")
       | (480, 640, _)%Z => Return [ {| boxes := Some [] |} ]
       | _ => Return [ {| boxes := Some [bottle_box; traffic_light_box] |} ]
       end;
     names := demo_names |}.

(** A custom model whose label map has a [shoe] class. *)
Definition shoe_model : YOLO F :=
  {| predict image conf iou := Return [ {| boxes := Some [shoe_box] |} ];
     names := <[ 80%Z := "shoe"%string ]> demo_names |}.

Definition demo_service : YOLOService.t F :=
  {| YOLOService.confidence_threshold := #0.5;
     YOLOService.model_path := "yolov8n.pt";
     YOLOService.model := demo_model |}.

Definition shoe_service : YOLOService.t F :=
  {| YOLOService.confidence_threshold := #0.5;
     YOLOService.model_path := "shop.pt";
     YOLOService.model := shoe_model |}.

Definition shoe_analyzer : yolo_analyzer.FrameAnalyzer.t F :=
  {| yolo_analyzer.FrameAnalyzer.model := shoe_model;
     yolo_analyzer.FrameAnalyzer.confidence_threshold := #0.5;
     yolo_analyzer.FrameAnalyzer.iou_threshold := #0.5 |}.

Definition demo_analyzer : yolo_analyzer.FrameAnalyzer.t F :=
  {| yolo_analyzer.FrameAnalyzer.model := demo_model;
     yolo_analyzer.FrameAnalyzer.confidence_threshold := #0.5;
     yolo_analyzer.FrameAnalyzer.iou_threshold := #0.5 |}.

Definition request (frame_path : string) (frame_index : Z) (timestamp : F)
    : FrameAnalysisRequest.t F :=
  {| FrameAnalysisRequest.frame_path := frame_path;
     FrameAnalysisRequest.frame_index := frame_index;
     FrameAnalysisRequest.timestamp := timestamp |}.

(** Five frames; the detector fails on the third. *)
Definition demo_batch : list (FrameAnalysisRequest.t F) :=
  [ request "f1.jpg" 1 #0.0; request "f2.jpg" 2 #0.5; request "f3.jpg" 3 #1.0;
    request "f4.jpg" 4 #1.5; request "f5.jpg" 5 #2.0 ].

(** The detection of the worked example of the specification (§8). *)
Definition centered_detection : yolo_analyzer.Detection.t F :=
  {| yolo_analyzer.Detection.class_name := "bottle";
     yolo_analyzer.Detection.confidence := #1.0;
     yolo_analyzer.Detection.bbox :=
       {| yolo_analyzer.BBox.x := #0.4; yolo_analyzer.BBox.y := #0.4;
          yolo_analyzer.BBox.width := #0.2; yolo_analyzer.BBox.height := #0.2 |} |}.
End Demo.

(** ** Readings of the detection loops and of the start-up *)

Section Readings.
Context {F : Type} `{PyFloat F}.

(** The boxes the service visits: those of every result that has some, in
    order. *)
Definition all_boxes (results : list (Result F)) : list (Box F) :=
  concat (map (fun result => match boxes result with Some bs => bs | None => [] end)
              results).

(** The boxes the analyzer visits: those of [results[0]]. *)
Definition first_boxes (results : list (Result F)) : list (Box F) :=
  match results with
  | {| boxes := Some bs |} :: _ => bs
  | _ => []
  end.

(** A box and the [DetectedObject] the service reports for it. *)
Definition service_reports (m : YOLO F) (box : Box F)
    (d : yolo_service.DetectedObject.t F) : Prop :=
  names m !! cls box = Some (yolo_service.DetectedObject.class_name d) /\
  yolo_service.DetectedObject.confidence d = conf box /\
  yolo_service.DetectedObject.bbox d
  = [ (xyxy box).1.1.1; (xyxy box).1.1.2; (xyxy box).1.2; (xyxy box).2 ].

(** A box and the detection dict the analyzer reports for it. *)
Definition analyzer_reports (m : YOLO F) (box : Box F)
    (d : yolo_analyzer.Detection.t F) : Prop :=
  names m !! cls box = Some (yolo_analyzer.Detection.class_name d) /\
  yolo_analyzer.Detection.confidence d = conf box /\
  yolo_analyzer.Detection.bbox d
  = {| yolo_analyzer.BBox.x := (xyxyn box).1.1.1;
       yolo_analyzer.BBox.y := (xyxyn box).1.1.2;
       yolo_analyzer.BBox.width := ((xyxyn box).1.2 - (xyxyn box).1.1.1)%py;
       yolo_analyzer.BBox.height := ((xyxyn box).2 - (xyxyn box).1.1.2)%py |}.

(** [os.getenv(key, default)] *)
Definition os_getenv (environ : gmap string string) (key fallback : string) : string :=
  match environ !! key with
  | Some v => v
  | None => fallback
  end.

(** [startup_event] with its two reads of the environment; [float] is the
    builtin that parses the threshold and raises [ValueError] on text that
    is no number. *)
Definition startup_event_from_environ (environ : gmap string string)
    (float : string -> outcome F) (YOLO_load : string -> outcome (YOLO F))
    : outcome (option (yolo_service.YOLOService.t F)) :=
  let model_path := os_getenv environ "YOLO_MODEL_PATH" "yolov8n.pt" in
  confidence_threshold ← float (os_getenv environ "YOLO_CONFIDENCE_THRESHOLD" "0.5");
  yolo_service.startup_event YOLO_load model_path confidence_threshold.

(** The module-level [yolo_service] once the start-up hook has run: still
    [None] when the hook raised. *)
Definition yolo_service_after (startup : outcome (option (yolo_service.YOLOService.t F)))
    : option (yolo_service.YOLOService.t F) :=
  match startup with
  | Return svc => svc
  | Raise _ => None
  end.

(** The record [main] prints when anything raised. *)
Definition error_result : yolo_analyzer.FrameAnalysis.t F :=
  {| yolo_analyzer.FrameAnalysis.detected_objects := [];
     yolo_analyzer.FrameAnalysis.has_product := false;
     yolo_analyzer.FrameAnalysis.quality_score := (#0.0)%py;
     yolo_analyzer.FrameAnalysis.blur_score := (#1.0)%py;
     yolo_analyzer.FrameAnalysis.brightness_score := (#0.0)%py;
     yolo_analyzer.FrameAnalysis.composition_score := (#0.0)%py |}.

End Readings.

(** ** More of the small world *)

Section MoreDemo.
Context {F : Type} `{PyFloat F}.
Local Open Scope py_scope.

(** A model that reports a class id, 80, which its label map does not
    name. *)
Definition unnamed_model : YOLO F :=
  {| predict image conf iou := Return [ {| boxes := Some [bottle_box; shoe_box] |} ];
     names := demo_names |}.

(** A model that answers with two results; the second carries a person. *)
Definition person_box : Box F :=
  {| cls := 0; conf := #0.8;
     xyxy := (#100.0, #50.0, #300.0, #650.0);
     xyxyn := (#0.078125, #0.0694, #0.234375, #0.9028) |}.

Definition two_result_model : YOLO F :=
  {| predict image conf iou :=
       Return [ {| boxes := Some [traffic_light_box] |}; {| boxes := Some [person_box] |} ];
     names := demo_names |}.

Definition two_result_service : yolo_service.YOLOService.t F :=
  {| yolo_service.YOLOService.confidence_threshold := #0.5;
     yolo_service.YOLOService.model_path := "yolov8n.pt";
     yolo_service.YOLOService.model := two_result_model |}.

Definition two_result_analyzer : yolo_analyzer.FrameAnalyzer.t F :=
  {| yolo_analyzer.FrameAnalyzer.model := two_result_model;
     yolo_analyzer.FrameAnalyzer.confidence_threshold := #0.5;
     yolo_analyzer.FrameAnalyzer.iou_threshold := #0.5 |}.

Definition unnamed_service : yolo_service.YOLOService.t F :=
  {| yolo_service.YOLOService.confidence_threshold := #0.5;
     yolo_service.YOLOService.model_path := "custom.pt";
     yolo_service.YOLOService.model := unnamed_model |}.

Definition unnamed_analyzer : yolo_analyzer.FrameAnalyzer.t F :=
  {| yolo_analyzer.FrameAnalyzer.model := unnamed_model;
     yolo_analyzer.FrameAnalyzer.confidence_threshold := #0.5;
     yolo_analyzer.FrameAnalyzer.iou_threshold := #0.5 |}.

(** A small detection near the upper left corner. *)
Definition corner_detection : yolo_analyzer.Detection.t F :=
  {| yolo_analyzer.Detection.class_name := "traffic light";
     yolo_analyzer.Detection.confidence := #0.7;
     yolo_analyzer.Detection.bbox :=
       {| yolo_analyzer.BBox.x := #0.0; yolo_analyzer.BBox.y := #0.0;
          yolo_analyzer.BBox.width := #0.05; yolo_analyzer.BBox.height := #0.1 |} |}.

End MoreDemo.

(** A variance and a standard deviation are numbers and are not negative,
    as the interpreter tests it and in exact arithmetic. *)
Definition gray_measured64 (gray : Gray PrimFloat.float) : Prop :=
  PrimFloat.leb (#0.0)%py (Laplacian_var gray) = true /\
  PrimFloat.leb (#0.0)%py (np_std gray) = true.

Definition gray_measured (gray : Gray R) : Prop :=
  (0 <= Laplacian_var gray)%R /\ (0 <= np_std gray)%R.

Section Binary64Blends.
Local Open Scope Z_scope.

(** The mantissa of the double 0.4, which is [m04 * 2^-54]. *)
Definition m04 : positive := 7205759403792794.

(** The scaled value of [x * 0.4]. *)
Definition times04 (v : Z) : Z := Rnd (v * Z.pos m04 / 2 ^ 54).

End Binary64Blends.

(** ** The loop of the composition score, object by object *)

Section CompositionLoop.
Context {F : Type} `{PyFloat F}.
Local Open Scope py_scope.

(** [obj_score] of the loop body of [_calculate_composition_score]. *)
Definition obj_score (obj : yolo_analyzer.Detection.t F) : F :=
  let center_x := #0.5 in
  let center_y := #0.5 in
  let bbox := yolo_analyzer.Detection.bbox obj in
  let confidence := yolo_analyzer.Detection.confidence obj in
  let obj_center_x := yolo_analyzer.BBox.x bbox + yolo_analyzer.BBox.width bbox / #2 in
  let obj_center_y := yolo_analyzer.BBox.y bbox + yolo_analyzer.BBox.height bbox / #2 in
  let distance_from_center :=
    fsqrt (yolo_analyzer.FrameAnalyzer.pow2 (obj_center_x - center_x)
           + yolo_analyzer.FrameAnalyzer.pow2 (obj_center_y - center_y)) in
  let center_score := #1.0 - py_min (distance_from_center * #2) #1.0 in
  let obj_area := yolo_analyzer.BBox.width bbox * yolo_analyzer.BBox.height bbox in
  let size_score :=
    if (#0.1 <=? obj_area) && (obj_area <=? #0.6) then #1.0
    else if obj_area <? #0.1 then obj_area * #10
    else py_max #0.2 (#1.0 - (obj_area - #0.6) * #2) in
  (center_score * #0.4 + size_score * #0.6) * confidence.

(** What follows the loop, on its final state. *)
Definition boost_and_clamp (st : F * F) : F :=
  let '(composition_score, max_confidence) := st in
  let composition_score :=
    if #0.8 <? max_confidence then composition_score * #1.2
    else composition_score in
  py_min composition_score #1.0.

End CompositionLoop.

Section Binary64Order.
Local Open Scope Z_scope.

(** The place on the number line of a float that is not negative, with
    plus infinity above every finite one. *)
Definition rank (x : spec_float) : option Z :=
  match x with
  | S754_infinity false => Some (2 ^ (scale + 1100))
  | _ => sf_value x
  end.

Definition frank (x : PrimFloat.float) : option Z := rank (Prim2SF x).

End Binary64Order.

Section Binary64Saturation.
Local Open Scope Z_scope.

(** Overflow on scaled values: what reaches [2^1024] becomes plus
    infinity. *)
Definition sat (X : Z) : Z :=
  if X <? 2 ^ (1024 + scale) then X else 2 ^ (scale + 1100).


End Binary64Saturation.

(** ** The Lambda handlers of the three workers

    [auto-tagger/main.py], [caption-parser/main.py] and
    [thumbnail-generator/main.py] share one [lambda_handler]: the same loop
    over the SQS records, the same two handlers inside it and the same one
    around it.  What differs is the message model, the worker method and
    the SNS subject, which are the parameters of [Worker] below.  The state
    [W] is the world the worker acts on: S3, DynamoDB, SNS. *)

Module lambda_worker.

(** The exceptions the handler tells apart: pydantic's [ValidationError]
    and every other subclass of [Exception]. *)
Inductive error : Type :=
| ValidationError (msg : string)
| JSONDecodeError (msg : string)
| KeyError (key : string)
| TypeError (msg : string)
| ClientError (msg : string)
| Exception (msg : string).

(** [isinstance(e, ValidationError)] *)
Definition is_ValidationError (e : error) : bool :=
  match e with
  | ValidationError _ => true
  | _ => false
  end.

(** [str(e)] *)
Definition str (e : error) : string :=
  match e with
  | ValidationError msg | JSONDecodeError msg | TypeError msg
  | ClientError msg | Exception msg => msg
  | KeyError key => "'" +:+ key +:+ "'"
  end.

Inductive result (A : Type) : Type :=
| Ok (a : A)
| Err (e : error).
Arguments Ok {A} a.
Arguments Err {A} e.

(** One SQS record, a dict that may lack its [body]. *)
Record Record_ := {
  body : option string
}.

(** The event, a dict that may lack its [Records]. *)
Record Event := {
  Records : option (list Record_)
}.

(** The two counters the handler itself feeds. *)
Record Metrics := {
  InvalidMessage : nat;
  ProcessingError : nat
}.

(** What the handler returns: the status code and the decoded body. *)
Inductive Body : Type :=
| message (text : string)
| error_ (text : string).

Record Response := {
  statusCode : Z;
  body_ : Body
}.

(** A worker: [json.loads], the message model, the worker method
    ([generate_tags], [parse_caption], [generate_thumbnails]) and
    [publish_results]; the last two act on the world and may raise after
    having changed it. *)
Record Worker (J Msg Res W : Type) := {
  json_loads : string -> result J;
  validate : J -> result Msg;
  work : Msg -> W -> result Res * W;
  publish_results : Res -> W -> result unit * W
}.

Section Handler.
Context {J Msg Res W : Type} (worker : Worker J Msg Res W).

(** The inner [try] block, for one record. *)
Definition process_record (record : Record_) (w : W) : result unit * W :=
  match body record with
  | None => (Err (KeyError "body"), w)
  | Some text =>
      match json_loads worker text with
      | Err e => (Err e, w)
      | Ok message_body =>
          match validate worker message_body with
          | Err e => (Err e, w)
          | Ok data =>
              match work worker data w with
              | (Err e, w1) => (Err e, w1)
              | (Ok res, w1) => publish_results worker res w1
              end
          end
      end
  end.

(** The [for record in ...] loop with its two [except] clauses; an
    exception other than [ValidationError] is raised again and ends the
    loop. *)
Fixpoint process_records (records : list Record_) (w : W) (metrics : Metrics)
    : result unit * W * Metrics :=
  match records with
  | [] => (Ok tt, w, metrics)
  | record :: rest =>
      match process_record record w with
      | (Ok _, w1) => process_records rest w1 metrics
      | (Err e, w1) =>
          if is_ValidationError e then
            process_records rest w1
              {| InvalidMessage := S (InvalidMessage metrics);
                 ProcessingError := ProcessingError metrics |}
          else
            (Err e, w1,
             {| InvalidMessage := InvalidMessage metrics;
                ProcessingError := S (ProcessingError metrics) |})
      end
  end.

Definition lambda_handler (event : Event) (w : W) (metrics : Metrics)
    : Response * W * Metrics :=
  let records := match Records event with Some rs => rs | None => [] end in
  match process_records records w metrics with
  | (Ok _, w1, metrics1) =>
      ({| statusCode := 200;
          body_ := message "Processing completed successfully" |}, w1, metrics1)
  | (Err e, w1, metrics1) =>
      ({| statusCode := 500; body_ := error_ (str e) |}, w1, metrics1)
  end.


End Handler.

End lambda_worker.

(** A worker to run the handler with: the text [{] is not JSON, the text
    [invalid] fails validation, any other text is published as it is; the
    world is the list of what was published. *)
Definition demo_worker : lambda_worker.Worker string string string (list string) :=
  {| lambda_worker.json_loads text :=
       if bool_decide (text = "{"%string)
       then lambda_worker.Err (lambda_worker.JSONDecodeError "Expecting property name")
       else lambda_worker.Ok text;
     lambda_worker.validate j :=
       if bool_decide (j = "invalid"%string)
       then lambda_worker.Err (lambda_worker.ValidationError "1 validation error")
       else lambda_worker.Ok j;
     lambda_worker.work data w := (lambda_worker.Ok data, w);
     lambda_worker.publish_results res w := (lambda_worker.Ok tt, w ++ [res]) |}.

(** ** auto-tagger/main.py: the tag functions of [AutoTagger]

    The tag dicts are records; a list handed to [_combine_and_rank_tags]
    holds dicts or plain strings.  [str.lower] and [str.split] are the
    builtins of the interpreter and stay parameters. *)

(** [float(n)] for an [int] below [2^63]. *)
Class PyIntToFloat (F : Type) := {
  of_int : Z -> F
}.

#[export] Instance binary64_of_int : PyIntToFloat PrimFloat.float := {
  of_int n := PrimFloat.of_uint63 (Uint63.of_Z n)
}.

#[export] Instance exact_of_int : PyIntToFloat R := {
  of_int := IZR
}.

Module auto_tagger.

Module Tag.
Record t (F : Type) := {
  tag : string;
  confidence : F;
  category : string;
  source : string
}.
End Tag.

Inductive TagData (F : Type) : Type :=
| Str (s : string)
| Dict (d : Tag.t F).
Arguments Str {F} s.
Arguments Dict {F} d.

(** The fields of [TikTokContentData] the tagger reads. *)
Record TikTokContentData := {
  content_video_id : string;
  caption : string;
  content_processing_job_id : string
}.

Record TaggingResult (F : Type) := {
  video_id : string;
  processing_job_id : string;
  generated_tags : list (Tag.t F);
  categories : list (string * F);
  trending_tags : list string;
  seo_keywords : list string;
  content_themes : list string;
  processing_timestamp : string;
  confidence_score : F
}.

(** The fields of [ProcessingConfig] the tagger reads. *)
Record ProcessingConfig (F : Type) := {
  min_confidence : F;
  max_tags : Z
}.

(** An item of the tags table. *)
Record Item (F : Type) := {
  item_tag : string;
  item_video_id : string;
  item_timestamp : string;
  item_confidence : F;
  item_category : string
}.

Module AutoTagger.
Section Methods.
Context {F : Type} `{PyFloat F} `{PyIntToFloat F}.
Local Open Scope py_scope.

Variable lower : string -> string.
Variable split : string -> list string.

(** [s.strip(chars)] *)
Fixpoint lstrip (chars : list Ascii.ascii) (s : list Ascii.ascii) : list Ascii.ascii :=
  match s with
  | [] => []
  | c :: s' => if bool_decide (c ∈ chars) then lstrip chars s' else s
  end.

Definition strip (chars : string) (s : string) : string :=
  let cs := list_ascii_of_string chars in
  string_of_list_ascii
    (rev (lstrip cs (rev (lstrip cs (list_ascii_of_string s))))).

Definition common_product_words : list string :=
  [ "dress"; "shirt"; "shoes"; "bag"; "jewelry"; "makeup";
    "skincare"; "fashion"; "style"; "outfit"; "accessories" ]%string.

Definition _extract_caption_tags (caption : string) : list (Tag.t F) :=
  let words := split (lower caption) in
  fold_left
    (fun tags word =>
       let clean_word := strip ".,!?#@" word in
       if bool_decide (clean_word ∈ common_product_words)
       then tags ++ [ {| Tag.tag := clean_word;
                         Tag.confidence := #0.8;
                         Tag.category := "product";
                         Tag.source := "caption" |} ]
       else tags)
    words [].

Definition _generate_ai_tags : list (Tag.t F) :=
  [ {| Tag.tag := "trending"; Tag.confidence := #0.7;
       Tag.category := "trend"; Tag.source := "ai" |};
    {| Tag.tag := "viral"; Tag.confidence := #0.6;
       Tag.category := "engagement"; Tag.source := "ai" |} ].

Definition _get_trending_tags : list string :=
  [ "viral"; "trending"; "fyp"; "fashion"; "style" ]%string.

(** The dict a plain string is turned into. *)
Definition as_dict (tag_data : TagData F) : Tag.t F :=
  match tag_data with
  | Str s => {| Tag.tag := s; Tag.confidence := #0.5;
                Tag.category := "general"; Tag.source := "trending" |}
  | Dict d => d
  end.

(** The body of the inner loop; the state is [(all_tags, seen_tags)]. *)
Definition combine_step (min_confidence : F)
    (st : list (Tag.t F) * gset string) (tag_data : TagData F)
    : list (Tag.t F) * gset string :=
  let '(all_tags, seen_tags) := st in
  let tag_data := as_dict tag_data in
  let tag := lower (Tag.tag tag_data) in
  if negb (bool_decide (tag ∈ seen_tags)) && (min_confidence <=? Tag.confidence tag_data)
  then (all_tags ++ [tag_data], {[ tag ]} ∪ seen_tags)
  else (all_tags, seen_tags).

(** [sorted(all_tags, key=lambda x: x['confidence'], reverse=True)]: the
    sort is stable, also in reverse, so a tag goes before the first of the
    later ones whose confidence is not greater than its own.  This is what
    every stable sort returns when the confidences are numbers; the order
    Python leaves a list with NaN keys in is not modelled. *)
Fixpoint insert_by_confidence (x : Tag.t F) (l : list (Tag.t F)) : list (Tag.t F) :=
  match l with
  | [] => [x]
  | y :: l' =>
      if Tag.confidence x <? Tag.confidence y then y :: insert_by_confidence x l'
      else x :: l
  end.

Definition sorted_by_confidence (l : list (Tag.t F)) : list (Tag.t F) :=
  fold_right insert_by_confidence [] l.

(** The two nested loops, from the empty list and the empty set. *)
Definition combine_loops (min_confidence : F)
    (tag_lists : list (list (TagData F))) : list (Tag.t F) * gset string :=
  fold_left (fun st tag_list => fold_left (combine_step min_confidence) tag_list st)
    tag_lists ([], ∅).

Definition _combine_and_rank_tags (min_confidence : F)
    (tag_lists : list (list (TagData F))) : list (Tag.t F) :=
  let '(all_tags, seen_tags) := combine_loops min_confidence tag_lists in
  sorted_by_confidence all_tags.

(** [tags[:10]] and the like: a slice up to an [int] that may be
    negative. *)
Definition slice_to (n : Z) {A} (l : list A) : list A :=
  if (0 <=? n)%Z then take (Z.to_nat n) l
  else take (Z.to_nat (Z.of_nat (length l) + n)) l.

Definition _generate_seo_keywords (tags : list (Tag.t F)) : list string :=
  map (@Tag.tag F) (slice_to 10 tags).

(** [sum] adds the confidences from the left, starting from the [int] 0,
    and [0 + c] is the float [0.0 + c].  (From CPython 3.12 on, [sum]
    carries a correction term for floats along, which can change the last
    bit of the total; that variant is not modelled.) *)
Definition _calculate_overall_confidence (tags : list (Tag.t F)) : F :=
  match tags with
  | [] => #0.0
  | _ =>
      let total_confidence :=
        fold_left (fun acc tag => acc + Tag.confidence tag) tags #0.0 in
      py_min (total_confidence / of_int (Z.of_nat (length tags))) #1.0
  end.

(** [_classify_content] and [_identify_themes] return constants. *)
Definition _classify_content : list (string * F) :=
  [ ("fashion", #0.8); ("lifestyle", #0.6) ]%string.

Definition _identify_themes : list string := [ "fashion"; "lifestyle" ]%string.

(** [_store_tags]: one [put_item] per generated tag; the first one that
    raises ends the loop, and the exception is logged, not raised. *)
Variable Table : Type.
Variable put_item : Item F -> Table -> lambda_worker.result unit * Table.

Definition item_of (video_id timestamp : string) (tag_data : Tag.t F) : Item F :=
  {| item_tag := Tag.tag tag_data;
     item_video_id := video_id;
     item_timestamp := timestamp;
     item_confidence := Tag.confidence tag_data;
     item_category := Tag.category tag_data |}.

Fixpoint store_loop (video_id timestamp : string) (tags : list (Tag.t F))
    (table : Table) : Table :=
  match tags with
  | [] => table
  | tag_data :: rest =>
      match put_item (item_of video_id timestamp tag_data) table with
      | (lambda_worker.Ok _, table1) => store_loop video_id timestamp rest table1
      | (lambda_worker.Err _, table1) => table1
      end
  end.

(** The tags of a list are stored one after the other, each [put_item]
    returning. *)
Inductive stored (video_id timestamp : string) : list (Tag.t F) -> Table -> Table -> Prop :=
| stored_nil table : stored video_id timestamp [] table table
| stored_cons tag_data rest table table1 table2 :
    put_item (item_of video_id timestamp tag_data) table = (lambda_worker.Ok tt, table1) ->
    stored video_id timestamp rest table1 table2 ->
    stored video_id timestamp (tag_data :: rest) table table2.

Definition _store_tags (result : TaggingResult F) (table : Table) : Table :=
  store_loop (video_id result) (processing_timestamp result)
    (generated_tags result) table.

(** [generate_tags]; [timestamp] is what [_get_timestamp] reads off the
    clock.  With a typed message nothing in the [try] block raises. *)
Definition generate_tags (config : ProcessingConfig F) (content_data : TikTokContentData)
    (timestamp : string) (table : Table) : TaggingResult F * Table :=
  let caption_tags := _extract_caption_tags (caption content_data) in
  let ai_tags := _generate_ai_tags in
  let trending_tags := _get_trending_tags in
  let all_tags :=
    _combine_and_rank_tags (min_confidence config)
      [ map Dict caption_tags; map Dict ai_tags; map Str trending_tags ] in
  let categories := _classify_content in
  let seo_keywords := _generate_seo_keywords all_tags in
  let content_themes := _identify_themes in
  let result :=
    {| video_id := content_video_id content_data;
       processing_job_id := content_processing_job_id content_data;
       generated_tags := slice_to (max_tags config) all_tags;
       categories := categories;
       trending_tags := trending_tags;
       seo_keywords := seo_keywords;
       content_themes := content_themes;
       processing_timestamp := timestamp;
       confidence_score := _calculate_overall_confidence all_tags |} in
  (result, _store_tags result table).

End Methods.
End AutoTagger.

End auto_tagger.

(** ** What the loops of [_combine_and_rank_tags] keep true *)

Section CombineInvariant.
Import auto_tagger.
Context {F : Type} `{PyFloat F}.
Variable lower : string -> string.
Variable min_confidence : F.

(** [tag_data['tag'].lower()], the name under which a tag is looked up in
    [seen_tags]. *)
Definition tag_name (t : Tag.t F) : string := lower (Tag.tag t).

(** The state [(all_tags, seen_tags)] once the inputs [processed] have gone
    through the loops. *)
Definition combined (processed : list (TagData F))
    (st : list (Tag.t F) * gset string) : Prop :=
  st.2 = list_to_set (map tag_name st.1) /\
  NoDup (map tag_name st.1) /\
  (forall t, t ∈ st.1 ->
     (min_confidence <=? Tag.confidence t)%py = true /\
     exists tag_data, tag_data ∈ processed /\ AutoTagger.as_dict tag_data = t) /\
  (forall tag_data, tag_data ∈ processed ->
     (min_confidence <=? Tag.confidence (AutoTagger.as_dict tag_data))%py = true ->
     tag_name (AutoTagger.as_dict tag_data) ∈ map tag_name st.1).

End CombineInvariant.

(** A list of tags in the order [sorted(..., reverse=True)] asks for: no
    tag has a confidence below that of a later one. *)
Definition by_confidence64 (a b : auto_tagger.Tag.t PrimFloat.float) : Prop :=
  PrimFloat.leb (auto_tagger.Tag.confidence b) (auto_tagger.Tag.confidence a) = true.

Definition by_confidence (a b : auto_tagger.Tag.t R) : Prop :=
  (auto_tagger.Tag.confidence b <= auto_tagger.Tag.confidence a)%R.

(** The tags whose confidence equals [c], in the order of the list. *)
Definition with_confidence64 (c : PrimFloat.float)
    (l : list (auto_tagger.Tag.t PrimFloat.float)) : list (auto_tagger.Tag.t PrimFloat.float) :=
  List.filter (fun t => PrimFloat.eqb (auto_tagger.Tag.confidence t) c) l.

(** The names a tag of [generate_tags] can have: the product words of the
    caption, the two AI tags and the trending tags. *)
Definition tag_vocabulary : list string :=
  @auto_tagger.AutoTagger.common_product_words ++ [ "trending"; "viral"; "fyp" ]%string.

(** The tags of a list all have a confidence that is a number and not
    negative. *)
Definition ranked (l : list (auto_tagger.Tag.t PrimFloat.float)) : Prop :=
  Forall (fun t => exists r, frank (auto_tagger.Tag.confidence t) = Some r) l.

(** The [ProcessingConfig] of the tagger when the environment sets neither
    [MIN_CONFIDENCE] nor [MAX_TAGS]. *)
Definition default_tagger_config : auto_tagger.ProcessingConfig PrimFloat.float :=
  {| auto_tagger.min_confidence := (#0.6)%py; auto_tagger.max_tags := 20 |}.

(** A message with the given caption, and a run of [generate_tags] on it
    in which the caption is one word and the table never fails. *)
Definition demo_content (caption : string) : auto_tagger.TikTokContentData :=
  {| auto_tagger.content_video_id := "test_video_123";
     auto_tagger.caption := caption;
     auto_tagger.content_processing_job_id := "job_123" |}.

Definition demo_generate_tags (caption : string)
    : auto_tagger.TaggingResult PrimFloat.float :=
  (auto_tagger.AutoTagger.generate_tags (fun s => s) (fun s => [s])
     (fun item (table : list (auto_tagger.Item PrimFloat.float)) =>
        (lambda_worker.Ok tt, table ++ [item]))
     default_tagger_config (demo_content caption) "2024-01-01T00:00:00" []).1.

(** ** thumbnail-generator/main.py: [ThumbnailGenerator]

    Pillow, [requests] and S3 are what the generator is run against: the
    interface [Pillow] lists the calls it makes on images, [S3] is the
    state of the bucket.  An [int] inside an f-string is printed in
    decimal. *)

Module thumbnail_generator.

Import lambda_worker.

(** The fields of [TikTokVideoData]; of [product_info] only the keys
    matter. *)
Record TikTokVideoData := {
  video_id : string;
  video_url : string;
  thumbnail_url : option string;
  processing_job_id : string;
  product_info : option (gset string)
}.

(** One entry of [thumbnails], the dict [{'size': ..., 'url': ...}]. *)
Record Thumbnail := {
  size : string;
  url : string
}.

Record ThumbnailResult (F : Type) := {
  result_video_id : string;
  result_processing_job_id : string;
  thumbnails : list Thumbnail;
  primary_thumbnail_url : string;
  processing_timestamp : string;
  confidence_score : F
}.

Record ProcessingConfig := {
  s3_bucket : string;
  sns_topic_arn : string;
  thumbnail_sizes : list (Z * Z)
}.

(** [__post_init__] *)
Definition default_thumbnail_sizes : list (Z * Z) :=
  [ (400, 400); (800, 600); (600, 800); (1200, 630) ]%Z.

Definition ProcessingConfig_new (s3_bucket sns_topic_arn : string)
    (thumbnail_sizes : option (list (Z * Z))) : ProcessingConfig :=
  {| s3_bucket := s3_bucket;
     sns_topic_arn := sns_topic_arn;
     thumbnail_sizes :=
       match thumbnail_sizes with
       | None => default_thumbnail_sizes
       | Some sizes => sizes
       end |}.

(** The calls made on images and on the network. *)
Record Pillow (Image Bytes : Type) := {
  (** [requests.get], [raise_for_status] and [Image.open]; [None] when one
      of them raises *)
  fetch : string -> option Image;
  (** [Image.new('RGB', size, color)], which refuses some sizes *)
  Image_new : Z * Z -> string -> result Image;
  (** [image.copy()] followed by [thumbnail(size, LANCZOS)] *)
  thumbnail : Image -> Z * Z -> result Image;
  width : Image -> Z;
  height : Image -> Z;
  (** [final_image.paste(thumbnail, (x, y))] *)
  paste : Image -> Image -> Z * Z -> result Image;
  (** the half-transparent black layer of [_add_product_overlay]; [None]
      when a call raises *)
  darken : Image -> option Image;
  (** [image.save(buffer, format='JPEG', quality=85, optimize=True)] and
      [buffer.getvalue()] *)
  save_jpeg : Image -> result Bytes
}.

Section Methods.
Context {F : Type} `{PyFloat F}.
Context {Image Bytes S3 : Type} (pil : Pillow Image Bytes).
(** [s3_client.put_object(Bucket=..., Key=..., Body=..., ...)] *)
Variable put_object : string -> string -> Bytes -> S3 -> result unit * S3.
Variable config : ProcessingConfig.

(** [f"{size[0]}x{size[1]}"] *)
Definition size_text (size : Z * Z) : string :=
  pretty size.1 +:+ "x" +:+ pretty size.2.

Definition _download_image (url : string) : result Image :=
  match fetch pil url with
  | Some image => Ok image
  | None => Image_new pil (800, 600)%Z "lightgray"
  end.

Definition _add_product_overlay (image : Image) (product_info : gset string) : Image :=
  if bool_decide ("name"%string ∈ product_info) then
    match darken pil image with
    | Some image' => image'
    | None => image
    end
  else image.

Definition _upload_to_s3 (image : Image) (video_id : string) (size : Z * Z) (s3 : S3)
    : result string * S3 :=
  match save_jpeg pil image with
  | Err e => (Err e, s3)
  | Ok body =>
      let key := ("thumbnails/" +:+ video_id +:+ "/" +:+ size_text size +:+ ".jpg")%string in
      match put_object (s3_bucket config) key body s3 with
      | (Err e, s3') => (Err e, s3')
      | (Ok _, s3') =>
          (Ok ("https://" +:+ s3_bucket config +:+ ".s3.amazonaws.com/" +:+ key)%string, s3')
      end
  end.

(** [bool(video_data.product_info)]: neither [None] nor empty. *)
Definition has_product_info (video_data : TikTokVideoData) : option (gset string) :=
  match product_info video_data with
  | Some info => if bool_decide (info = ∅) then None else Some info
  | None => None
  end.

Definition _create_thumbnail (original_image : Image) (size : Z * Z)
    (video_data : TikTokVideoData) (s3 : S3) : result string * S3 :=
  match thumbnail pil original_image size with
  | Err e => (Err e, s3)
  | Ok thumbnail =>
      match Image_new pil size "white" with
      | Err e => (Err e, s3)
      | Ok final_image =>
          let x := ((size.1 - width pil thumbnail) / 2)%Z in
          let y := ((size.2 - height pil thumbnail) / 2)%Z in
          match paste pil final_image thumbnail (x, y) with
          | Err e => (Err e, s3)
          | Ok final_image =>
              let final_image :=
                match has_product_info video_data with
                | Some info => _add_product_overlay final_image info
                | None => final_image
                end in
              _upload_to_s3 final_image (video_id video_data) size s3
          end
      end
  end.

(** [video_data.thumbnail_url or video_data.video_url] *)
Definition source_url (video_data : TikTokVideoData) : string :=
  match thumbnail_url video_data with
  | Some u => if bool_decide (u = ""%string) then video_url video_data else u
  | None => video_url video_data
  end.

(** The [for size in ...] loop of [generate_thumbnails]. *)
Fixpoint thumbnails_loop (original_image : Image) (video_data : TikTokVideoData)
    (sizes : list (Z * Z)) (thumbnails : list Thumbnail) (s3 : S3)
    : result (list Thumbnail) * S3 :=
  match sizes with
  | [] => (Ok thumbnails, s3)
  | size :: rest =>
      match _create_thumbnail original_image size video_data s3 with
      | (Err e, s3') => (Err e, s3')
      | (Ok thumbnail_url, s3') =>
          thumbnails_loop original_image video_data rest
            (thumbnails ++ [ {| size := size_text size; url := thumbnail_url |} ]) s3'
      end
  end.

(** [generate_thumbnails]; [timestamp] is what [_get_timestamp] reads off
    the clock. *)
Definition generate_thumbnails (video_data : TikTokVideoData) (timestamp : string)
    (s3 : S3) : result (ThumbnailResult F) * S3 :=
  match _download_image (source_url video_data) with
  | Err e => (Err e, s3)
  | Ok original_image =>
      match thumbnails_loop original_image video_data (thumbnail_sizes config) [] s3 with
      | (Err e, s3') => (Err e, s3')
      | (Ok thumbnails, s3') =>
          let primary_thumbnail :=
            match thumbnails with
            | first :: _ => url first
            | [] => ""%string
            end in
          (Ok {| result_video_id := video_id video_data;
                 result_processing_job_id := processing_job_id video_data;
                 thumbnails := thumbnails;
                 primary_thumbnail_url := primary_thumbnail;
                 processing_timestamp := timestamp;
                 confidence_score := (#0.9)%py |}, s3')
      end
  end.

(** The entry [generate_thumbnails] lists for a size. *)
Definition thumbnail_entry (video_data : TikTokVideoData) (size : Z * Z) : Thumbnail :=
  {| size := size_text size;
     url := ("https://" +:+ s3_bucket config +:+ ".s3.amazonaws.com/"
             +:+ ("thumbnails/" +:+ video_id video_data +:+ "/"
                  +:+ size_text size +:+ ".jpg"))%string |}.

(** The sizes of a list are made one after the other, each from the state
    the one before left. *)
Inductive created (original_image : Image) (video_data : TikTokVideoData)
    : list (Z * Z) -> S3 -> S3 -> Prop :=
| created_nil s3 : created original_image video_data [] s3 s3
| created_cons size rest s3 s3' s3'' thumbnail_url :
    _create_thumbnail original_image size video_data s3 = (Ok thumbnail_url, s3') ->
    created original_image video_data rest s3' s3'' ->
    created original_image video_data (size :: rest) s3 s3''.

End Methods.

End thumbnail_generator.

(** A Pillow to run the generator with: an image is its size, [thumbnail]
    fits the image into the box without enlarging it, the JPEG of an
    image is its size as text; and a bucket that is the list of its keys
    and refuses the 600x800 thumbnail when [strict] is set. *)
Definition demo_pillow : thumbnail_generator.Pillow (Z * Z) string :=
  {| thumbnail_generator.fetch url :=
       if bool_decide (url = "https://example.com/thumbnail.jpg"%string)
       then Some (1080, 1920)%Z else None;
     thumbnail_generator.Image_new size color := lambda_worker.Ok size;
     thumbnail_generator.thumbnail image size :=
       lambda_worker.Ok (Z.min image.1 size.1, Z.min image.2 size.2);
     thumbnail_generator.width image := image.1;
     thumbnail_generator.height image := image.2;
     thumbnail_generator.paste final_image thumbnail position := lambda_worker.Ok final_image;
     thumbnail_generator.darken image := Some image;
     thumbnail_generator.save_jpeg image :=
       lambda_worker.Ok (thumbnail_generator.size_text image) |}.

Definition demo_put_object (strict : bool) (bucket key body : string) (s3 : list string)
    : lambda_worker.result unit * list string :=
  if strict && bool_decide (body = "600x800"%string)
  then (lambda_worker.Err (lambda_worker.ClientError "AccessDenied"), s3)
  else (lambda_worker.Ok tt, s3 ++ [key]).

Definition demo_video_data : thumbnail_generator.TikTokVideoData :=
  {| thumbnail_generator.video_id := "v1";
     thumbnail_generator.video_url := "https://www.tiktok.com/@test/video/123";
     thumbnail_generator.thumbnail_url := Some "https://example.com/thumbnail.jpg"%string;
     thumbnail_generator.processing_job_id := "job_123";
     thumbnail_generator.product_info := Some {[ "name"%string ]} |}.

(** ** The literals and the product of binary64 *)

Section Literals64.
Import PrimFloat.
#[local] Set Warnings "-inexact-float".

(** The decimal literals of the two source files, as [flit] reads them in
    binary64, are the doubles that the parser gives for the same text. *)
Lemma binary64_literals :
  ((#0.0)%py = 0.0 /\ (#0.1)%py = 0.1 /\ (#0.12)%py = 0.12 /\ (#0.2)%py = 0.2 /\
   (#0.3)%py = 0.3 /\ (#0.4)%py = 0.4 /\ (#0.5)%py = 0.5 /\ (#0.6)%py = 0.6 /\
   (#0.768)%py = 0.768 /\ (#0.8)%py = 0.8 /\ (#1.0)%py = 1.0 /\ (#1.2)%py = 1.2 /\
   (#2)%py = 2 /\ (#2.5)%py = 2.5 /\ (#5)%py = 5 /\ (#10)%py = 10 /\
   (#255.0)%py = 255.0 /\ (#1000.0)%py = 1000.0)%float.
Proof. repeat split; vm_compute; reflexivity. Qed.

#[local] Set Warnings "+inexact-float".
End Literals64.

Lemma mul_comm64 (x y : PrimFloat.float) : PrimFloat.mul x y = PrimFloat.mul y x.
Proof.
  apply Prim2SF_inj. rewrite !mul_spec. unfold SF64mul, SFmul.
  destruct (Prim2SF x) as [sx|sx| |sx mx ex], (Prim2SF y) as [sy|sy| |sy my ey];
    try reflexivity; rewrite (xorb_comm sx sy); try reflexivity.
  rewrite (Pos.mul_comm mx my), (Z.add_comm ex ey). reflexivity.
Qed.

(** ** The error monad and the loops *)

Lemma bind_Return {A B} (c : outcome A) (k : A -> outcome B) (b : B) :
  c ≫= k = Return b -> exists a, c = Return a /\ k a = Return b.
Proof.
  destruct c as [a|e]; cbn; intros Hk; [exists a; split; [reflexivity|exact Hk] | discriminate].
Qed.

Lemma try_except_Return {A} (body : outcome A) (h : exn -> A) :
  try_except body (fun e => mret (h e)) =
  Return (match body with Return a => a | Raise e => h e end).
Proof. destruct body; reflexivity. Qed.

Ltac inv_bind H :=
  let a := fresh "a" in
  let Ha := fresh "Ha" in
  apply bind_Return in H; destruct H as (a & Ha & H).

(** ** YOLOService.analyze_frame: the exception boundary *)

Section ServiceBoundary.
Context {F : Type} `{PyFloat F}.
Import yolo_service.

Lemma analyze_frame_returns (self : YOLOService.t F) fs frame_path frame_index timestamp :
  YOLOService.analyze_frame self fs frame_path frame_index timestamp =
  Return (match YOLOService.analyze_frame_body self fs frame_path frame_index timestamp with
          | Return r => r
          | Raise _ => YOLOService.failed_analysis frame_index timestamp
          end).
Proof. apply try_except_Return. Qed.

Lemma body_raises_when_frame_fails (self : YOLOService.t F) fs frame_path frame_index timestamp :
  frame_not_found fs frame_path \/ frame_undecodable fs frame_path
    \/ detector_fails self fs frame_path ->
  exists e,
    YOLOService.analyze_frame_body self fs frame_path frame_index timestamp = Raise e.
Proof.
  unfold YOLOService.analyze_frame_body.
  intros [Hnf | [[Hex Hdec] | (image & e & Hex & Hload & Hdet)]].
  - rewrite Hnf. cbn. eauto.
  - rewrite Hex, Hdec. cbn. eauto.
  - rewrite Hex, Hload, Hdet. cbn. eauto.
Qed.

Lemma body_succeeds_iff (self : YOLOService.t F) fs frame_path frame_index timestamp :
  analysis_succeeds self fs frame_path <->
  exists r,
    YOLOService.analyze_frame_body self fs frame_path frame_index timestamp = Return r.
Proof.
  unfold analysis_succeeds, YOLOService.analyze_frame_body. split.
  - intros (image & results & [objs hp] & Hex & Hload & Hdet & Hloop).
    rewrite Hex, Hload, Hdet. cbn. rewrite Hloop. cbn. eauto.
  - intros (r & Hr).
    destruct (path_exists fs frame_path); [|discriminate].
    destruct (imread fs frame_path) as [image|]; [|discriminate].
    cbn in Hr. inv_bind Hr. inv_bind Hr.
    exists image, a, a0. auto.
Qed.

Lemma analyze_frame_failed_or_succeeds (self : YOLOService.t F) fs frame_path frame_index timestamp :
  analysis_succeeds self fs frame_path \/
  YOLOService.analyze_frame self fs frame_path frame_index timestamp
  = Return (YOLOService.failed_analysis frame_index timestamp).
Proof.
  rewrite analyze_frame_returns.
  destruct (YOLOService.analyze_frame_body self fs frame_path frame_index timestamp) as [r|e] eqn:Hb.
  - left. apply (body_succeeds_iff self fs frame_path frame_index timestamp). eauto.
  - right. reflexivity.
Qed.

(** The batch loop appends one response per request. *)
Lemma analyze_batch_step_snoc (svc : YOLOService.t F) fs results request :
  exists r,
    analyze_batch_step svc fs results request = results ++ [r] /\
    YOLOService.analyze_frame svc fs
      (FrameAnalysisRequest.frame_path request)
      (FrameAnalysisRequest.frame_index request)
      (FrameAnalysisRequest.timestamp request) = Return r.
Proof.
  unfold analyze_batch_step. rewrite analyze_frame_returns. eauto.
Qed.

Lemma analyze_batch_loop (svc : YOLOService.t F) fs requests results :
  exists output,
    fold_left (analyze_batch_step svc fs) requests results = results ++ output /\
    Forall2 (fun request r =>
               YOLOService.analyze_frame svc fs
                 (FrameAnalysisRequest.frame_path request)
                 (FrameAnalysisRequest.frame_index request)
                 (FrameAnalysisRequest.timestamp request) = Return r)
            requests output.
Proof.
  revert results. induction requests as [|request requests IH]; intros results.
  - exists []. cbn. rewrite app_nil_r. split; [reflexivity | constructor].
  - cbn [fold_left].
    destruct (analyze_batch_step_snoc svc fs results request) as (r & -> & Hr).
    destruct (IH (results ++ [r])) as (output & -> & Hall).
    exists (r :: output). rewrite <- app_assoc. split; [reflexivity|].
    constructor; assumption.
Qed.

Lemma frame_index_preserved (self : YOLOService.t F) fs frame_path frame_index timestamp r :
  YOLOService.analyze_frame self fs frame_path frame_index timestamp = Return r ->
  FrameAnalysisResponse.frame_index r = frame_index /\
  FrameAnalysisResponse.timestamp r = timestamp.
Proof.
  rewrite analyze_frame_returns. intros [= <-].
  destruct (YOLOService.analyze_frame_body self fs frame_path frame_index timestamp) as [r|e] eqn:Hb.
  - unfold YOLOService.analyze_frame_body in Hb.
    destruct (path_exists fs frame_path); [|discriminate].
    destruct (imread fs frame_path) as [image|]; [|discriminate].
    cbn in Hb. inv_bind Hb. inv_bind Hb. destruct a0 as [objs hp].
    injection Hb as <-. split; reflexivity.
  - split; reflexivity.
Qed.

Lemma endpoint_is_service (svc : YOLOService.t F) fs request :
  analyze_frame (Some svc) fs request =
  YOLOService.analyze_frame svc fs
    (FrameAnalysisRequest.frame_path request)
    (FrameAnalysisRequest.frame_index request)
    (FrameAnalysisRequest.timestamp request).
Proof.
  unfold analyze_frame. rewrite analyze_frame_returns. reflexivity.
Qed.

End ServiceBoundary.

Unset Implicit Arguments.

(** ** The batch surface *)

(** C1.  With the service initialized, [analyze_batch] answers every
    sequence of requests with a sequence of the same length, in input
    order: position [i] of the output carries the [frame_index] of request
    [i] and is exactly the response the single-frame surface gives for that
    request alone; when the frame of request [i] cannot be found or decoded,
    or the detector fails on it, that position holds the degraded response,
    and the other positions are not affected. *)
Theorem analyze_batch_preserves_order_and_isolates_failures
    {F : Type} `{PyFloat F}
    (svc : yolo_service.YOLOService.t F) (fs : FileSystem F)
    (requests : list (yolo_service.FrameAnalysisRequest.t F)) :
  exists output,
    yolo_service.analyze_batch (Some svc) fs requests = Return output /\
    length output = length requests /\
    forall (i : nat) request, requests !! i = Some request ->
      exists r,
        output !! i = Some r /\
        yolo_service.FrameAnalysisResponse.frame_index r
          = yolo_service.FrameAnalysisRequest.frame_index request /\
        yolo_service.analyze_frame (Some svc) fs request = Return r /\
        (frame_not_found fs (yolo_service.FrameAnalysisRequest.frame_path request)
         \/ frame_undecodable fs (yolo_service.FrameAnalysisRequest.frame_path request)
         \/ detector_fails svc fs (yolo_service.FrameAnalysisRequest.frame_path request) ->
         r = yolo_service.YOLOService.failed_analysis
               (yolo_service.FrameAnalysisRequest.frame_index request)
               (yolo_service.FrameAnalysisRequest.timestamp request)).
Proof.
  destruct (analyze_batch_loop svc fs requests []) as (output & Hfold & Hall).
  exists output. cbn [yolo_service.analyze_batch app] in *.
  rewrite Hfold. split; [reflexivity|].
  split; [symmetry; eapply Forall2_length; exact Hall|].
  intros i request Hi.
  destruct (Forall2_lookup_l _ _ _ _ _ Hall Hi) as (r & Hr & Hsingle).
  exists r. split; [exact Hr|].
  split; [apply (frame_index_preserved _ _ _ _ _ Hsingle)|].
  split; [rewrite endpoint_is_service; exact Hsingle|].
  intros Hfail.
  destruct (body_raises_when_frame_fails
              (yolo_service.FrameAnalysisRequest.frame_index request)
              (yolo_service.FrameAnalysisRequest.timestamp request) Hfail) as (e & He).
  rewrite analyze_frame_returns, He in Hsingle. congruence.
Qed.

(** The five-frame batch whose third frame makes the detector raise, run in
    binary64: five responses, the third one degraded, the fourth computed
    as if it stood alone. *)
Lemma analyze_batch_five_frames :
  exists output,
    yolo_service.analyze_batch (Some demo_service) demo_fs
      (demo_batch (F := PrimFloat.float)) = Return output /\
    length output = 5%nat /\
    output !! 2%nat = Some (yolo_service.YOLOService.failed_analysis 3 (#1.0)%py) /\
    option_map Return (output !! 3%nat)
      = Some (yolo_service.analyze_frame (Some demo_service) demo_fs
                (request "f4.jpg" 4 (#1.5)%py)).
Proof.
  destruct (analyze_batch_preserves_order_and_isolates_failures
              demo_service demo_fs (demo_batch (F := PrimFloat.float)))
    as (output & Hout & Hlen & Hpos).
  exists output. split; [exact Hout|]. split; [exact Hlen|]. split.
  - destruct (Hpos 2%nat (request "f3.jpg" 3 (#1.0)%py) eq_refl)
      as (r & -> & _ & _ & Hdegraded).
    rewrite Hdegraded; [reflexivity|].
    right; right. exists poison_image, (ModelError "CUDA error: out of memory").
    repeat split; vm_compute; reflexivity.
  - destruct (Hpos 3%nat (request "f4.jpg" 4 (#1.5)%py) eq_refl)
      as (r & -> & _ & -> & _).
    reflexivity.
Defined.

(** C2.  When the frame cannot be located or decoded, or the detector call
    raises, [YOLOService.analyze_frame] returns a response whose
    [quality_score], [blur_score] and [brightness_score] are [0.0], whose
    [has_product] is false and whose detection list is empty; and no
    exception leaves [analyze_frame], so none leaves the batch surface
    either. *)
Theorem failed_frame_yields_zeroed_response
    {F : Type} `{PyFloat F}
    (self : yolo_service.YOLOService.t F) (fs : FileSystem F)
    (frame_path : string) (frame_index : Z) (timestamp : F)
    (Hfail : frame_not_found fs frame_path \/ frame_undecodable fs frame_path
             \/ detector_fails self fs frame_path) :
  (exists r,
     yolo_service.YOLOService.analyze_frame self fs frame_path frame_index timestamp
       = Return r /\
     yolo_service.FrameAnalysisResponse.quality_score r = (#0.0)%py /\
     yolo_service.FrameAnalysisResponse.blur_score r = (#0.0)%py /\
     yolo_service.FrameAnalysisResponse.brightness_score r = (#0.0)%py /\
     yolo_service.FrameAnalysisResponse.has_product r = false /\
     yolo_service.FrameAnalysisResponse.detected_objects r = []) /\
  (forall fs' frame_path' frame_index' timestamp' e,
     yolo_service.YOLOService.analyze_frame self fs' frame_path' frame_index' timestamp'
       <> Raise e) /\
  (forall fs' requests e,
     yolo_service.analyze_batch (Some self) fs' requests <> Raise e).
Proof.
  split; [|split].
  - destruct (body_raises_when_frame_fails frame_index timestamp Hfail) as (e & He).
    exists (yolo_service.YOLOService.failed_analysis frame_index timestamp).
    rewrite analyze_frame_returns, He. repeat split; reflexivity.
  - intros fs' p i t e. rewrite analyze_frame_returns. discriminate.
  - intros fs' requests e. cbn. discriminate.
Qed.

(** A frame reference that does not resolve, run in binary64. *)
Lemma failed_frame_missing_file :
  exists r,
    yolo_service.YOLOService.analyze_frame demo_service
      (demo_fs (F := PrimFloat.float)) "missing.jpg" 7 (#3.5)%py = Return r /\
    yolo_service.FrameAnalysisResponse.quality_score r = (#0.0)%py /\
    yolo_service.FrameAnalysisResponse.blur_score r = (#0.0)%py /\
    yolo_service.FrameAnalysisResponse.brightness_score r = (#0.0)%py /\
    yolo_service.FrameAnalysisResponse.has_product r = false /\
    yolo_service.FrameAnalysisResponse.detected_objects r = [].
Proof.
  refine (proj1 (failed_frame_yields_zeroed_response demo_service demo_fs
                   "missing.jpg"%string 7%Z (#3.5)%py (or_introl _))).
  vm_compute. reflexivity.
Defined.

(** ** has_product and the detection list *)

Section HasProduct.
Context {F : Type} `{PyFloat F}.

Lemma for_each_app_state {A S} (body : S -> A -> outcome S) (P : S -> S -> Prop) :
  (forall s, P s s) ->
  (forall s1 s2 s3, P s1 s2 -> P s2 s3 -> P s1 s3) ->
  (forall s a s', body s a = Return s' -> P s s') ->
  forall xs s s', for_each xs body s = Return s' -> P s s'.
Proof.
  intros Hrefl Htrans Hbody xs.
  induction xs as [|a xs IH]; intros s s' Hloop; cbn in Hloop.
  - injection Hloop as <-. apply Hrefl.
  - inv_bind Hloop. eapply Htrans; [eapply Hbody; eassumption | eapply IH; eassumption].
Qed.

Lemma extends_refl {D} (label : D -> string) classes st : extends label classes st st.
Proof. exists []. cbn. rewrite app_nil_r, orb_false_r. split; reflexivity. Qed.

Lemma extends_trans {D} (label : D -> string) classes st1 st2 st3 :
  extends label classes st1 st2 -> extends label classes st2 st3 ->
  extends label classes st1 st3.
Proof.
  intros (n1 & Ho1 & Hp1) (n2 & Ho2 & Hp2). exists (n1 ++ n2).
  rewrite Ho2, Ho1, Hp2, Hp1, existsb_app, app_assoc, orb_assoc. split; reflexivity.
Qed.

Lemma service_process_box_extends (self : yolo_service.YOLOService.t F) st box st' :
  yolo_service.YOLOService.process_box self st box = Return st' ->
  extends (@yolo_service.DetectedObject.class_name F)
    yolo_service.YOLOService.product_classes st st'.
Proof.
  unfold yolo_service.YOLOService.process_box. destruct st as [objs hp].
  intros Hbox. inv_bind Hbox. destruct (xyxy box) as [[[x1 y1] x2] y2].
  injection Hbox as <-. eexists [_]. cbn. split; [reflexivity|].
  rewrite orb_false_r. destruct (bool_decide _), hp; reflexivity.
Qed.

Lemma service_process_result_extends (self : yolo_service.YOLOService.t F) st result st' :
  yolo_service.YOLOService.process_result self st result = Return st' ->
  extends (@yolo_service.DetectedObject.class_name F)
    yolo_service.YOLOService.product_classes st st'.
Proof.
  unfold yolo_service.YOLOService.process_result.
  destruct (boxes result) as [bs|].
  - apply for_each_app_state;
      [apply extends_refl | apply extends_trans | apply service_process_box_extends].
  - intros [= <-]. apply extends_refl.
Qed.

Lemma analyzer_process_box_extends (self : yolo_analyzer.FrameAnalyzer.t F) st box st' :
  yolo_analyzer.FrameAnalyzer.process_box self st box = Return st' ->
  extends (@yolo_analyzer.Detection.class_name F)
    yolo_analyzer.FrameAnalyzer.product_classes st st'.
Proof.
  unfold yolo_analyzer.FrameAnalyzer.process_box. destruct st as [objs hp].
  intros Hbox. inv_bind Hbox. destruct (xyxyn box) as [[[x1 y1] x2] y2].
  injection Hbox as <-. eexists [_]. cbn. split; [reflexivity|].
  rewrite orb_false_r. destruct (bool_decide _), hp; reflexivity.
Qed.

Lemma extends_from_empty {D} (label : D -> string) classes objs hp :
  extends label classes ([], false) (objs, hp) ->
  hp = true <-> exists d, d ∈ objs /\ label d ∈ classes.
Proof.
  intros (new & Ho & Hp). cbn in Ho, Hp. subst objs hp.
  rewrite existsb_exists. split.
  - intros (d & Hin & Hd). exists d. split; [apply list_elem_of_In; exact Hin|].
    apply bool_decide_eq_true in Hd. exact Hd.
  - intros (d & Hin & Hd). exists d. split; [apply list_elem_of_In; exact Hin|].
    apply bool_decide_eq_true. exact Hd.
Qed.

Lemma service_has_product_iff (self : yolo_service.YOLOService.t F) fs p i t r :
  yolo_service.YOLOService.analyze_frame self fs p i t = Return r ->
  yolo_service.FrameAnalysisResponse.has_product r = true <->
  exists d, d ∈ yolo_service.FrameAnalysisResponse.detected_objects r /\
            yolo_service.DetectedObject.class_name d
              ∈ yolo_service.YOLOService.product_classes.
Proof.
  rewrite analyze_frame_returns. intros [= <-].
  destruct (yolo_service.YOLOService.analyze_frame_body self fs p i t) as [r|e] eqn:Hb.
  - unfold yolo_service.YOLOService.analyze_frame_body in Hb.
    destruct (path_exists fs p); [|discriminate].
    destruct (imread fs p) as [image|]; [|discriminate].
    cbn in Hb. inv_bind Hb. inv_bind Hb. destruct a0 as [objs hp].
    injection Hb as <-. cbn.
    apply extends_from_empty.
    revert Ha0. apply for_each_app_state;
      [apply extends_refl | apply extends_trans | apply service_process_result_extends].
  - cbn. split; [discriminate|]. intros (d & Hin & _). inversion Hin.
Qed.

Lemma analyzer_has_product_iff (self : yolo_analyzer.FrameAnalyzer.t F) fs p r :
  yolo_analyzer.FrameAnalyzer.analyze_frame self fs p = Return r ->
  yolo_analyzer.FrameAnalysis.has_product r = true <->
  exists d, d ∈ yolo_analyzer.FrameAnalysis.detected_objects r /\
            yolo_analyzer.Detection.class_name d
              ∈ yolo_analyzer.FrameAnalyzer.product_classes.
Proof.
  unfold yolo_analyzer.FrameAnalyzer.analyze_frame, try_except.
  destruct (yolo_analyzer.FrameAnalyzer.analyze_frame_body self fs p) as [r'|e] eqn:Hb;
    [|discriminate].
  intros [= <-]. unfold yolo_analyzer.FrameAnalyzer.analyze_frame_body in Hb.
  destruct (imread fs p) as [image|]; [|discriminate].
  inv_bind Hb. inv_bind Hb. destruct a0 as [objs hp]. inv_bind Hb.
  injection Hb as <-. cbn.
  apply extends_from_empty.
  destruct a as [|[[bs|]] rest].
  - injection Ha0 as <- <-. apply extends_refl.
  - revert Ha0. apply for_each_app_state;
      [apply extends_refl | apply extends_trans | apply analyzer_process_box_extends].
  - injection Ha0 as <- <-. apply extends_refl.
Qed.

End HasProduct.

(** C6.  On both paths [has_product] is true exactly when some entry of the
    returned detection list carries a label of that path's product-class
    set; membership is exact string equality, so it is case-sensitive.  In
    particular it is false for an empty detection list and for a list whose
    labels are all outside the vocabulary. *)
Theorem has_product_iff_some_label_in_vocabulary {F : Type} `{PyFloat F} :
  (forall (self : yolo_service.YOLOService.t F) fs frame_path frame_index timestamp r,
     yolo_service.YOLOService.analyze_frame self fs frame_path frame_index timestamp
       = Return r ->
     (yolo_service.FrameAnalysisResponse.has_product r = true <->
      exists d, d ∈ yolo_service.FrameAnalysisResponse.detected_objects r /\
                yolo_service.DetectedObject.class_name d
                  ∈ yolo_service.YOLOService.product_classes) /\
     (yolo_service.FrameAnalysisResponse.detected_objects r = [] ->
      yolo_service.FrameAnalysisResponse.has_product r = false) /\
     ((forall d, d ∈ yolo_service.FrameAnalysisResponse.detected_objects r ->
                 yolo_service.DetectedObject.class_name d
                   ∉ yolo_service.YOLOService.product_classes) ->
      yolo_service.FrameAnalysisResponse.has_product r = false)) /\
  (forall (self : yolo_analyzer.FrameAnalyzer.t F) fs image_path r,
     yolo_analyzer.FrameAnalyzer.analyze_frame self fs image_path = Return r ->
     (yolo_analyzer.FrameAnalysis.has_product r = true <->
      exists d, d ∈ yolo_analyzer.FrameAnalysis.detected_objects r /\
                yolo_analyzer.Detection.class_name d
                  ∈ yolo_analyzer.FrameAnalyzer.product_classes) /\
     (yolo_analyzer.FrameAnalysis.detected_objects r = [] ->
      yolo_analyzer.FrameAnalysis.has_product r = false) /\
     ((forall d, d ∈ yolo_analyzer.FrameAnalysis.detected_objects r ->
                 yolo_analyzer.Detection.class_name d
                   ∉ yolo_analyzer.FrameAnalyzer.product_classes) ->
      yolo_analyzer.FrameAnalysis.has_product r = false)) /\
  (("person"%string ∈ yolo_service.YOLOService.product_classes) /\
   ("Person"%string ∉ yolo_service.YOLOService.product_classes) /\
   ("person"%string ∈ yolo_analyzer.FrameAnalyzer.product_classes) /\
   ("Person"%string ∉ yolo_analyzer.FrameAnalyzer.product_classes)).
Proof.
  split; [|split].
  - intros self fs p i t r Hr.
    pose proof (service_has_product_iff self fs p i t r Hr) as Hiff.
    split; [exact Hiff|]. split.
    + intros Hnil. apply not_true_is_false. rewrite Hiff, Hnil.
      intros (d & Hin & _). inversion Hin.
    + intros Hout. apply not_true_is_false. rewrite Hiff.
      intros (d & Hin & Hd). exact (Hout d Hin Hd).
  - intros self fs p r Hr.
    pose proof (analyzer_has_product_iff self fs p r Hr) as Hiff.
    split; [exact Hiff|]. split.
    + intros Hnil. apply not_true_is_false. rewrite Hiff, Hnil.
      intros (d & Hin & _). inversion Hin.
    + intros Hout. apply not_true_is_false. rewrite Hiff.
      intros (d & Hin & Hd). exact (Hout d Hin Hd).
  - repeat split; apply (bool_decide_unpack _); vm_compute; reflexivity.
Qed.

(** Frame 2 of the demo batch has no detections, frame 1 shows a bottle and
    a traffic light. *)
Lemma has_product_on_demo_frames :
  (exists r,
     yolo_service.YOLOService.analyze_frame demo_service
       (demo_fs (F := PrimFloat.float)) "f2.jpg" 2 (#0.5)%py = Return r /\
     yolo_service.FrameAnalysisResponse.detected_objects r = [] /\
     yolo_service.FrameAnalysisResponse.has_product r = false) /\
  (exists r,
     yolo_service.YOLOService.analyze_frame demo_service
       (demo_fs (F := PrimFloat.float)) "f1.jpg" 1 (#0.0)%py = Return r /\
     yolo_service.FrameAnalysisResponse.has_product r = true).
Proof.
  destruct (@has_product_iff_some_label_in_vocabulary PrimFloat.float _) as (Hsvc & _ & _).
  split.
  - eexists. split; [vm_compute; reflexivity|]. split; [reflexivity|].
    refine (proj1 (proj2 (Hsvc demo_service demo_fs "f2.jpg"%string 2%Z (#0.5)%py _ _)) _);
      [vm_compute; reflexivity | reflexivity].
  - eexists. split; [vm_compute; reflexivity|].
    refine (proj2 (proj1 (Hsvc demo_service demo_fs "f1.jpg"%string 1%Z (#0.0)%py _ _)) _);
      [vm_compute; reflexivity|].
    eexists. split; [apply list_elem_of_here|].
    apply (bool_decide_unpack _). vm_compute. reflexivity.
Defined.

(** C7.  The two product-class sets are not the same set: the service's
    has the label [shoe], which the analyzer's lacks, and that is their
    only difference.  On a detection labelled [shoe] the service reports a
    product and the analyzer does not. *)
Theorem product_classes_differ_on_shoe :
  yolo_service.YOLOService.product_classes
    = yolo_analyzer.FrameAnalyzer.product_classes ∪ {[ "shoe"%string ]} /\
  ("shoe"%string ∉ yolo_analyzer.FrameAnalyzer.product_classes) /\
  yolo_service.YOLOService.product_classes
    <> yolo_analyzer.FrameAnalyzer.product_classes /\
  (exists r,
     yolo_service.YOLOService.analyze_frame shoe_service
       (demo_fs (F := PrimFloat.float)) "f1.jpg" 1 (#0.0)%py = Return r /\
     yolo_service.FrameAnalysisResponse.has_product r = true) /\
  (exists r,
     yolo_analyzer.FrameAnalyzer.analyze_frame shoe_analyzer
       (demo_fs (F := PrimFloat.float)) "f1.jpg" = Return r /\
     yolo_analyzer.FrameAnalysis.has_product r = false).
Proof.
  assert (Hshoe : "shoe"%string ∉ yolo_analyzer.FrameAnalyzer.product_classes)
    by (apply (bool_decide_unpack _); vm_compute; reflexivity).
  assert (Hunion : yolo_service.YOLOService.product_classes
            = yolo_analyzer.FrameAnalyzer.product_classes ∪ {[ "shoe"%string ]})
    by (apply (bool_decide_unpack _); vm_compute; reflexivity).
  split; [exact Hunion|]. split; [exact Hshoe|]. split.
  - intros Heq. apply Hshoe. rewrite <- Heq, Hunion. set_solver.
  - split; eexists; (split; [vm_compute; reflexivity | reflexivity]).
Qed.

(** ** Exact arithmetic *)

Lemma py_min_exact (a b : R) : py_min a b = Rmin a b.
Proof.
  unfold py_min, Rmin. cbn. unfold Rltb.
  destruct (Rlt_dec b a), (Rle_dec a b); lra.
Qed.

Lemma py_max_exact (a b : R) : py_max a b = Rmax a b.
Proof.
  unfold py_max, Rmax. cbn. unfold Rltb.
  destruct (Rlt_dec a b), (Rle_dec a b); lra.
Qed.

(** Unfolds the operations of [exact] and decides the comparisons. *)
Ltac exact_arith :=
  cbn [fadd fsub fmul fdiv fltb fleb flit fsqrt exact] in *;
  unfold Rltb, Rleb, Q2R in *; cbn [Qnum Qden] in *;
  repeat match goal with
         | |- context [Rlt_dec ?a ?b] => destruct (Rlt_dec a b)
         | |- context [Rle_dec ?a ?b] => destruct (Rle_dec a b)
         end;
  cbn [andb] in *; try lra.

Lemma service_blur_score_bounds (image : Image R) :
  image_measured image ->
  (0 <= yolo_service.YOLOService.calculate_blur_score image <= 1)%R.
Proof.
  unfold image_measured, yolo_service.YOLOService.calculate_blur_score.
  intros Hvar. destruct (cvtColor image) as [gray|e].
  - specialize (Hvar gray eq_refl). unfold py_min. exact_arith.
  - exact_arith.
Qed.

Lemma service_brightness_score_bounds (image : Image R) :
  (0 <= yolo_service.YOLOService.calculate_brightness_score image <= 1)%R.
Proof.
  unfold yolo_service.YOLOService.calculate_brightness_score.
  destruct (cvtColor image) as [gray|e].
  - unfold py_min, py_max. exact_arith.
  - exact_arith.
Qed.

(** ** The service blend *)

Section ServiceBlend.
Context {F : Type} `{PyFloat F}.
Local Open Scope py_scope.

(** What the [try] block returns when it reaches its [return]. *)
Lemma body_result (self : yolo_service.YOLOService.t F) fs frame_path frame_index timestamp r :
  yolo_service.YOLOService.analyze_frame_body self fs frame_path frame_index timestamp
    = Return r ->
  exists image,
    path_exists fs frame_path = true /\
    imread fs frame_path = Some image /\
    yolo_service.FrameAnalysisResponse.blur_score r
      = yolo_service.YOLOService.calculate_blur_score image /\
    yolo_service.FrameAnalysisResponse.brightness_score r
      = yolo_service.YOLOService.calculate_brightness_score image /\
    yolo_service.FrameAnalysisResponse.quality_score r
      = (if yolo_service.FrameAnalysisResponse.has_product r then #1.0 else #0.3) * #0.4
        + yolo_service.FrameAnalysisResponse.blur_score r * #0.3
        + yolo_service.FrameAnalysisResponse.brightness_score r * #0.3.
Proof.
  unfold yolo_service.YOLOService.analyze_frame_body. intros Hb.
  destruct (path_exists fs frame_path); [|discriminate].
  destruct (imread fs frame_path) as [image|]; [|discriminate].
  cbn in Hb. inv_bind Hb. inv_bind Hb. destruct a0 as [objs hp].
  injection Hb as <-. exists image. cbn. repeat split; reflexivity.
Qed.

Lemma succeeds_result (self : yolo_service.YOLOService.t F) fs frame_path frame_index timestamp r :
  analysis_succeeds self fs frame_path ->
  yolo_service.YOLOService.analyze_frame self fs frame_path frame_index timestamp
    = Return r ->
  yolo_service.YOLOService.analyze_frame_body self fs frame_path frame_index timestamp
    = Return r.
Proof.
  intros Hok Hr.
  apply (body_succeeds_iff self fs frame_path frame_index timestamp) in Hok.
  destruct Hok as (r' & Hb). rewrite analyze_frame_returns, Hb in Hr. congruence.
Qed.

End ServiceBlend.

(** C3.  For a frame that loads and is analyzed without an exception, the
    response of the service path has
    [quality_score = detection_term*0.4 + blur_score*0.3 + brightness_score*0.3]
    with [detection_term] 1.0 when [has_product] and 0.3 otherwise, and its
    [blur_score] is [min(laplacian_variance/1000, 1.0)].  These equations
    hold in any arithmetic, binary64 included.  In exact arithmetic the blur
    score grows with the variance: higher means sharper. *)
Theorem service_quality_score_blend :
  (forall (F : Type) (PF : PyFloat F)
     (self : yolo_service.YOLOService.t F) (fs : FileSystem F)
     (frame_path : string) (frame_index : Z) (timestamp : F)
     (r : yolo_service.FrameAnalysisResponse.t F),
     analysis_succeeds self fs frame_path ->
     yolo_service.YOLOService.analyze_frame self fs frame_path frame_index timestamp
       = Return r ->
     (yolo_service.FrameAnalysisResponse.quality_score r
      = (if yolo_service.FrameAnalysisResponse.has_product r then #1.0 else #0.3) * #0.4
        + yolo_service.FrameAnalysisResponse.blur_score r * #0.3
        + yolo_service.FrameAnalysisResponse.brightness_score r * #0.3)%py /\
     (forall image gray,
        imread fs frame_path = Some image -> cvtColor image = Return gray ->
        yolo_service.FrameAnalysisResponse.blur_score r
        = py_min (Laplacian_var gray / #1000.0)%py (#1.0)%py)) /\
  (forall (image image' : Image R) (gray gray' : Gray R),
     cvtColor image = Return gray -> cvtColor image' = Return gray' ->
     (Laplacian_var gray <= Laplacian_var gray')%R ->
     (yolo_service.YOLOService.calculate_blur_score image
      <= yolo_service.YOLOService.calculate_blur_score image')%R).
Proof.
  split.
  - intros F PF self fs frame_path frame_index timestamp r Hok Hr.
    apply succeeds_result in Hr; [|exact Hok].
    destruct (body_result _ _ _ _ _ _ Hr) as (image & _ & Hload & Hblur & _ & Hq).
    split; [exact Hq|].
    intros image' gray Hload' Hgray. rewrite Hload in Hload'. injection Hload' as <-.
    rewrite Hblur. unfold yolo_service.YOLOService.calculate_blur_score.
    rewrite Hgray. reflexivity.
  - intros image image' gray gray' Hgray Hgray' Hle.
    unfold yolo_service.YOLOService.calculate_blur_score.
    rewrite Hgray, Hgray'. unfold py_min. exact_arith.
Qed.

(** Frame 1 of the demo batch in binary64: variance 250 gives blur score
    0.25, and the blend is [1.0*0.4 + 0.25*0.3 + 1.0*0.3]. *)
Lemma service_quality_score_blend_demo :
  exists r,
    yolo_service.YOLOService.analyze_frame demo_service
      (demo_fs (F := PrimFloat.float)) "f1.jpg" 1 (#0.0)%py = Return r /\
    yolo_service.FrameAnalysisResponse.blur_score r = (#0.25)%py /\
    yolo_service.FrameAnalysisResponse.quality_score r
      = (#1.0 * #0.4 + #0.25 * #0.3 + #1.0 * #0.3)%py.
Proof.
  assert (Hok : analysis_succeeds demo_service (demo_fs (F := PrimFloat.float)) "f1.jpg").
  { eexists _, _, _. repeat split; vm_compute; reflexivity. }
  pose proof (analyze_frame_returns demo_service (demo_fs (F := PrimFloat.float))
                "f1.jpg" 1 (#0.0)%py) as Hr.
  match type of Hr with _ = Return ?v => set (r := v) in Hr end.
  exists r. split; [exact Hr|].
  destruct (proj1 service_quality_score_blend _ _ demo_service demo_fs "f1.jpg"%string
              1%Z (#0.0)%py r Hok Hr) as (Hq & Hblur).
  split.
  - rewrite (Hblur demo_image demo_gray eq_refl eq_refl). vm_compute. reflexivity.
  - rewrite Hq. vm_compute. reflexivity.
Defined.

(** ** Bounds of the service blend, in exact arithmetic *)

Lemma body_quality_bounds (self : yolo_service.YOLOService.t R) fs frame_path frame_index
    timestamp r :
  measured fs ->
  yolo_service.YOLOService.analyze_frame_body self fs frame_path frame_index timestamp
    = Return r ->
  (0.12 <= yolo_service.FrameAnalysisResponse.quality_score r <= 1)%R /\
  (0 <= yolo_service.FrameAnalysisResponse.blur_score r <= 1)%R /\
  (0 <= yolo_service.FrameAnalysisResponse.brightness_score r <= 1)%R.
Proof.
  intros Hfs Hb.
  destruct (body_result _ _ _ _ _ _ Hb) as (image & _ & Hload & Hblur & Hbright & Hq).
  pose proof (service_blur_score_bounds image (Hfs _ _ Hload)) as Bblur.
  pose proof (service_brightness_score_bounds image) as Bbright.
  rewrite <- Hblur in Bblur. rewrite <- Hbright in Bbright.
  split; [|split; assumption].
  rewrite Hq. destruct (yolo_service.FrameAnalysisResponse.has_product r); exact_arith.
Qed.

Section Binary64Rounding.
Local Open Scope Z_scope.

(** ** Rounding to nearest even, on integers *)

Lemma fexp64_eq d : SpecFloat.fexp prec emax d = fexp64 d.
Proof. reflexivity. Qed.

Lemma digits2_pos_size p : digits2_pos p = Pos.size p.
Proof. induction p; cbn; congruence. Qed.

Lemma Zdigits2_log2 m : 0 < m -> Zdigits2 m = Z.log2 m + 1.
Proof.
  destruct m as [|p|p]; try lia. intros _. cbn [Zdigits2].
  rewrite digits2_pos_size. destruct p; cbn; lia.
Qed.

Lemma shr_1_spec m r s :
  0 <= m ->
  shr_1 {| shr_m := m; shr_r := r; shr_s := s |}
  = {| shr_m := m / 2; shr_r := Z.odd m; shr_s := r || s |}.
Proof.
  intros Hm. destruct m as [|p|p]; [reflexivity| |lia].
  destruct p as [p|p|]; cbn [shr_1].
  - f_equal. apply Z.div_unique with 1; lia.
  - f_equal. apply Z.div_unique with 0; lia.
  - reflexivity.
Qed.

Lemma iter_pos_nat {A} (f : A -> A) p x :
  SpecFloat.iter_pos f p x = Nat.iter (Pos.to_nat p) f x.
Proof.
  revert x. induction p as [p IH|p IH|]; intros x; cbn [SpecFloat.iter_pos].
  - rewrite !IH, Pos2Nat.inj_xI. rewrite <- Nat.iter_succ_r, <- Nat.iter_add.
    f_equal. lia.
  - rewrite !IH, Pos2Nat.inj_xO. rewrite <- Nat.iter_add. f_equal. lia.
  - reflexivity.
Qed.

Lemma mod_pow2_succ m k :
  0 <= k ->
  m mod 2 ^ (k + 1) = (if Z.testbit m k then 2 ^ k else 0) + m mod 2 ^ k.
Proof.
  intros Hk.
  assert (H2k : 0 < 2 ^ k) by (apply Z.pow_pos_nonneg; lia).
  rewrite Z.pow_add_r, Z.pow_1_r by lia.
  rewrite Z.rem_mul_r by lia.
  rewrite Zmod_odd, Z.testbit_odd, Z.shiftr_div_pow2 by lia.
  destruct (Z.odd (m / 2 ^ k)); lia.
Qed.

Lemma shr_iter m (k : nat) :
  0 <= m ->
  Nat.iter (S k) shr_1 {| shr_m := m; shr_r := false; shr_s := false |}
  = {| shr_m := m / 2 ^ Z.of_nat (S k);
       shr_r := Z.testbit m (Z.of_nat k);
       shr_s := negb (m mod 2 ^ Z.of_nat k =? 0) |}.
Proof.
  intros Hm. induction k as [|k IH].
  - cbn [Nat.iter]. rewrite shr_1_spec by lia. cbn [Z.of_nat].
    rewrite Z.bit0_odd, Z.pow_0_r, Z.mod_1_r. f_equal.
  - rewrite Nat.iter_succ, IH.
    assert (H2k : 0 < 2 ^ Z.of_nat (S k)) by (apply Z.pow_pos_nonneg; lia).
    rewrite shr_1_spec by (apply Z.div_pos; lia).
    f_equal.
    + rewrite Z.div_div by lia. f_equal.
      rewrite (Nat2Z.inj_succ (S k)), Z.pow_succ_r by lia. lia.
    + rewrite Z.testbit_odd, Z.shiftr_div_pow2 by lia. reflexivity.
    + rewrite (Nat2Z.inj_succ k).
      replace (Z.succ (Z.of_nat k)) with (Z.of_nat k + 1) by lia.
      rewrite mod_pow2_succ by lia.
      assert (H2k' : 0 < 2 ^ Z.of_nat k) by (apply Z.pow_pos_nonneg; lia).
      pose proof (Z.mod_pos_bound m (2 ^ Z.of_nat k) H2k').
      destruct (Z.testbit m (Z.of_nat k)); cbn [orb].
      * symmetry. apply negb_true_iff, Z.eqb_neq. lia.
      * reflexivity.
Qed.

Lemma shr_round m e n :
  0 <= m -> 0 <= n ->
  exists mrs,
    shr {| shr_m := m; shr_r := false; shr_s := false |} e n = (mrs, e + n) /\
    round_nearest_even (shr_m mrs) (loc_of_shr_record mrs) = rne m n.
Proof.
  intros Hm Hn. destruct n as [|p|p]; [| |lia].
  - eexists. split; [cbn [shr]; rewrite Z.add_0_r; reflexivity|]. reflexivity.
  - eexists. split; [reflexivity|].
    rewrite iter_pos_nat.
    destruct (Pos2Nat.is_succ p) as (k & Hk). rewrite Hk, shr_iter by lia.
    assert (HS : Z.of_nat (S k) = Z.pos p) by (rewrite <- Hk; apply positive_nat_Z).
    assert (Hk' : Z.of_nat k = Z.pos p - 1) by lia.
    rewrite HS, Hk'. unfold rne.
    replace (Z.pos p =? 0) with false by reflexivity.
    cbn [shr_m shr_r shr_s loc_of_shr_record].
    destruct (Z.testbit m (Z.pos p - 1)), (m mod 2 ^ (Z.pos p - 1) =? 0);
      cbn [negb round_nearest_even]; reflexivity.
Qed.

Lemma log2_lt_pow2_digits m : 0 < m -> 2 ^ Z.log2 m <= m < 2 ^ (Z.log2 m + 1).
Proof. intros Hm. pose proof (Z.log2_spec m Hm). lia. Qed.

Lemma rne_bounds m n :
  0 <= m -> 0 <= n -> m / 2 ^ n <= rne m n <= m / 2 ^ n + 1.
Proof.
  intros Hm Hn. unfold rne.
  destruct (Z.eqb_spec n 0) as [->|Hn0].
  - rewrite Z.pow_0_r, Z.div_1_r. lia.
  - destruct (Z.testbit m (n - 1)), (m mod 2 ^ (n - 1) =? 0), (Z.even (m / 2 ^ n)); lia.
Qed.

Lemma div_pow2_lt m n d :
  0 <= m -> 0 <= n -> m < 2 ^ d -> d - n <= 53 -> m / 2 ^ n < 2 ^ 53.
Proof.
  intros Hm Hn Hd Hdn.
  assert (H2n : 0 < 2 ^ n) by (apply Z.pow_pos_nonneg; lia).
  apply Z.div_lt_upper_bound; [lia|].
  rewrite <- Z.pow_add_r by lia.
  eapply Z.lt_le_trans; [exact Hd|].
  destruct (Z_lt_le_dec d 0) as [Hneg|Hpos].
  - rewrite (Z.pow_neg_r 2 d) by lia. apply Z.lt_le_incl, Z.pow_pos_nonneg; lia.
  - apply Z.pow_le_mono_r; lia.
Qed.

Lemma rne_exact_top m n :
  0 <= m -> 0 <= n -> m / 2 ^ n < 2 ^ 53 -> 2 ^ 53 <= rne m n -> rne m n = 2 ^ 53.
Proof. intros Hm Hn Hq Htop. pose proof (rne_bounds m n Hm Hn). lia. Qed.

(** What [binary_round_aux] returns on a positive mantissa that has at
    least its canonical number of digits. *)
Lemma binary_round_aux_spec m e :
  0 < m -> e <= fexp64 (Zdigits2 m + e) ->
  binary_round_aux prec emax false m e loc_Exact =
  let E := fexp64 (Zdigits2 m + e) in
  let M := rne m (E - e) in
  if M =? 0 then S754_zero false
  else if M <? 2 ^ 53 then
         (if E <=? 971 then S754_finite false (Z.to_pos M) E else S754_infinity false)
       else
         (if E + 1 <=? 971 then S754_finite false (Z.to_pos (2 ^ 52)) (E + 1)
          else S754_infinity false).
Proof.
  intros Hm Hn. cbv zeta. set (E := fexp64 (Zdigits2 m + e)) in *.
  assert (HE : -1074 <= E) by (unfold E, fexp64; lia).
  assert (HdE : Zdigits2 m + e - 53 <= E) by (unfold E, fexp64; lia).
  unfold binary_round_aux, shr_fexp. rewrite fexp64_eq. fold E.
  cbn [shr_record_of_loc].
  destruct (shr_round m e (E - e)) as (mrs & -> & ->); [lia|lia|].
  replace (e + (E - e)) with E by lia.
  set (M := rne m (E - e)).
  assert (Hq : m / 2 ^ (E - e) < 2 ^ 53).
  { apply div_pow2_lt with (d := Zdigits2 m); [lia|lia| |lia].
    rewrite Zdigits2_log2 by lia. apply log2_lt_pow2_digits; lia. }
  pose proof (rne_bounds m (E - e) ltac:(lia) ltac:(lia)) as HM. fold M in HM.
  assert (HM0 : 0 <= M).
  { assert (0 <= m / 2 ^ (E - e)) by (apply Z.div_pos; [lia|apply Z.pow_pos_nonneg; lia]). lia. }
  rewrite fexp64_eq.
  destruct (Z.eqb_spec M 0) as [HMz|HMnz].
  - rewrite HMz. cbn [Zdigits2].
    replace (fexp64 (0 + E) - E) with (fexp64 E - E) by (f_equal; f_equal; lia).
    assert (Hle : fexp64 E - E <= 0) by (unfold fexp64; lia).
    destruct (fexp64 E - E) as [|p|p]; [reflexivity|lia|reflexivity].
  - assert (HMpos : 0 < M) by lia.
    destruct (Z.ltb_spec M (2 ^ 53)) as [Hlt|Hge].
    + assert (Hdig : Zdigits2 M <= 53).
      { rewrite Zdigits2_log2 by lia.
        assert (Z.log2 M < 53) by (apply Z.log2_lt_pow2; lia). lia. }
      assert (Hle : fexp64 (Zdigits2 M + E) - E <= 0) by (unfold fexp64; lia).
      destruct (fexp64 (Zdigits2 M + E) - E) as [|p|p]; [|lia|];
        cbn [shr fst snd shr_m]; destruct M as [|pM|pM]; try lia; reflexivity.
    + assert (HMtop : M = 2 ^ 53) by (apply rne_exact_top; lia).
      rewrite HMtop.
      replace (Zdigits2 (2 ^ 53)) with 54 by reflexivity.
      replace (fexp64 (54 + E) - E) with 1 by (unfold fexp64; lia).
      reflexivity.
Qed.

(** ** The rounding function on scaled values

    A non-negative binary64 value [m * 2^e] is carried as the integer
    [m * 2^(e + scale)]. *)

Lemma pow2_pos k : 0 <= k -> 0 < 2 ^ k.
Proof. intros. apply Z.pow_pos_nonneg; lia. Qed.

Lemma rne_decompose m n :
  0 <= m -> 1 <= n ->
  exists t,
    0 <= t < 2 ^ (n - 1) /\
    m mod 2 ^ (n - 1) = t /\
    m = 2 ^ (n - 1) * (2 * (m / 2 ^ n)) + (if Z.testbit m (n - 1) then 2 ^ (n - 1) else 0) + t.
Proof.
  intros Hm Hn. exists (m mod 2 ^ (n - 1)).
  pose proof (pow2_pos (n - 1) ltac:(lia)) as HH.
  split; [apply Z.mod_pos_bound; lia|]. split; [reflexivity|].
  pose proof (mod_pow2_succ m (n - 1) ltac:(lia)) as Hmod.
  replace (n - 1 + 1) with n in Hmod by lia.
  pose proof (Z.div_mod m (2 ^ n) ltac:(pose proof (pow2_pos n); lia)) as Hdm.
  assert (Hp : 2 ^ n = 2 * 2 ^ (n - 1))
    by (rewrite <- Z.pow_succ_r by lia; f_equal; lia).
  rewrite Hp in Hdm at 1. rewrite Hmod in Hdm. lia.
Qed.

Lemma rne_mono m1 m2 n :
  0 <= m1 <= m2 -> 0 <= n -> rne m1 n <= rne m2 n.
Proof.
  intros Hm Hn.
  destruct (Z.eqb_spec n 0) as [->|Hn0]; [unfold rne; cbn; lia|].
  pose proof (pow2_pos n Hn) as H2n.
  assert (Hq : m1 / 2 ^ n <= m2 / 2 ^ n) by (apply Z.div_le_mono; lia).
  pose proof (rne_bounds m1 n ltac:(lia) Hn) as B1.
  pose proof (rne_bounds m2 n ltac:(lia) Hn) as B2.
  destruct (Z.eq_dec (m1 / 2 ^ n) (m2 / 2 ^ n)) as [Heq|Hne]; [|lia].
  destruct (rne_decompose m1 n ltac:(lia) ltac:(lia)) as (t1 & Ht1 & Hmod1 & Hd1).
  destruct (rne_decompose m2 n ltac:(lia) ltac:(lia)) as (t2 & Ht2 & Hmod2 & Hd2).
  unfold rne. replace (n =? 0) with false by (symmetry; apply Z.eqb_neq; lia).
  rewrite Hmod1, Hmod2. rewrite <- Heq in *.
  set (q := m1 / 2 ^ n) in *. set (H := 2 ^ (n - 1)) in *.
  destruct (Z.testbit m1 (n - 1)), (Z.testbit m2 (n - 1)),
    (Z.eqb_spec t1 0), (Z.eqb_spec t2 0), (Z.even q); lia.
Qed.

Lemma rne_upper m n j :
  0 <= m < 2 ^ j -> 0 <= n <= j -> rne m n <= 2 ^ (j - n).
Proof.
  intros Hm Hn.
  destruct (Z.eqb_spec n 0) as [->|Hn0].
  - unfold rne. cbn [Z.eqb]. rewrite Z.sub_0_r. lia.
  - pose proof (pow2_pos n ltac:(lia)) as H2n.
    pose proof (rne_bounds m n ltac:(lia) ltac:(lia)) as B.
    assert (m / 2 ^ n < 2 ^ (j - n)).
    { apply Z.div_lt_upper_bound; [lia|].
      rewrite <- Z.pow_add_r by lia. replace (n + (j - n)) with j by lia. lia. }
    lia.
Qed.

Lemma rne_lower m n j :
  2 ^ j <= m -> 0 <= n <= j -> 2 ^ (j - n) <= rne m n.
Proof.
  intros Hm Hn.
  pose proof (pow2_pos j ltac:(lia)) as H2j.
  pose proof (pow2_pos n ltac:(lia)) as H2n.
  pose proof (rne_bounds m n ltac:(lia) ltac:(lia)) as B.
  assert (2 ^ (j - n) <= m / 2 ^ n).
  { apply Z.div_le_lower_bound; [lia|].
    rewrite <- Z.pow_add_r by lia. replace (n + (j - n)) with j by lia. lia. }
  lia.
Qed.

Lemma rne_nonneg m n : 0 <= m -> 0 <= n -> 0 <= rne m n.
Proof.
  intros Hm Hn. pose proof (rne_bounds m n Hm Hn).
  assert (0 <= m / 2 ^ n) by (apply Z.div_pos; [lia|apply pow2_pos; lia]). lia.
Qed.

Lemma cexp_bounds X : -1074 + scale <= cexp X /\ Z.log2 X + 1 - 53 <= cexp X.
Proof. unfold cexp. lia. Qed.

Lemma Rnd_nonneg X : 0 <= X -> 0 <= Rnd X.
Proof.
  intros HX. unfold Rnd. pose proof (cexp_bounds X). unfold scale in *.
  apply Z.mul_nonneg_nonneg; [apply rne_nonneg; lia|].
  apply Z.lt_le_incl, pow2_pos. lia.
Qed.

Lemma Rnd_0 : Rnd 0 = 0.
Proof. reflexivity. Qed.

Lemma Rnd_mono X Y : 0 <= X <= Y -> Rnd X <= Rnd Y.
Proof.
  intros HXY.
  destruct (Z.eq_dec X 0) as [->|HX0]; [rewrite Rnd_0; apply Rnd_nonneg; lia|].
  assert (HX : 0 < X) by lia. assert (HY : 0 < Y) by lia.
  pose proof (Z.log2_le_mono X Y ltac:(lia)) as Hlog.
  pose proof (cexp_bounds X) as [HcX1 HcX2].
  pose proof (cexp_bounds Y) as [HcY1 HcY2].
  unfold scale in *.
  assert (Hc : cexp X <= cexp Y) by (unfold cexp; lia).
  unfold Rnd.
  destruct (Z.eq_dec (cexp X) (cexp Y)) as [Heq|Hne].
  - rewrite Heq. apply Z.mul_le_mono_nonneg_r; [apply Z.lt_le_incl, pow2_pos; lia|].
    apply rne_mono; lia.
  - assert (HcY : cexp Y = Z.log2 Y + 1 - 53) by (unfold cexp in *; lia).
    assert (Hlt : Z.log2 X < Z.log2 Y) by (unfold cexp in *; lia).
    pose proof (log2_lt_pow2_digits X HX) as [_ HXup].
    pose proof (log2_lt_pow2_digits Y HY) as [HYlo _].
    pose proof (Z.log2_nonneg X) as HlX.
    set (j := Z.max (Z.log2 X + 1) (cexp X)).
    assert (Hj : j <= Z.log2 Y) by lia.
    assert (HXj : X < 2 ^ j).
    { eapply Z.lt_le_trans; [exact HXup|]. apply Z.pow_le_mono_r; lia. }
    pose proof (rne_upper X (cexp X) j ltac:(lia) ltac:(lia)) as Hup.
    pose proof (rne_lower Y (cexp Y) (Z.log2 Y) HYlo ltac:(lia)) as Hlo.
    pose proof (pow2_pos (cexp X) ltac:(lia)) as HpX.
    pose proof (pow2_pos (cexp Y) ltac:(lia)) as HpY.
    apply Z.le_trans with (2 ^ j).
    + replace j with ((j - cexp X) + cexp X) at 1 by lia.
      rewrite Z.pow_add_r by lia.
      apply Z.mul_le_mono_nonneg_r; lia.
    + apply Z.le_trans with (2 ^ Z.log2 Y); [apply Z.pow_le_mono_r; lia|].
      replace (Z.log2 Y) with ((Z.log2 Y - cexp Y) + cexp Y) at 1 by lia.
      rewrite Z.pow_add_r by lia.
      apply Z.mul_le_mono_nonneg_r; lia.
Qed.

Lemma rne_shift m n j :
  0 <= m -> 0 <= n -> 0 <= j -> rne (m * 2 ^ j) (n + j) = rne m n.
Proof.
  intros Hm Hn Hj.
  pose proof (pow2_pos j Hj) as H2j.
  destruct (Z.eqb_spec j 0) as [->|Hj0];
    [rewrite Z.pow_0_r, Z.mul_1_r, Z.add_0_r; reflexivity|].
  unfold rne.
  replace (n + j =? 0) with false by (symmetry; apply Z.eqb_neq; lia).
  rewrite Z.pow_add_r, Z.div_mul_cancel_r by (try apply Z.pow_nonzero; lia).
  destruct (Z.eqb_spec n 0) as [->|Hn0].
  - rewrite Z.pow_0_r, Z.div_1_r. cbn [Z.add].
    rewrite Z.mul_pow2_bits_low by lia. reflexivity.
  - replace (n + j - 1) with (j + (n - 1)) by lia.
    rewrite Z.mul_pow2_bits_add by lia.
    rewrite (Z.add_comm j (n - 1)), (Z.pow_add_r 2 (n - 1) j) by lia.
    rewrite Z.mul_mod_distr_r by (try apply Z.pow_nonzero; lia).
    replace (m mod 2 ^ (n - 1) * 2 ^ j =? 0) with (m mod 2 ^ (n - 1) =? 0); [reflexivity|].
    destruct (Z.eqb_spec (m mod 2 ^ (n - 1)) 0) as [->|Hne]; [reflexivity|].
    symmetry. apply Z.eqb_neq. nia.
Qed.

(** ** Non-negative binary64 values *)

Lemma Some_Z_eq (a b : Z) : Some a = Some b -> a = b.
Proof. congruence. Qed.

Lemma valid_finite s m e :
  valid_binary (S754_finite s m e) = true ->
  fexp64 (Zdigits2 (Z.pos m) + e) = e /\ e <= 971.
Proof.
  cbn [SpecFloat.valid_binary]. unfold bounded, canonical_mantissa.
  rewrite fexp64_eq. intros Hb. apply andb_true_iff in Hb. destruct Hb as [Hc He].
  apply Z.eqb_eq in Hc. apply Z.leb_le in He. change (emax - prec) with 971 in He. cbn [Zdigits2]. lia.
Qed.

Lemma valid_finite_digits s m e :
  valid_binary (S754_finite s m e) = true ->
  -1074 <= e <= 971 /\ Z.log2 (Z.pos m) + 1 <= 53 /\
  (e = -1074 \/ Z.log2 (Z.pos m) + 1 = 53).
Proof.
  intros Hv. destruct (valid_finite s m e Hv) as [Hc He].
  rewrite Zdigits2_log2 in Hc by lia. unfold fexp64 in Hc. lia.
Qed.

Lemma cexp_scaled m e :
  0 < m -> 0 <= e + scale ->
  cexp (m * 2 ^ (e + scale)) = fexp64 (Zdigits2 m + e) + scale.
Proof.
  intros Hm He. unfold cexp, fexp64.
  rewrite Z.log2_mul_pow2, Zdigits2_log2 by lia. unfold scale in *. lia.
Qed.

Lemma sf_value_nonneg x v : sf_value x = Some v -> 0 <= v.
Proof.
  destruct x as [s|s| |[|] m e]; unfold sf_value; intros Hv; try discriminate;
    apply Some_Z_eq in Hv; subst v; lia.
Qed.

(** A valid value is a fixed point of the rounding. *)
Lemma Rnd_val x v : valid_binary x = true -> sf_value x = Some v -> Rnd v = v.
Proof.
  destruct x as [s|s| |[|] m e]; unfold sf_value; intros Hv Hs; try discriminate;
    apply Some_Z_eq in Hs; subst v; try reflexivity.
  destruct (valid_finite_digits _ _ _ Hv) as (He & Hd & _).
  destruct (valid_finite _ _ _ Hv) as [Hc _].
  unfold Rnd. rewrite cexp_scaled by (unfold scale; lia). rewrite Hc.
  pose proof (rne_shift (Z.pos m) 0 (e + scale)
                ltac:(lia) ltac:(lia) ltac:(unfold scale; lia)) as Hs.
  change (0 + (e + scale)) with (e + scale) in Hs. rewrite Hs. reflexivity.
Qed.

Lemma round_val m e :
  0 < m -> e <= fexp64 (Zdigits2 m + e) -> - scale <= e ->
  m * 2 ^ (e + scale) < 2 ^ (scale + 64) ->
  sf_value (binary_round_aux prec emax false m e loc_Exact)
  = Some (Rnd (m * 2 ^ (e + scale))).
Proof.
  intros Hm Hn He Hbound.
  rewrite binary_round_aux_spec by assumption. cbv zeta.
  set (E := fexp64 (Zdigits2 m + e)) in *.
  assert (HX : Rnd (m * 2 ^ (e + scale)) = rne m (E - e) * 2 ^ (E + scale)).
  { unfold Rnd. rewrite cexp_scaled by lia. fold E.
    replace (E + scale) with ((E - e) + (e + scale)) at 1 by lia.
    rewrite rne_shift by lia. reflexivity. }
  rewrite HX.
  assert (HE : E <= 11).
  { assert (Z.log2 (m * 2 ^ (e + scale)) < scale + 64)
      by (apply Z.log2_lt_pow2; [apply Z.mul_pos_pos; [lia|apply pow2_pos; lia]|lia]).
    rewrite Z.log2_mul_pow2 in H by lia.
    unfold E, fexp64. rewrite Zdigits2_log2 by lia. lia. }
  assert (HElo : -1074 <= E) by (unfold E, fexp64; lia).
  pose proof (rne_nonneg m (E - e) ltac:(lia) ltac:(lia)) as HM0.
  destruct (Z.eqb_spec (rne m (E - e)) 0) as [->|HMnz]; [reflexivity|].
  destruct (Z.ltb_spec (rne m (E - e)) (2 ^ 53)) as [Hlt|Hge].
  - replace (E <=? 971) with true by (symmetry; apply Z.leb_le; lia).
    unfold sf_value. rewrite Z2Pos.id by lia. reflexivity.
  - replace (E + 1 <=? 971) with true by (symmetry; apply Z.leb_le; lia).
    assert (Htop : rne m (E - e) = 2 ^ 53).
    { apply rne_exact_top; try lia.
      apply div_pow2_lt with (d := Zdigits2 m); try lia.
      - rewrite Zdigits2_log2 by lia. apply log2_lt_pow2_digits; lia.
      - unfold E, fexp64. lia. }
    rewrite Htop. unfold sf_value.
    replace (E + 1 + scale) with (1 + (E + scale)) by lia.
    rewrite (Z.pow_add_r 2 1) by (unfold scale; lia).
    rewrite Z2Pos.id by lia. f_equal. change (2 ^ 53) with (2 ^ 52 * 2 ^ 1). ring.
Qed.

(** On valid non-negative floats the comparisons of the format are the
    comparisons of the values. *)
Lemma compare_val x y vx vy :
  valid_binary x = true -> valid_binary y = true ->
  sf_value x = Some vx -> sf_value y = Some vy ->
  SFcompare x y = Some (vx ?= vy).
Proof.
  intros Hx Hy Hvx Hvy.
  destruct x as [sx|sx| |[|] mx ex]; try discriminate;
    destruct y as [sy|sy| |[|] my ey]; try discriminate;
    unfold sf_value in Hvx, Hvy; apply Some_Z_eq in Hvx, Hvy; subst vx vy.
  - reflexivity.
  - cbn [SFcompare]. f_equal. symmetry. apply Z.compare_lt_iff.
    apply Z.mul_pos_pos; [lia|].
    destruct (valid_finite_digits _ _ _ Hy). apply pow2_pos. unfold scale. lia.
  - cbn [SFcompare]. f_equal. symmetry. apply Z.compare_gt_iff.
    apply Z.mul_pos_pos; [lia|].
    destruct (valid_finite_digits _ _ _ Hx). apply pow2_pos. unfold scale. lia.
  - cbn [SFcompare]. f_equal.
    destruct (valid_finite_digits _ _ _ Hx) as (Hex & Hdx & Hnx).
    destruct (valid_finite_digits _ _ _ Hy) as (Hey & Hdy & Hny).
    pose proof (log2_lt_pow2_digits (Z.pos mx) ltac:(lia)) as [Hmx1 Hmx2].
    pose proof (log2_lt_pow2_digits (Z.pos my) ltac:(lia)) as [Hmy1 Hmy2].
    assert (Hsep : forall m1 e1 m2 e2,
               0 < m1 -> m1 < 2 ^ 53 -> 2 ^ 52 <= m2 -> -1074 <= e1 -> e1 < e2 ->
               m1 * 2 ^ (e1 + scale) < m2 * 2 ^ (e2 + scale)).
    { intros m1 e1 m2 e2 H1 H2 H3 H4 H5.
      pose proof (pow2_pos (e1 + scale) ltac:(unfold scale; lia)) as P1.
      apply Z.lt_le_trans with (2 ^ 53 * 2 ^ (e1 + scale)); [nia|].
      apply Z.le_trans with (2 ^ 52 * 2 ^ (e2 + scale));
        [|apply Z.mul_le_mono_nonneg_r; [apply Z.lt_le_incl, pow2_pos; unfold scale; lia|lia]].
      rewrite <- !Z.pow_add_r by (unfold scale; lia).
      apply Z.pow_le_mono_r; lia. }
    assert (Htop : forall m, Z.log2 m + 1 <= 53 -> m < 2 ^ (Z.log2 m + 1) -> m < 2 ^ 53).
    { intros m Hd Hm. eapply Z.lt_le_trans; [exact Hm|]. apply Z.pow_le_mono_r; lia. }
    destruct (Z.compare_spec ex ey) as [Heq|Hlt|Hgt].
    + subst ey. rewrite Pos.compare_cont_spec. cbn [Pos.switch_Eq].
      change (Pos.compare mx my) with (Z.compare (Z.pos mx) (Z.pos my)).
      pose proof (pow2_pos (ex + scale) ltac:(unfold scale; lia)) as P.
      destruct (Z.compare_spec (Z.pos mx) (Z.pos my)) as [E|L|G]; symmetry.
      * apply Z.compare_eq_iff. congruence.
      * apply Z.compare_lt_iff. nia.
      * apply Z.compare_gt_iff. nia.
    + symmetry. apply Z.compare_lt_iff. apply Hsep; try lia.
      * apply Htop; lia.
      * assert (Z.log2 (Z.pos my) = 52) by lia. rewrite <- H. lia.
    + symmetry. apply Z.compare_gt_iff. apply Hsep; try lia.
      * apply Htop; lia.
      * assert (Z.log2 (Z.pos mx) = 52) by lia. rewrite <- H. lia.
Qed.

Lemma leb_val x y vx vy :
  valid_binary x = true -> valid_binary y = true ->
  sf_value x = Some vx -> sf_value y = Some vy ->
  SFleb x y = (vx <=? vy).
Proof.
  intros Hx Hy Hvx Hvy. unfold SFleb. rewrite (compare_val x y vx vy) by assumption.
  unfold Z.leb. destruct (vx ?= vy); reflexivity.
Qed.

Lemma ltb_val x y vx vy :
  valid_binary x = true -> valid_binary y = true ->
  sf_value x = Some vx -> sf_value y = Some vy ->
  SFltb x y = (vx <? vy).
Proof.
  intros Hx Hy Hvx Hvy. unfold SFltb. rewrite (compare_val x y vx vy) by assumption.
  unfold Z.ltb. destruct (vx ?= vy); reflexivity.
Qed.

(** ** Multiplication by a normal constant, addition, and the sign of a
       quotient *)

Lemma mul_val x mc ec vx :
  valid_binary x = true -> sf_value x = Some vx ->
  Z.log2 (Z.pos mc) = 52 -> -100 <= ec <= 0 ->
  vx < 2 ^ (scale + 10) ->
  sf_value (SF64mul x (S754_finite false mc ec))
  = Some (Rnd (vx * Z.pos mc / 2 ^ (- ec))).
Proof.
  intros Hx Hvx Hmc Hec Hbound.
  pose proof (log2_lt_pow2_digits (Z.pos mc) ltac:(lia)) as [Hmc1 Hmc2].
  rewrite Hmc in Hmc1, Hmc2. change (52 + 1) with 53 in Hmc2.
  destruct x as [s|s| |[|] mx ex]; try discriminate; unfold sf_value in Hvx;
    apply Some_Z_eq in Hvx; subst vx.
  - destruct s; reflexivity.
  - destruct (valid_finite_digits _ _ _ Hx) as (Hex & Hdx & _).
    unfold SF64mul, SFmul. cbn [xorb]. rewrite Pos2Z.inj_mul.
    pose proof (pow2_pos (ex + ec + scale) ltac:(unfold scale; lia)) as Hp.
    pose proof (pow2_pos (- ec) ltac:(lia)) as Hq.
    assert (Hsplit : 2 ^ (ex + scale) = 2 ^ (ex + ec + scale) * 2 ^ (- ec)).
    { rewrite <- Z.pow_add_r by (unfold scale; lia). f_equal. lia. }
    assert (HX : Z.pos mx * 2 ^ (ex + scale) * Z.pos mc / 2 ^ (- ec)
                 = Z.pos mx * Z.pos mc * 2 ^ (ex + ec + scale)).
    { rewrite Hsplit.
      replace (Z.pos mx * (2 ^ (ex + ec + scale) * 2 ^ (- ec)) * Z.pos mc)
        with (Z.pos mx * Z.pos mc * 2 ^ (ex + ec + scale) * 2 ^ (- ec)) by ring.
      apply Z.div_mul. lia. }
    rewrite HX. apply round_val.
    + lia.
    + rewrite Zdigits2_log2 by lia.
      pose proof (Z.log2_mul_below (Z.pos mx) (Z.pos mc) ltac:(lia) ltac:(lia)).
      pose proof (Z.log2_nonneg (Z.pos mx)).
      unfold fexp64. lia.
    + unfold scale. lia.
    + rewrite <- HX.
      apply Z.le_lt_trans with (Z.pos mx * 2 ^ (ex + scale) * Z.pos mc).
      * apply Z.div_le_upper_bound; [lia|].
        assert (0 <= Z.pos mx * 2 ^ (ex + scale) * Z.pos mc) by lia. nia.
      * apply Z.lt_le_trans with (2 ^ (scale + 10) * 2 ^ 53).
        -- apply Z.mul_lt_mono_nonneg; lia.
        -- rewrite <- Z.pow_add_r by (unfold scale; lia).
           apply Z.pow_le_mono_r; lia.
Qed.

Lemma pos_iter_xO m d : Z.pos (Pos.iter xO m d) = Z.pos m * 2 ^ Z.pos d.
Proof.
  induction d as [|d IH] using Pos.peano_ind.
  - cbn [Pos.iter]. rewrite Pos2Z.inj_xO. lia.
  - rewrite Pos.iter_succ, Pos2Z.inj_xO, IH, Pos2Z.inj_succ, Z.pow_succ_r by lia. ring.
Qed.

Lemma shl_align_fst m e e' :
  e' <= e -> Z.pos (fst (shl_align m e e')) = Z.pos m * 2 ^ (e - e').
Proof.
  intros He. unfold shl_align.
  destruct (e' - e) as [|d|d] eqn:Hd; cbn [fst]; try lia.
  - replace (e - e') with 0 by lia. lia.
  - rewrite pos_iter_xO. f_equal. f_equal. lia.
Qed.

Lemma binary_normalize_pos M e :
  0 < M -> e <= fexp64 (Zdigits2 M + e) ->
  binary_normalize prec emax M e false = binary_round_aux prec emax false M e loc_Exact.
Proof.
  intros HM He. destruct M as [|p|p]; try lia.
  unfold binary_normalize, binary_round, shl_align. rewrite fexp64_eq.
  cbn [Zdigits2] in He.
  destruct (fexp64 (Z.pos (digits2_pos p) + e) - e) as [|d|d] eqn:Hd; try lia; reflexivity.
Qed.

Lemma add_val x y vx vy :
  valid_binary x = true -> valid_binary y = true ->
  sf_value x = Some vx -> sf_value y = Some vy ->
  vx + vy < 2 ^ (scale + 64) ->
  sf_value (SF64add x y) = Some (Rnd (vx + vy)).
Proof.
  intros Hx Hy Hvx Hvy Hbound.
  destruct x as [sx|sx| |[|] mx ex]; try discriminate;
    destruct y as [sy|sy| |[|] my ey]; try discriminate.
  - unfold sf_value in Hvx, Hvy. apply Some_Z_eq in Hvx, Hvy. subst.
    destruct sx, sy; reflexivity.
  - unfold sf_value in Hvx. apply Some_Z_eq in Hvx. subst vx.
    rewrite Z.add_0_l, (Rnd_val _ _ Hy Hvy). exact Hvy.
  - unfold sf_value in Hvy. apply Some_Z_eq in Hvy. subst vy.
    rewrite Z.add_0_r, (Rnd_val _ _ Hx Hvx). exact Hvx.
  - unfold sf_value in Hvx, Hvy. apply Some_Z_eq in Hvx, Hvy. subst vx vy.
    destruct (valid_finite_digits _ _ _ Hx) as (Hex & Hdx & _).
    destruct (valid_finite_digits _ _ _ Hy) as (Hey & Hdy & _).
    destruct (valid_finite _ _ _ Hx) as [Hcx _].
    destruct (valid_finite _ _ _ Hy) as [Hcy _].
    rewrite Zdigits2_log2 in Hcx, Hcy by lia.
    unfold SF64add, SFadd. cbn [cond_Zopp].
    set (ez := Z.min ex ey).
    pose proof (shl_align_fst mx ex ez ltac:(unfold ez; lia)) as Hax.
    pose proof (shl_align_fst my ey ez ltac:(unfold ez; lia)) as Hay.
    set (M := Z.pos (fst (shl_align mx ex ez)) + Z.pos (fst (shl_align my ey ez))).
    pose proof (pow2_pos (ex - ez) ltac:(unfold ez; lia)) as Hpx.
    pose proof (pow2_pos (ey - ez) ltac:(unfold ez; lia)) as Hpy.
    assert (HM : 0 < M) by (unfold M; lia).
    assert (HMx : Z.pos mx * 2 ^ (ex - ez) <= M) by (unfold M; lia).
    assert (HMy : Z.pos my * 2 ^ (ey - ez) <= M) by (unfold M; lia).
    assert (Hval : M * 2 ^ (ez + scale)
                   = Z.pos mx * 2 ^ (ex + scale) + Z.pos my * 2 ^ (ey + scale)).
    { unfold M. rewrite Hax, Hay, Z.mul_add_distr_r, <- !Z.mul_assoc.
      rewrite <- !Z.pow_add_r by (unfold ez, scale; lia).
      f_equal; f_equal; f_equal; lia. }
    assert (Hpre : ez <= fexp64 (Zdigits2 M + ez)).
    { rewrite Zdigits2_log2 by lia.
      destruct (Z.le_ge_cases ex ey) as [Hle|Hge].
      - assert (Hez : ez = ex) by (unfold ez; lia). rewrite Hez in *.
        replace (ex - ex) with 0 in HMx by lia. rewrite Z.pow_0_r, Z.mul_1_r in HMx.
        pose proof (Z.log2_le_mono _ _ HMx). unfold fexp64 in *. lia.
      - assert (Hez : ez = ey) by (unfold ez; lia). rewrite Hez in *.
        replace (ey - ey) with 0 in HMy by lia. rewrite Z.pow_0_r, Z.mul_1_r in HMy.
        pose proof (Z.log2_le_mono _ _ HMy). unfold fexp64 in *. lia. }
    rewrite binary_normalize_pos by assumption.
    rewrite <- Hval. apply round_val; try assumption.
    + unfold ez, scale. lia.
    + rewrite Hval. exact Hbound.
Qed.

Lemma shr_1_nonneg mrs : 0 <= shr_m mrs -> 0 <= shr_m (shr_1 mrs).
Proof.
  destruct mrs as [m r s]. cbn [shr_m]. intros Hm. rewrite shr_1_spec by lia.
  cbn [shr_m]. apply Z.div_pos; lia.
Qed.

Lemma shr_nonneg mrs e n : 0 <= shr_m mrs -> 0 <= shr_m (fst (shr mrs e n)).
Proof.
  intros Hm. unfold shr. destruct n as [|p|p]; cbn [fst]; try assumption.
  rewrite iter_pos_nat. induction (Pos.to_nat p) as [|k IH]; cbn [Nat.iter].
  - assumption.
  - apply shr_1_nonneg, IH.
Qed.

Lemma round_nearest_even_nonneg m l : 0 <= m -> 0 <= round_nearest_even m l.
Proof.
  intros Hm. destruct l as [|[| |]]; cbn [round_nearest_even];
    try destruct (Z.even m); lia.
Qed.

Lemma binary_round_aux_nonneg mz ez lz :
  0 <= mz -> nonneg_sf (binary_round_aux prec emax false mz ez lz).
Proof.
  intros Hm. unfold binary_round_aux, shr_fexp.
  set (n1 := SpecFloat.fexp prec emax (Zdigits2 mz + ez) - ez).
  pose proof (shr_nonneg (shr_record_of_loc mz lz) ez n1) as H1.
  destruct (shr (shr_record_of_loc mz lz) ez n1) as [mrs' e'] eqn:Hs1. cbn [fst] in H1.
  assert (H1' : 0 <= shr_m mrs').
  { apply H1. destruct lz as [|[| |]]; cbn; exact Hm. }
  set (m2 := round_nearest_even (shr_m mrs') (loc_of_shr_record mrs')).
  assert (Hm2 : 0 <= m2) by (apply round_nearest_even_nonneg; exact H1').
  set (n2 := SpecFloat.fexp prec emax (Zdigits2 m2 + e') - e').
  pose proof (shr_nonneg (shr_record_of_loc m2 loc_Exact) e' n2) as H2.
  destruct (shr (shr_record_of_loc m2 loc_Exact) e' n2) as [mrs'' e''] eqn:Hs2.
  cbn [fst] in H2. specialize (H2 Hm2).
  destruct (shr_m mrs'') as [|p|p]; [exact I| |lia].
  destruct (e'' <=? emax - prec); exact I.
Qed.

Lemma div_nonneg x my ey :
  nonneg_sf x -> nonneg_sf (SF64div x (S754_finite false my ey)).
Proof.
  destruct x as [s|[|]| |[|] mx ex]; cbn [nonneg_sf]; intros Hx; try contradiction.
  - destruct s; exact I.
  - exact I.
  - unfold SF64div, SFdiv. cbn [xorb].
    destruct (SFdiv_core_binary prec emax (Z.pos mx) ex (Z.pos my) ey) as [[mz ez] lz] eqn:Hcore.
    apply binary_round_aux_nonneg.
    unfold SFdiv_core_binary in Hcore. cbv zeta in Hcore.
    set (m' := match _ with Z.pos _ => _ | Z0 => _ | Z.neg _ => _ end) in Hcore.
    assert (Hm' : 0 <= m').
    { unfold m'. destruct (_ - _)%Z; try lia. apply Z.shiftl_nonneg. lia. }
    pose proof (Z_div_mod m' (Z.pos my) ltac:(lia)) as Hdm.
    destruct (Z.div_eucl m' (Z.pos my)) as [q r]. injection Hcore as <- _ _.
    destruct Hdm as [Hdm Hr]. nia.
Qed.

Lemma fval_valid (x : PrimFloat.float) : valid_binary (Prim2SF x) = true.
Proof. apply Prim2SF_valid. Qed.

Lemma fleb_val (x y : PrimFloat.float) vx vy :
  fval x = Some vx -> fval y = Some vy -> PrimFloat.leb x y = (vx <=? vy).
Proof. intros Hx Hy. rewrite leb_spec. apply leb_val; auto using fval_valid. Qed.

Lemma fltb_val (x y : PrimFloat.float) vx vy :
  fval x = Some vx -> fval y = Some vy -> PrimFloat.ltb x y = (vx <? vy).
Proof. intros Hx Hy. rewrite ltb_spec. apply ltb_val; auto using fval_valid. Qed.

Lemma fval_0 : fval (#0.0)%py = Some 0.
Proof. reflexivity. Qed.

Lemma fval_1 : fval (#1.0)%py = Some (2 ^ scale).
Proof. vm_compute. reflexivity. Qed.

Lemma nonneg_of_leb_0 (x : PrimFloat.float) :
  PrimFloat.leb (#0.0)%py x = true -> nonneg_sf (Prim2SF x).
Proof.
  rewrite leb_spec. change (Prim2SF (#0.0)%py) with (S754_zero false).
  destruct (Prim2SF x) as [s|[|]| |[|] m e]; cbn; try discriminate; auto.
Qed.

Lemma unit64_val (x : PrimFloat.float) :
  unit64 x <-> exists v, fval x = Some v /\ 0 <= v <= 2 ^ scale.
Proof.
  split.
  - intros [H0 H1]. pose proof (nonneg_of_leb_0 x H0) as Hnn.
    assert (Hv : exists v, fval x = Some v).
    { unfold fval. rewrite leb_spec in H1.
      change (Prim2SF (#1.0)%py) with (S754_finite false 4503599627370496 (-52)) in H1.
      destruct (Prim2SF x) as [s|[|]| |[|] m e]; cbn in Hnn; try contradiction;
        try discriminate; unfold sf_value; eauto. }
    destruct Hv as (v & Hv). exists v. split; [exact Hv|].
    rewrite (fleb_val _ _ _ _ fval_0 Hv) in H0.
    rewrite (fleb_val _ _ _ _ Hv fval_1) in H1.
    apply Z.leb_le in H0, H1. lia.
  - intros (v & Hv & Hb). split.
    + rewrite (fleb_val _ _ _ _ fval_0 Hv). apply Z.leb_le. lia.
    + rewrite (fleb_val _ _ _ _ Hv fval_1). apply Z.leb_le. lia.
Qed.

Lemma Prim2SF_03 : Prim2SF (#0.3)%py = S754_finite false m03 (-54).
Proof. vm_compute. reflexivity. Qed.

Lemma times03_mono v w : 0 <= v <= w -> times03 v <= times03 w.
Proof.
  intros H. unfold times03. apply Rnd_mono. split.
  - apply Z.div_pos; [lia|reflexivity].
  - apply Z.div_le_mono; [reflexivity|]. apply Z.mul_le_mono_nonneg_r; lia.
Qed.

Lemma fval_times03 (x : PrimFloat.float) v :
  fval x = Some v -> v <= 2 ^ scale ->
  fval (PrimFloat.mul x (#0.3)%py) = Some (times03 v).
Proof.
  intros Hv Hb. unfold fval. rewrite mul_spec, Prim2SF_03.
  apply (mul_val (Prim2SF x) m03 (-54) v); try assumption; try reflexivity; try lia.
  - apply fval_valid.
  - eapply Z.le_lt_trans; [exact Hb|]. apply Z.pow_lt_mono_r; unfold scale; lia.
Qed.

Lemma fval_add (x y : PrimFloat.float) vx vy :
  fval x = Some vx -> fval y = Some vy -> vx + vy < 2 ^ (scale + 64) ->
  fval (PrimFloat.add x y) = Some (Rnd (vx + vy)).
Proof.
  intros Hx Hy Hb. unfold fval. rewrite add_spec.
  apply add_val; auto using fval_valid.
Qed.

Lemma blend_mono va vb vc wb wc :
  0 <= va -> 0 <= vb <= wb -> 0 <= vc <= wc ->
  blend va vb vc <= blend va wb wc.
Proof.
  intros Ha Hb Hc. unfold blend.
  pose proof (times03_mono vb wb Hb). pose proof (times03_mono vc wc Hc).
  pose proof (times03_mono 0 vb ltac:(lia)). pose proof (times03_mono 0 vc ltac:(lia)).
  change (times03 0) with 0 in *.
  assert (Rnd (va + times03 vb) <= Rnd (va + times03 wb)) by (apply Rnd_mono; lia).
  pose proof (Rnd_nonneg (va + times03 vb) ltac:(lia)).
  apply Rnd_mono. lia.
Qed.

Lemma fval_blend (a b c : PrimFloat.float) va vb vc :
  fval a = Some va -> fval b = Some vb -> fval c = Some vc ->
  va <= 2 ^ scale -> 0 <= vb <= 2 ^ scale -> 0 <= vc <= 2 ^ scale ->
  fval (PrimFloat.add (PrimFloat.add a (PrimFloat.mul b (#0.3)%py))
                      (PrimFloat.mul c (#0.3)%py))
  = Some (blend va vb vc).
Proof.
  intros Ha Hb Hc Hva Hvb Hvc.
  pose proof (sf_value_nonneg _ _ Ha) as Ha0.
  pose proof (fval_times03 b vb Hb ltac:(lia)) as HB.
  pose proof (fval_times03 c vc Hc ltac:(lia)) as HC.
  pose proof (times03_mono vb (2 ^ scale) ltac:(lia)) as HBup.
  pose proof (times03_mono vc (2 ^ scale) ltac:(lia)) as HCup.
  pose proof (times03_mono 0 vb ltac:(lia)) as HBlo.
  pose proof (times03_mono 0 vc ltac:(lia)) as HClo.
  change (times03 0) with 0 in *.
  assert (Htop : times03 (2 ^ scale) <= 2 ^ scale) by (vm_compute; discriminate).
  assert (Hbig : 2 ^ scale + 2 ^ scale < 2 ^ (scale + 64)) by (vm_compute; reflexivity).
  assert (HS1 : fval (PrimFloat.add a (PrimFloat.mul b (#0.3)%py))
                = Some (Rnd (va + times03 vb))).
  { apply fval_add; try assumption. lia. }
  assert (HS1up : Rnd (va + times03 vb) <= Rnd (2 ^ scale + 2 ^ scale))
    by (apply Rnd_mono; lia).
  assert (Htop2 : Rnd (2 ^ scale + 2 ^ scale) + 2 ^ scale < 2 ^ (scale + 64))
    by (vm_compute; reflexivity).
  unfold blend. apply fval_add; try assumption. lia.
Qed.

Lemma unit64_half : unit64 (#0.5)%py.
Proof. split; vm_compute; reflexivity. Qed.

Lemma unit64_blur (v : PrimFloat.float) :
  PrimFloat.leb (#0.0)%py v = true ->
  unit64 (py_min (PrimFloat.div v (#1000.0)%py) (#1.0)%py).
Proof.
  intros Hv. pose proof (nonneg_of_leb_0 v Hv) as Hnn.
  set (x := PrimFloat.div v (#1000.0)%py).
  assert (Hx : nonneg_sf (Prim2SF x)).
  { unfold x. rewrite div_spec.
    change (Prim2SF (#1000.0)%py) with (S754_finite false 8796093022208000 (-43)).
    apply div_nonneg. exact Hnn. }
  unfold py_min. cbn [fltb binary64].
  destruct (PrimFloat.ltb (#1.0)%py x) eqn:Hlt.
  - split; vm_compute; reflexivity.
  - assert (Hval : exists vx, fval x = Some vx).
    { unfold fval. rewrite ltb_spec in Hlt.
      change (Prim2SF (#1.0)%py) with (S754_finite false 4503599627370496 (-52)) in Hlt.
      destruct (Prim2SF x) as [s|[|]| |[|] m e]; cbn in Hx; try contradiction;
        try discriminate; unfold sf_value; eauto. }
    destruct Hval as (vx & Hvx). apply unit64_val. exists vx. split; [exact Hvx|].
    rewrite (fltb_val _ _ _ _ fval_1 Hvx) in Hlt. apply Z.ltb_ge in Hlt.
    pose proof (sf_value_nonneg _ _ Hvx). lia.
Qed.

Lemma unit64_of_ltb (x : PrimFloat.float) :
  PrimFloat.ltb (#0.0)%py x = true -> PrimFloat.ltb x (#1.0)%py = true -> unit64 x.
Proof.
  intros H0 H1.
  assert (Hval : exists vx, fval x = Some vx).
  { pose proof H0 as H0'. pose proof H1 as H1'. rewrite ltb_spec in H0', H1'.
    change (Prim2SF (#0.0)%py) with (S754_zero false) in H0'.
    change (Prim2SF (#1.0)%py) with (S754_finite false 4503599627370496 (-52)) in H1'.
    unfold fval. destruct (Prim2SF x) as [s|[|]| |[|] m e]; try discriminate;
      unfold sf_value; eauto. }
  destruct Hval as (vx & Hvx). apply unit64_val. exists vx. split; [exact Hvx|].
  rewrite (fltb_val _ _ _ _ Hvx fval_1) in H1.
  apply Z.ltb_lt in H1. pose proof (sf_value_nonneg _ _ Hvx). lia.
Qed.

Lemma unit64_clamp (s : PrimFloat.float) : unit64 (py_max (#0.0)%py (py_min (#1.0)%py s)).
Proof.
  unfold py_max, py_min. cbn [fltb binary64].
  destruct (PrimFloat.ltb s (#1.0)%py) eqn:Hs1.
  - destruct (PrimFloat.ltb (#0.0)%py s) eqn:Hs0.
    + apply unit64_of_ltb; assumption.
    + split; vm_compute; reflexivity.
  - replace (PrimFloat.ltb (#0.0)%py (#1.0)%py) with true by (vm_compute; reflexivity).
    split; vm_compute; reflexivity.
Qed.

(** The service blend stays in [[0.12, 1]] in binary64. *)
Lemma blend_range64 (has_product : bool) (b c : PrimFloat.float) :
  unit64 b -> unit64 c ->
  let q := PrimFloat.add
             (PrimFloat.add
                (PrimFloat.mul (if has_product then (#1.0)%py else (#0.3)%py) (#0.4)%py)
                (PrimFloat.mul b (#0.3)%py))
             (PrimFloat.mul c (#0.3)%py) in
  PrimFloat.leb (#0.12)%py q = true /\ PrimFloat.leb q (#1.0)%py = true.
Proof.
  intros Hb Hc q.
  apply unit64_val in Hb, Hc.
  destruct Hb as (vb & Hvb & Bb). destruct Hc as (vc & Hvc & Bc).
  set (a := PrimFloat.mul (if has_product then (#1.0)%py else (#0.3)%py) (#0.4)%py) in *.
  assert (H012 : exists v, fval (#0.12)%py = Some v) by (eexists; vm_compute; reflexivity).
  destruct H012 as (v012 & H012).
  assert (Ha : exists va, fval a = Some va /\
                 Z.leb va (2 ^ scale) = true /\
                 Z.leb v012 (blend va 0 0) = true /\
                 Z.leb (blend va (2 ^ scale) (2 ^ scale)) (2 ^ scale) = true).
  { unfold a. vm_compute in H012. apply Some_Z_eq in H012. subst v012.
    destruct has_product; eexists; (split; [vm_compute; reflexivity|]);
      repeat split; vm_compute; reflexivity. }
  destruct Ha as (va & Hva & Hle1 & Hlo & Hhi).
  apply Z.leb_le in Hle1, Hlo, Hhi.
  pose proof (fval_blend a b c va vb vc Hva Hvb Hvc Hle1 Bb Bc) as Hq. fold q in Hq.
  pose proof (sf_value_nonneg _ _ Hva) as Hva0.
  pose proof (blend_mono va 0 0 vb vc ltac:(lia) ltac:(lia) ltac:(lia)) as Hqlo.
  pose proof (blend_mono va vb vc (2 ^ scale) (2 ^ scale) ltac:(lia) ltac:(lia) ltac:(lia))
    as Hqhi.
  split.
  - rewrite (fleb_val _ _ _ _ H012 Hq). apply Z.leb_le. lia.
  - rewrite (fleb_val _ _ _ _ Hq fval_1). apply Z.leb_le. lia.
Qed.

End Binary64Rounding.

(** ** Bounds of the service blend, in binary64 *)

Lemma service_blur_score_unit64 (image : Image PrimFloat.float) :
  image_measured64 image ->
  unit64 (yolo_service.YOLOService.calculate_blur_score image).
Proof.
  unfold image_measured64, yolo_service.YOLOService.calculate_blur_score.
  intros Hvar. destruct (cvtColor image) as [gray|e].
  - apply unit64_blur. apply Hvar. reflexivity.
  - apply unit64_half.
Qed.

Lemma service_brightness_score_unit64 (image : Image PrimFloat.float) :
  unit64 (yolo_service.YOLOService.calculate_brightness_score image).
Proof.
  unfold yolo_service.YOLOService.calculate_brightness_score.
  destruct (cvtColor image) as [gray|e].
  - apply unit64_clamp.
  - apply unit64_half.
Qed.

Lemma body_quality_bounds64 (self : yolo_service.YOLOService.t PrimFloat.float) fs
    frame_path frame_index timestamp r :
  measured64 fs ->
  yolo_service.YOLOService.analyze_frame_body self fs frame_path frame_index timestamp
    = Return r ->
  PrimFloat.leb (#0.12)%py (yolo_service.FrameAnalysisResponse.quality_score r) = true /\
  PrimFloat.leb (yolo_service.FrameAnalysisResponse.quality_score r) (#1.0)%py = true /\
  unit64 (yolo_service.FrameAnalysisResponse.blur_score r) /\
  unit64 (yolo_service.FrameAnalysisResponse.brightness_score r).
Proof.
  intros Hfs Hb.
  destruct (body_result _ _ _ _ _ _ Hb) as (image & _ & Hload & Hblur & Hbright & Hq).
  pose proof (service_blur_score_unit64 image (Hfs _ _ Hload)) as Bblur.
  pose proof (service_brightness_score_unit64 image) as Bbright.
  rewrite <- Hblur in Bblur. rewrite <- Hbright in Bbright.
  rewrite Hq.
  destruct (blend_range64 (yolo_service.FrameAnalysisResponse.has_product r) _ _
              Bblur Bbright) as [Hlo Hhi].
  repeat split; try assumption; apply Bblur || apply Bbright.
Qed.

Lemma failed_analysis_below_range (frame_index : Z) (timestamp : PrimFloat.float) :
  PrimFloat.leb (#0.12)%py
    (yolo_service.FrameAnalysisResponse.quality_score
       (yolo_service.YOLOService.failed_analysis frame_index timestamp)) = false.
Proof. vm_compute. reflexivity. Qed.

Lemma demo_fs_measured64 : measured64 (demo_fs (F := PrimFloat.float)).
Proof.
  intros p image. unfold demo_fs. cbn [imread].
  repeat case_bool_decide; intros [= <-] gray [= <-]; vm_compute; reflexivity.
Qed.

Lemma black_frame_succeeds64 :
  analysis_succeeds demo_service (demo_fs (F := PrimFloat.float)) "f2.jpg".
Proof. eexists _, _, _. repeat split; vm_compute; reflexivity. Qed.

(** C10.  On the service path, given that the Laplacian variance is not
    negative: a response of an analysis that ran to its end has
    [quality_score] in [[0.12, 1]], because its [blur_score] and
    [brightness_score] lie in [[0, 1]] and the detection term is at least
    0.3; so a response with [quality_score = 0.0] is the degraded one of the
    failure path.  Proved in binary64, with the rounding of every
    operation, and in exact arithmetic. *)
Theorem service_quality_score_range :
  (forall (self : yolo_service.YOLOService.t PrimFloat.float) fs frame_path
          frame_index timestamp r,
     measured64 fs ->
     yolo_service.YOLOService.analyze_frame self fs frame_path frame_index timestamp
       = Return r ->
     (analysis_succeeds self fs frame_path ->
      PrimFloat.leb (#0.12)%py (yolo_service.FrameAnalysisResponse.quality_score r) = true /\
      PrimFloat.leb (yolo_service.FrameAnalysisResponse.quality_score r) (#1.0)%py = true /\
      unit64 (yolo_service.FrameAnalysisResponse.blur_score r) /\
      unit64 (yolo_service.FrameAnalysisResponse.brightness_score r)) /\
     (yolo_service.FrameAnalysisResponse.quality_score r = (#0.0)%py ->
      ~ analysis_succeeds self fs frame_path /\
      r = yolo_service.YOLOService.failed_analysis frame_index timestamp)) /\
  (forall (self : yolo_service.YOLOService.t R) fs frame_path frame_index timestamp r,
     measured fs ->
     yolo_service.YOLOService.analyze_frame self fs frame_path frame_index timestamp
       = Return r ->
     (analysis_succeeds self fs frame_path ->
      (0.12 <= yolo_service.FrameAnalysisResponse.quality_score r <= 1)%R /\
      (0 <= yolo_service.FrameAnalysisResponse.blur_score r <= 1)%R /\
      (0 <= yolo_service.FrameAnalysisResponse.brightness_score r <= 1)%R) /\
     (yolo_service.FrameAnalysisResponse.quality_score r = 0%R ->
      ~ analysis_succeeds self fs frame_path /\
      r = yolo_service.YOLOService.failed_analysis frame_index timestamp)).
Proof.
  split.
  - intros self fs frame_path frame_index timestamp r Hfs Hr.
    assert (Hrange : analysis_succeeds self fs frame_path ->
      PrimFloat.leb (#0.12)%py (yolo_service.FrameAnalysisResponse.quality_score r) = true /\
      PrimFloat.leb (yolo_service.FrameAnalysisResponse.quality_score r) (#1.0)%py = true /\
      unit64 (yolo_service.FrameAnalysisResponse.blur_score r) /\
      unit64 (yolo_service.FrameAnalysisResponse.brightness_score r)).
    { intros Hok. eapply body_quality_bounds64; [exact Hfs|].
      apply succeeds_result; eassumption. }
    split; [exact Hrange|].
    intros Hzero.
    assert (Hnot : ~ analysis_succeeds self fs frame_path).
    { intros Hok. destruct (Hrange Hok) as (Hlow & _).
      rewrite Hzero in Hlow. vm_compute in Hlow. discriminate. }
    split; [exact Hnot|].
    destruct (analyze_frame_failed_or_succeeds self fs frame_path frame_index timestamp)
      as [Hok | Hfailed]; [contradiction | congruence].
  - intros self fs frame_path frame_index timestamp r Hfs Hr.
    assert (Hrange : analysis_succeeds self fs frame_path ->
       (0.12 <= yolo_service.FrameAnalysisResponse.quality_score r <= 1)%R /\
       (0 <= yolo_service.FrameAnalysisResponse.blur_score r <= 1)%R /\
       (0 <= yolo_service.FrameAnalysisResponse.brightness_score r <= 1)%R).
    { intros Hok. eapply body_quality_bounds; [exact Hfs|].
      apply succeeds_result; eassumption. }
    split; [exact Hrange|].
    intros Hzero.
    assert (Hnot : ~ analysis_succeeds self fs frame_path).
    { intros Hok. destruct (Hrange Hok) as ((Hlow & _) & _). lra. }
    split; [exact Hnot|].
    destruct (analyze_frame_failed_or_succeeds self fs frame_path frame_index timestamp)
      as [Hok | Hfailed]; [contradiction | congruence].
Qed.

(** The black frame of the demo world sits on the lower bound, in binary64:
    no product, blur score 0 and brightness score 0 give the double 0.12. *)
Lemma service_quality_score_range_black_frame :
  exists r,
    yolo_service.YOLOService.analyze_frame demo_service
      (demo_fs (F := PrimFloat.float)) "f2.jpg" 2 (#0.5)%py = Return r /\
    yolo_service.FrameAnalysisResponse.quality_score r = (#0.12)%py /\
    PrimFloat.leb (#0.12)%py (yolo_service.FrameAnalysisResponse.quality_score r) = true /\
    PrimFloat.leb (yolo_service.FrameAnalysisResponse.quality_score r) (#1.0)%py = true.
Proof.
  pose proof (analyze_frame_returns demo_service (demo_fs (F := PrimFloat.float))
                "f2.jpg" 2 (#0.5)%py) as Hr.
  match type of Hr with _ = Return ?v => set (r := v) in Hr end.
  exists r. split; [exact Hr|]. split; [vm_compute; reflexivity|].
  destruct (proj1 (proj1 service_quality_score_range demo_service demo_fs "f2.jpg"%string
                     2%Z (#0.5)%py r demo_fs_measured64 Hr) black_frame_succeeds64)
    as (Hlo & Hhi & _).
  split; assumption.
Defined.

(** ** Unresolved and undecodable frames *)

(** The claim C9 fails on this input: for a frame reference that does not
    resolve, [POST /analyze] raises nothing and answers with the degraded
    response, the same response it gives for a file that exists and cannot
    be decoded; the caller is told of no not-found condition. *)
Lemma not_found_answered_like_any_failure :
  frame_not_found (demo_fs (F := PrimFloat.float)) "missing.jpg" /\
  frame_undecodable (demo_fs (F := PrimFloat.float)) "truncated.jpg" /\
  yolo_service.analyze_frame (Some demo_service) (demo_fs (F := PrimFloat.float))
    (request "missing.jpg" 7 (#3.5)%py)
  = Return (yolo_service.YOLOService.failed_analysis 7 (#3.5)%py) /\
  yolo_service.analyze_frame (Some demo_service) (demo_fs (F := PrimFloat.float))
    (request "missing.jpg" 7 (#3.5)%py)
  = yolo_service.analyze_frame (Some demo_service) (demo_fs (F := PrimFloat.float))
      (request "truncated.jpg" 7 (#3.5)%py) /\
  ~ (exists e,
       yolo_service.analyze_frame (Some demo_service) (demo_fs (F := PrimFloat.float))
         (request "missing.jpg" 7 (#3.5)%py) = Raise e).
Proof.
  split; [vm_compute; reflexivity|].
  split; [split; vm_compute; reflexivity|].
  split; [vm_compute; reflexivity|].
  split; [vm_compute; reflexivity|].
  intros (e & He). vm_compute in He. discriminate.
Qed.

(** C9, amended.  For a request whose frame reference does not resolve,
    [POST /analyze] returns normally the degraded response (all scores
    0.0): it is the response given for every other failure with the same
    index and timestamp, and no not-found condition is raised.  That
    response differs from the response of every analysis that ran to its
    end, an empty detection list included, whose [quality_score] is at
    least 0.12 (binary64, variance not negative). *)
Theorem not_found_yields_degraded_response
    (svc : yolo_service.YOLOService.t PrimFloat.float) (fs : FileSystem PrimFloat.float)
    (request : yolo_service.FrameAnalysisRequest.t PrimFloat.float)
    (Hfs : measured64 fs)
    (Hnf : frame_not_found fs (yolo_service.FrameAnalysisRequest.frame_path request)) :
  let degraded :=
    yolo_service.YOLOService.failed_analysis
      (yolo_service.FrameAnalysisRequest.frame_index request)
      (yolo_service.FrameAnalysisRequest.timestamp request) in
  yolo_service.analyze_frame (Some svc) fs request = Return degraded /\
  (forall request' r',
     analysis_succeeds svc fs (yolo_service.FrameAnalysisRequest.frame_path request') ->
     yolo_service.analyze_frame (Some svc) fs request' = Return r' ->
     PrimFloat.leb (#0.12)%py (yolo_service.FrameAnalysisResponse.quality_score r') = true /\
     r' <> degraded) /\
  (forall frame_path',
     frame_undecodable fs frame_path' \/ detector_fails svc fs frame_path' ->
     yolo_service.analyze_frame (Some svc) fs
       {| yolo_service.FrameAnalysisRequest.frame_path := frame_path';
          yolo_service.FrameAnalysisRequest.frame_index :=
            yolo_service.FrameAnalysisRequest.frame_index request;
          yolo_service.FrameAnalysisRequest.timestamp :=
            yolo_service.FrameAnalysisRequest.timestamp request |}
     = Return degraded).
Proof.
  intros degraded. split; [|split].
  - rewrite endpoint_is_service, analyze_frame_returns.
    destruct (body_raises_when_frame_fails (self := svc)
                (yolo_service.FrameAnalysisRequest.frame_index request)
                (yolo_service.FrameAnalysisRequest.timestamp request)
                (or_introl Hnf)) as (e & ->).
    reflexivity.
  - intros request' r' Hok Hr'. rewrite endpoint_is_service in Hr'.
    apply succeeds_result in Hr'; [|exact Hok].
    destruct (body_quality_bounds64 _ _ _ _ _ _ Hfs Hr') as (Hlow & _).
    split; [exact Hlow|].
    intros ->. unfold degraded in Hlow. rewrite failed_analysis_below_range in Hlow.
    discriminate.
  - intros frame_path' Hfail. rewrite endpoint_is_service, analyze_frame_returns. cbn.
    destruct (body_raises_when_frame_fails (self := svc)
                (yolo_service.FrameAnalysisRequest.frame_index request)
                (yolo_service.FrameAnalysisRequest.timestamp request)
                (or_intror Hfail)) as (e & ->).
    reflexivity.
Qed.

(** A missing file in the demo world. *)
Lemma not_found_yields_degraded_response_demo :
  frame_not_found (demo_fs (F := PrimFloat.float)) "missing.jpg" /\
  yolo_service.analyze_frame (Some demo_service) (demo_fs (F := PrimFloat.float))
    (request "missing.jpg" 7 (#3.5)%py)
  = Return (yolo_service.YOLOService.failed_analysis 7 (#3.5)%py).
Proof.
  assert (Hnf : frame_not_found (demo_fs (F := PrimFloat.float)) "missing.jpg")
    by (vm_compute; reflexivity).
  split; [exact Hnf|].
  exact (proj1 (not_found_yields_degraded_response demo_service demo_fs
                  (request "missing.jpg" 7 (#3.5)%py) demo_fs_measured64 Hnf)).
Defined.

(** The claim C8 fails on this input: [truncated.jpg] exists and cannot be
    decoded, and the response carries 0.0, not 0.5, for [blur_score] and
    [brightness_score]. *)
Lemma undecodable_frame_scores_zero_not_half :
  frame_undecodable (demo_fs (F := PrimFloat.float)) "truncated.jpg" /\
  exists r,
    yolo_service.YOLOService.analyze_frame demo_service
      (demo_fs (F := PrimFloat.float)) "truncated.jpg" 7 (#3.5)%py = Return r /\
    yolo_service.FrameAnalysisResponse.blur_score r = (#0.0)%py /\
    yolo_service.FrameAnalysisResponse.brightness_score r = (#0.0)%py /\
    yolo_service.FrameAnalysisResponse.blur_score r <> (#0.5)%py /\
    yolo_service.FrameAnalysisResponse.brightness_score r <> (#0.5)%py.
Proof.
  split; [split; vm_compute; reflexivity|].
  eexists. split; [vm_compute; reflexivity|]. cbn.
  repeat split; try reflexivity;
    intros Heq; apply (f_equal (fun v => PrimFloat.eqb v (#0.5)%py)) in Heq;
    vm_compute in Heq; discriminate.
Qed.

(** C8, amended.  A frame whose pixel data cannot be produced yields, on
    the service path, the degraded response with 0.0 for [blur_score] and
    [brightness_score], and no error reaches the caller; on the command-line
    path [main] prints the error record with [blur_score] 1.0 and
    [brightness_score] 0.0 and exits with status 1.  The neutral default
    0.5 is what [calculate_blur_score] and [calculate_brightness_score]
    return when the grayscale conversion of a decoded image raises, and the
    response then carries 0.5 for both. *)
Theorem undecodable_frame_defaults {F : Type} `{PyFloat F}
    (self : yolo_service.YOLOService.t F) (fs : FileSystem F)
    (frame_path : string) (frame_index : Z) (timestamp : F)
    (Hdec : imread fs frame_path = None) :
  (exists r,
     yolo_service.YOLOService.analyze_frame self fs frame_path frame_index timestamp
       = Return r /\
     yolo_service.FrameAnalysisResponse.blur_score r = (#0.0)%py /\
     yolo_service.FrameAnalysisResponse.brightness_score r = (#0.0)%py) /\
  (forall Path_exists YOLO_load model_path confidence_threshold iou_threshold,
     let printed :=
       yolo_analyzer.main Path_exists YOLO_load fs frame_path model_path
         confidence_threshold iou_threshold in
     yolo_analyzer.exit_code printed = 1%Z /\
     yolo_analyzer.FrameAnalysis.blur_score (yolo_analyzer.result printed) = (#1.0)%py /\
     yolo_analyzer.FrameAnalysis.brightness_score (yolo_analyzer.result printed)
       = (#0.0)%py) /\
  (forall image e, cvtColor image = Raise e ->
     yolo_service.YOLOService.calculate_blur_score image = (#0.5)%py /\
     yolo_service.YOLOService.calculate_brightness_score image = (#0.5)%py) /\
  (forall frame_path' frame_index' timestamp' image e r,
     analysis_succeeds self fs frame_path' ->
     imread fs frame_path' = Some image -> cvtColor image = Raise e ->
     yolo_service.YOLOService.analyze_frame self fs frame_path' frame_index' timestamp'
       = Return r ->
     yolo_service.FrameAnalysisResponse.blur_score r = (#0.5)%py /\
     yolo_service.FrameAnalysisResponse.brightness_score r = (#0.5)%py).
Proof.
  assert (Hhalf : forall image e, cvtColor image = Raise e ->
     yolo_service.YOLOService.calculate_blur_score image = (#0.5)%py /\
     yolo_service.YOLOService.calculate_brightness_score image = (#0.5)%py).
  { intros image e He.
    unfold yolo_service.YOLOService.calculate_blur_score,
      yolo_service.YOLOService.calculate_brightness_score.
    rewrite He. split; reflexivity. }
  split; [|split; [|split]].
  - exists (yolo_service.YOLOService.failed_analysis frame_index timestamp).
    rewrite analyze_frame_returns.
    unfold yolo_service.YOLOService.analyze_frame_body. rewrite Hdec.
    destruct (path_exists fs frame_path); repeat split; reflexivity.
  - intros Path_exists YOLO_load model_path ct it printed. subst printed.
    unfold yolo_analyzer.main.
    destruct (yolo_analyzer.FrameAnalyzer.__init__ Path_exists YOLO_load model_path ct it)
      as [analyzer|e]; cbn; [|repeat split; reflexivity].
    unfold yolo_analyzer.FrameAnalyzer.analyze_frame,
      yolo_analyzer.FrameAnalyzer.analyze_frame_body.
    rewrite Hdec. cbn. repeat split; reflexivity.
  - exact Hhalf.
  - intros p i t image e r Hok Hload He Hr.
    apply succeeds_result in Hr; [|exact Hok].
    destruct (body_result _ _ _ _ _ _ Hr) as (image' & _ & Hload' & Hblur & Hbright & _).
    rewrite Hload in Hload'. injection Hload' as <-.
    rewrite Hblur, Hbright. exact (Hhalf image e He).
Qed.

(** The undecodable file of the demo world, and the image whose grayscale
    conversion raises, in binary64. *)
Lemma undecodable_frame_defaults_demo :
  imread (demo_fs (F := PrimFloat.float)) "truncated.jpg" = None /\
  (exists r,
     yolo_service.YOLOService.analyze_frame demo_service
       (demo_fs (F := PrimFloat.float)) "truncated.jpg" 7 (#3.5)%py = Return r /\
     yolo_service.FrameAnalysisResponse.blur_score r = (#0.0)%py /\
     yolo_service.FrameAnalysisResponse.brightness_score r = (#0.0)%py) /\
  yolo_service.YOLOService.calculate_blur_score (odd_image (F := PrimFloat.float))
    = (#0.5)%py.
Proof.
  assert (Hdec : imread (demo_fs (F := PrimFloat.float)) "truncated.jpg" = None)
    by (vm_compute; reflexivity).
  destruct (undecodable_frame_defaults demo_service demo_fs "truncated.jpg"%string 7%Z
              (#3.5)%py Hdec) as (Hzero & _ & Hhalf & _).
  split; [exact Hdec|]. split; [exact Hzero|].
  exact (proj1 (Hhalf odd_image _ eq_refl)).
Defined.

(** ** The composition score against its reference definition *)

Section Literals.
Local Open Scope R_scope.

Lemma lit_0 : Q2R 0.0 = 0. Proof. unfold Q2R; cbn; lra. Qed.
Lemma lit_1 : Q2R 1.0 = 1. Proof. unfold Q2R; cbn; lra. Qed.
Lemma lit_2 : Q2R 2 = 2. Proof. unfold Q2R; cbn; lra. Qed.
Lemma lit_10 : Q2R 10 = 10. Proof. unfold Q2R; cbn; lra. Qed.
Lemma lit_01 : Q2R 0.1 = 0.1. Proof. unfold Q2R; cbn; lra. Qed.
Lemma lit_02 : Q2R 0.2 = 0.2. Proof. unfold Q2R; cbn; lra. Qed.
Lemma lit_03 : Q2R 0.3 = 0.3. Proof. unfold Q2R; cbn; lra. Qed.
Lemma lit_04 : Q2R 0.4 = 0.4. Proof. unfold Q2R; cbn; lra. Qed.
Lemma lit_05 : Q2R 0.5 = 0.5. Proof. unfold Q2R; cbn; lra. Qed.
Lemma lit_06 : Q2R 0.6 = 0.6. Proof. unfold Q2R; cbn; lra. Qed.
Lemma lit_08 : Q2R 0.8 = 0.8. Proof. unfold Q2R; cbn; lra. Qed.
Lemma lit_12 : Q2R 1.2 = 1.2. Proof. unfold Q2R; cbn; lra. Qed.

End Literals.

Ltac exact_literals :=
  cbn [fadd fsub fmul fdiv fltb fleb flit fsqrt exact];
  rewrite ?lit_0, ?lit_1, ?lit_2, ?lit_10, ?lit_01, ?lit_02, ?lit_03, ?lit_04,
    ?lit_05, ?lit_06, ?lit_08, ?lit_12.

(** Decides the comparisons of a goal, innermost first. *)
Ltac decide_comparisons :=
  repeat match goal with
         | |- context [Rle_dec ?u ?v] =>
             lazymatch u with
             | context [Rle_dec] => fail | context [Rlt_dec] => fail
             | _ => lazymatch v with
                    | context [Rle_dec] => fail | context [Rlt_dec] => fail
                    | _ => destruct (Rle_dec u v)
                    end
             end
         | |- context [Rlt_dec ?u ?v] =>
             lazymatch u with
             | context [Rle_dec] => fail | context [Rlt_dec] => fail
             | _ => lazymatch v with
                    | context [Rle_dec] => fail | context [Rlt_dec] => fail
                    | _ => destruct (Rlt_dec u v)
                    end
             end
         end.

Section Composition.
Import yolo_analyzer.
Local Open Scope R_scope.

Lemma size_score_exact (a : R) :
  (if (Rleb 0.1 a && Rleb a 0.6)%bool then 1
   else if Rltb a 0.1 then a * 10
   else Rmax 0.2 (1 - (a - 0.6) * 2))
  = CompositionScorer.size_score a.
Proof.
  unfold CompositionScorer.size_score, Rleb, Rltb.
  destruct (Rle_dec 0.1 a), (Rle_dec a 0.6), (Rlt_dec a 0.1); cbn; lra.
Qed.

Lemma composition_step_exact (c m : R) (obj : Detection.t R) :
  FrameAnalyzer.composition_step (c, m) obj
  = (Rmax c (CompositionScorer.object_score obj), Rmax m (Detection.confidence obj)).
Proof.
  unfold FrameAnalyzer.composition_step, FrameAnalyzer.pow2,
    CompositionScorer.object_score, CompositionScorer.center_score,
    CompositionScorer.distance_to_center, CompositionScorer.center.
  rewrite !py_max_exact, !py_min_exact. exact_literals. cbn [fst snd].
  rewrite size_score_exact. reflexivity.
Qed.

Lemma composition_loop_exact (ds : list (Detection.t R)) (c m : R) :
  fold_left FrameAnalyzer.composition_step ds (c, m)
  = (fold_left Rmax (map CompositionScorer.object_score ds) c,
     fold_left Rmax (map (@Detection.confidence R) ds) m).
Proof.
  revert c m. induction ds as [|obj ds IH]; intros c m; cbn [fold_left map].
  - reflexivity.
  - rewrite composition_step_exact. apply IH.
Qed.

Lemma Rmax_swap (a b c : R) : Rmax a (Rmax b c) = Rmax b (Rmax a c).
Proof.
  unfold Rmax. decide_comparisons; lra.
Qed.

Lemma maximum_swap (v w : R) (vs : list R) :
  Rmax v (CompositionScorer.maximum w vs) = Rmax w (CompositionScorer.maximum v vs).
Proof.
  unfold CompositionScorer.maximum. induction vs as [|u vs IH]; cbn [fold_right].
  - apply Rmax_comm.
  - rewrite (Rmax_swap v u), IH. apply Rmax_swap.
Qed.

Lemma fold_left_Rmax (vs : list R) (a v : R) :
  fold_left Rmax (v :: vs) a = Rmax a (CompositionScorer.maximum v vs).
Proof.
  revert a v. induction vs as [|w vs IH]; intros a v.
  - reflexivity.
  - change (fold_left Rmax (v :: w :: vs) a) with (fold_left Rmax (w :: vs) (Rmax a v)).
    rewrite IH, <- Rmax_assoc, maximum_swap. reflexivity.
Qed.

Lemma composition_score_exact (ds : list (Detection.t R)) (image_shape : Z * Z * Z) :
  FrameAnalyzer._calculate_composition_score ds image_shape
  = CompositionScorer.composition_score ds.
Proof.
  destruct ds as [|d ds].
  - cbn. apply lit_03.
  - unfold FrameAnalyzer._calculate_composition_score, CompositionScorer.composition_score.
    destruct image_shape as [[height width] channels].
    rewrite composition_loop_exact. cbn [map].
    rewrite !fold_left_Rmax. rewrite py_min_exact. exact_literals.
    set (best := CompositionScorer.maximum _ _).
    set (top := CompositionScorer.maximum _ _).
    unfold CompositionScorer.clamp01, Rltb, Rmax, Rmin.
    decide_comparisons; lra.
Qed.

Lemma centered_detection_exact (image_shape : Z * Z * Z) :
  FrameAnalyzer._calculate_composition_score [centered_detection (F := R)] image_shape
  = 0.768.
Proof.
  rewrite composition_score_exact.
  unfold CompositionScorer.composition_score, CompositionScorer.maximum,
    CompositionScorer.object_score, CompositionScorer.center,
    CompositionScorer.distance_to_center, centered_detection.
  cbn [map fold_right Detection.bbox Detection.confidence BBox.x BBox.y BBox.width
         BBox.height fst snd].
  exact_literals.
  replace ((0.4 + 0.2 / 2 - 0.5) * (0.4 + 0.2 / 2 - 0.5)
           + (0.4 + 0.2 / 2 - 0.5) * (0.4 + 0.2 / 2 - 0.5)) with 0 by lra.
  rewrite sqrt_0.
  unfold CompositionScorer.center_score, CompositionScorer.size_score,
    CompositionScorer.clamp01, Rmax, Rmin.
  decide_comparisons; lra.
Qed.

End Composition.

(** The claim C4 fails on this input: in binary64, the arithmetic the code
    runs in, the single centered detection of 0.2 by 0.2 with confidence 1.0
    scores [0x1.89374bc6a7efbp-1], printed [0.7680000000000001] by Python,
    which is not the double [0.768]. *)
Lemma centered_detection_scores_above_0768 :
  yolo_analyzer.FrameAnalyzer._calculate_composition_score
    [centered_detection (F := PrimFloat.float)] (720, 1280, 3)%Z
  <> (#0.768)%py /\
  PrimFloat.eqb
    (yolo_analyzer.FrameAnalyzer._calculate_composition_score
       [centered_detection (F := PrimFloat.float)] (720, 1280, 3)%Z)
    (#0.768)%py = false /\
  PrimFloat.ltb (#0.768)%py
    (yolo_analyzer.FrameAnalyzer._calculate_composition_score
       [centered_detection (F := PrimFloat.float)] (720, 1280, 3)%Z) = true.
Proof.
  split; [|split; vm_compute; reflexivity].
  intros Heq. apply (f_equal (fun v => PrimFloat.eqb v (#0.768)%py)) in Heq.
  vm_compute in Heq. discriminate.
Qed.

(** C4, amended.  In exact arithmetic the composition score is the
    reference definition of §4.2 for every detection list: the maximum of
    the per-object scores, times 1.2 when the maximum confidence exceeds
    0.8, clamped to [[0, 1]]; an empty list scores exactly 0.3 in any
    arithmetic.  The single detection with bbox
    [{x:0.4, y:0.4, width:0.2, height:0.2}] and confidence 1.0 scores
    exactly 0.768 in exact arithmetic; in binary64 it scores the double
    next above 0.768. *)
Theorem composition_score_refines_reference :
  (forall (ds : list (yolo_analyzer.Detection.t R)) image_shape,
     yolo_analyzer.FrameAnalyzer._calculate_composition_score ds image_shape
     = CompositionScorer.composition_score ds) /\
  (forall (F : Type) (PF : PyFloat F) image_shape,
     yolo_analyzer.FrameAnalyzer._calculate_composition_score (F := F) [] image_shape
     = (#0.3)%py) /\
  (forall image_shape,
     yolo_analyzer.FrameAnalyzer._calculate_composition_score
       [centered_detection (F := R)] image_shape = 0.768%R) /\
  (forall image_shape,
     yolo_analyzer.FrameAnalyzer._calculate_composition_score
       [centered_detection (F := PrimFloat.float)] image_shape
     = PrimFloat.next_up (#0.768)%py).
Proof.
  split; [exact composition_score_exact|].
  split; [reflexivity|].
  split; [exact centered_detection_exact|].
  intros [[height width] channels]. vm_compute. reflexivity.
Qed.

(** ** The quality metrics of the thumbnail path *)

Lemma quality_metrics_result {F : Type} `{PyFloat F} (image : Image F) (gray : Gray F) :
  cvtColor image = Return gray ->
  exists qm,
    yolo_analyzer.FrameAnalyzer._calculate_quality_metrics image = Return qm /\
    yolo_analyzer.QualityMetrics.blur_score qm
      = (#1.0 - py_min (Laplacian_var gray / #1000.0) #1.0)%py /\
    yolo_analyzer.QualityMetrics.contrast_score qm
      = py_min (np_std gray / #255.0 * #2)%py (#1.0)%py /\
    yolo_analyzer.QualityMetrics.overall_quality qm
      = ((#1.0 - yolo_analyzer.QualityMetrics.blur_score qm) * #0.4
         + yolo_analyzer.QualityMetrics.brightness_score qm * #0.3
         + yolo_analyzer.QualityMetrics.contrast_score qm * #0.3)%py.
Proof.
  intros Hgray. unfold yolo_analyzer.FrameAnalyzer._calculate_quality_metrics.
  rewrite Hgray. cbn. eexists. split; [reflexivity|]. cbn. repeat split; reflexivity.
Qed.

Lemma analyzer_result {F : Type} `{PyFloat F}
    (self : yolo_analyzer.FrameAnalyzer.t F) fs image_path r :
  yolo_analyzer.FrameAnalyzer.analyze_frame self fs image_path = Return r ->
  exists image qm,
    imread fs image_path = Some image /\
    yolo_analyzer.FrameAnalyzer._calculate_quality_metrics image = Return qm /\
    yolo_analyzer.FrameAnalysis.quality_score r
      = yolo_analyzer.QualityMetrics.overall_quality qm /\
    yolo_analyzer.FrameAnalysis.blur_score r = yolo_analyzer.QualityMetrics.blur_score qm /\
    yolo_analyzer.FrameAnalysis.brightness_score r
      = yolo_analyzer.QualityMetrics.brightness_score qm /\
    yolo_analyzer.FrameAnalysis.composition_score r
      = yolo_analyzer.FrameAnalyzer._calculate_composition_score
          (yolo_analyzer.FrameAnalysis.detected_objects r) (shape image).
Proof.
  unfold yolo_analyzer.FrameAnalyzer.analyze_frame, try_except.
  destruct (yolo_analyzer.FrameAnalyzer.analyze_frame_body self fs image_path)
    as [r'|e] eqn:Hb; [|discriminate].
  intros [= <-]. unfold yolo_analyzer.FrameAnalyzer.analyze_frame_body in Hb.
  destruct (imread fs image_path) as [image|]; [|discriminate].
  inv_bind Hb. inv_bind Hb. destruct a0 as [objs hp]. inv_bind Hb.
  injection Hb as <-. exists image, a0. cbn. repeat split; assumption || reflexivity.
Qed.

(** C5.  On the thumbnail-selection path the stored [blur_score] is
    [1 - min(laplacian_variance/1000, 1)], so a higher stored value means a
    blurrier frame, and the aggregate is
    [0.4*(1 - blur_score) + 0.3*brightness_score + 0.3*contrast_score].
    The [quality_score] of [analyze_frame] is that aggregate, a function of
    the image alone: the composition score sits in a field of its own and
    does not enter it.  The first part holds in any arithmetic, in the
    operand order of the source; the second states the aggregate in the
    order of the claim, in binary64; the third does so in exact arithmetic
    and adds that the stored value falls as the variance grows. *)
Theorem thumbnail_quality_metrics :
  (forall (F : Type) (PF : PyFloat F) (image : Image F) (gray : Gray F),
     cvtColor image = Return gray ->
     exists qm,
       yolo_analyzer.FrameAnalyzer._calculate_quality_metrics image = Return qm /\
       yolo_analyzer.QualityMetrics.blur_score qm
         = (#1.0 - py_min (Laplacian_var gray / #1000.0) #1.0)%py /\
       yolo_analyzer.QualityMetrics.overall_quality qm
         = ((#1.0 - yolo_analyzer.QualityMetrics.blur_score qm) * #0.4
            + yolo_analyzer.QualityMetrics.brightness_score qm * #0.3
            + yolo_analyzer.QualityMetrics.contrast_score qm * #0.3)%py /\
       forall (self : yolo_analyzer.FrameAnalyzer.t F) fs image_path r,
         imread fs image_path = Some image ->
         yolo_analyzer.FrameAnalyzer.analyze_frame self fs image_path = Return r ->
         yolo_analyzer.FrameAnalysis.quality_score r
           = yolo_analyzer.QualityMetrics.overall_quality qm /\
         yolo_analyzer.FrameAnalysis.blur_score r
           = yolo_analyzer.QualityMetrics.blur_score qm /\
         yolo_analyzer.FrameAnalysis.composition_score r
           = yolo_analyzer.FrameAnalyzer._calculate_composition_score
               (yolo_analyzer.FrameAnalysis.detected_objects r) (shape image)) /\
  (forall (image : Image PrimFloat.float) (gray : Gray PrimFloat.float) qm,
     cvtColor image = Return gray ->
     yolo_analyzer.FrameAnalyzer._calculate_quality_metrics image = Return qm ->
     yolo_analyzer.QualityMetrics.overall_quality qm
       = (#0.4 * (#1.0 - yolo_analyzer.QualityMetrics.blur_score qm)
          + #0.3 * yolo_analyzer.QualityMetrics.brightness_score qm
          + #0.3 * yolo_analyzer.QualityMetrics.contrast_score qm)%py) /\
  (forall (image : Image R) (gray : Gray R) qm,
     cvtColor image = Return gray ->
     yolo_analyzer.FrameAnalyzer._calculate_quality_metrics image = Return qm ->
     yolo_analyzer.QualityMetrics.blur_score qm
       = (1 - Rmin (Laplacian_var gray / 1000) 1)%R /\
     yolo_analyzer.QualityMetrics.overall_quality qm
       = (0.4 * (1 - yolo_analyzer.QualityMetrics.blur_score qm)
          + 0.3 * yolo_analyzer.QualityMetrics.brightness_score qm
          + 0.3 * yolo_analyzer.QualityMetrics.contrast_score qm)%R /\
     forall (image' : Image R) (gray' : Gray R) qm',
       cvtColor image' = Return gray' ->
       yolo_analyzer.FrameAnalyzer._calculate_quality_metrics image' = Return qm' ->
       (Laplacian_var gray <= Laplacian_var gray')%R ->
       (yolo_analyzer.QualityMetrics.blur_score qm'
        <= yolo_analyzer.QualityMetrics.blur_score qm)%R).
Proof.
  split; [|split].
  - intros F PF image gray Hgray.
    destruct (quality_metrics_result image gray Hgray) as (qm & Hqm & Hblur & _ & Hq).
    exists qm. split; [exact Hqm|]. split; [exact Hblur|]. split; [exact Hq|].
    intros self fs image_path r Hload Hr.
    destruct (analyzer_result self fs image_path r Hr)
      as (image' & qm' & Hload' & Hqm' & Hq' & Hblur' & _ & Hcomp).
    rewrite Hload in Hload'. injection Hload' as <-.
    rewrite Hqm in Hqm'. injection Hqm' as <-.
    repeat split; assumption.
  - intros image gray qm Hgray Hqm.
    destruct (quality_metrics_result image gray Hgray) as (qm0 & Hqm0 & _ & _ & Hq).
    rewrite Hqm in Hqm0. injection Hqm0 as <-.
    rewrite Hq. cbn [fadd fmul fsub binary64].
    rewrite (mul_comm64 _ (#0.4)%py), !(mul_comm64 _ (#0.3)%py). reflexivity.
  - intros image gray qm Hgray Hqm.
    destruct (quality_metrics_result image gray Hgray) as (qm0 & Hqm0 & Hblur & _ & Hq).
    rewrite Hqm in Hqm0. injection Hqm0 as <-.
    assert (Hblur' : yolo_analyzer.QualityMetrics.blur_score qm
                     = (1 - Rmin (Laplacian_var gray / 1000) 1)%R).
    { rewrite Hblur, py_min_exact. exact_literals.
      replace (Q2R 1000.0) with 1000%R by (unfold Q2R; cbn; lra). reflexivity. }
    split; [exact Hblur'|]. split.
    + rewrite Hq. exact_literals. lra.
    + intros image' gray' qm' Hgray' Hqm' Hle.
      destruct (quality_metrics_result image' gray' Hgray') as (qm1 & Hqm1 & Hblur1 & _).
      rewrite Hqm' in Hqm1. injection Hqm1 as <-.
      rewrite Hblur', Hblur1, py_min_exact. exact_literals.
      replace (Q2R 1000.0) with 1000%R by (unfold Q2R; cbn; lra).
      unfold Rmin. decide_comparisons; lra.
Qed.

(** The demo image in binary64: variance 250 is stored as blur score 0.75. *)
Lemma thumbnail_quality_metrics_demo :
  exists qm,
    yolo_analyzer.FrameAnalyzer._calculate_quality_metrics
      (demo_image (F := PrimFloat.float)) = Return qm /\
    yolo_analyzer.QualityMetrics.blur_score qm = (#0.75)%py.
Proof.
  destruct (proj1 thumbnail_quality_metrics PrimFloat.float _ demo_image demo_gray eq_refl)
    as (qm & Hqm & Hblur & _).
  exists qm. split; [exact Hqm|]. rewrite Hblur. vm_compute. reflexivity.
Defined.
(** ** The HTTP handlers *)

(** The only HTTP error the two handlers produce is 503, and only while the
    service is not initialized: with a service in place neither handler
    raises, so the 500 branch of [POST /analyze] is never taken. *)
Theorem endpoints_raise_only_503 {F : Type} `{PyFloat F} :
  (forall svc fs request e,
     yolo_service.analyze_frame svc fs request = Raise e ->
     svc = None /\ e = HTTPException 503 "YOLO service not initialized") /\
  (forall svc fs requests e,
     yolo_service.analyze_batch svc fs requests = Raise e ->
     svc = None /\ e = HTTPException 503 "YOLO service not initialized") /\
  (forall fs request,
     yolo_service.analyze_frame None fs request
     = Raise (HTTPException 503 "YOLO service not initialized")) /\
  (forall fs requests,
     yolo_service.analyze_batch None fs requests
     = Raise (HTTPException 503 "YOLO service not initialized")) /\
  yolo_service.health_check (F := F) None = false.
Proof.
  assert (Hsingle : forall svc fs request e,
            yolo_service.analyze_frame svc fs request = Raise e ->
            svc = None /\ e = HTTPException 503 "YOLO service not initialized").
  { intros [svc|] fs request e He.
    - rewrite endpoint_is_service, analyze_frame_returns in He. discriminate.
    - injection He as <-. split; reflexivity. }
  assert (Hbatch : forall svc fs requests e,
            yolo_service.analyze_batch svc fs requests = Raise e ->
            svc = None /\ e = HTTPException 503 "YOLO service not initialized").
  { intros [svc|] fs requests e He; [discriminate|].
    injection He as <-. split; reflexivity. }
  split; [exact Hsingle|]. split; [exact Hbatch|]. repeat split.
Qed.

(** Before the start-up hook has run, in the demo world. *)
Lemma endpoints_answer_503_before_startup :
  yolo_service.analyze_frame (F := PrimFloat.float) None demo_fs
    (request "f1.jpg" 1 (#0.0)%py)
  = Raise (HTTPException 503 "YOLO service not initialized") /\
  yolo_service.analyze_batch (F := PrimFloat.float) None demo_fs demo_batch
  = Raise (HTTPException 503 "YOLO service not initialized").
Proof.
  destruct (endpoints_raise_only_503 (F := PrimFloat.float)) as (Hsingle & Hbatch & _).
  split.
  - destruct (yolo_service.analyze_frame (F := PrimFloat.float) None demo_fs
                (request "f1.jpg" 1 (#0.0)%py)) as [r|e] eqn:He; [discriminate|].
    destruct (Hsingle None demo_fs (request "f1.jpg" 1 (#0.0)%py) e He) as [_ ->].
    reflexivity.
  - destruct (yolo_service.analyze_batch (F := PrimFloat.float) None demo_fs demo_batch)
      as [r|e] eqn:He; [discriminate|].
    destruct (Hbatch None demo_fs demo_batch e He) as [_ ->]. reflexivity.
Defined.

(** ** Start-up *)

(** [startup_event] builds the service from the environment: the model path
    defaults to [yolov8n.pt] and the threshold text to [0.5] when the
    variables are not set.  When both the threshold parses and the model
    loads, the service holds exactly these and [GET /health] reports the
    model as loaded; when either raises, that exception leaves the hook as
    it is and the module-level service stays [None]. *)
Theorem startup_event_builds_service_or_propagates {F : Type} `{PyFloat F}
    (environ : gmap string string) (float : string -> outcome F)
    (YOLO_load : string -> outcome (YOLO F)) :
  let model_path := os_getenv environ "YOLO_MODEL_PATH" "yolov8n.pt" in
  let text := os_getenv environ "YOLO_CONFIDENCE_THRESHOLD" "0.5" in
  let startup := startup_event_from_environ environ float YOLO_load in
  (forall confidence_threshold m,
     float text = Return confidence_threshold -> YOLO_load model_path = Return m ->
     startup
     = Return (Some {| yolo_service.YOLOService.confidence_threshold := confidence_threshold;
                       yolo_service.YOLOService.model_path := model_path;
                       yolo_service.YOLOService.model := m |}) /\
     yolo_service.health_check (yolo_service_after startup) = true) /\
  (forall e, float text = Raise e ->
     startup = Raise e /\ yolo_service_after startup = None) /\
  (forall confidence_threshold e,
     float text = Return confidence_threshold -> YOLO_load model_path = Raise e ->
     startup = Raise e /\ yolo_service_after startup = None) /\
  (environ !! "YOLO_MODEL_PATH"%string = None -> model_path = "yolov8n.pt"%string) /\
  (environ !! "YOLO_CONFIDENCE_THRESHOLD"%string = None -> text = "0.5"%string).
Proof.
  intros model_path text startup. subst startup.
  unfold startup_event_from_environ, yolo_service.startup_event,
    yolo_service.YOLOService.__init__.
  fold model_path text.
  split; [|split; [|split; [|split]]].
  - intros ct m -> ->. cbn. split; reflexivity.
  - intros e ->. cbn. split; reflexivity.
  - intros ct e -> ->. cbn. split; reflexivity.
  - unfold model_path, os_getenv. intros ->. reflexivity.
  - unfold text, os_getenv. intros ->. reflexivity.
Qed.

(** With an empty environment and a loader that knows [yolov8n.pt]. *)
Lemma startup_event_with_empty_environment :
  yolo_service.health_check
    (yolo_service_after
       (startup_event_from_environ (F := PrimFloat.float) ∅
          (fun text => if bool_decide (text = "0.5"%string) then Return (#0.5)%py
                       else Raise (ValueError "could not convert string to float"))
          (fun path => if bool_decide (path = "yolov8n.pt"%string) then Return demo_model
                       else Raise (FileNotFoundError path))))
  = true.
Proof.
  refine (proj2 (proj1 (startup_event_builds_service_or_propagates ∅ _ _)
                   (#0.5)%py demo_model _ _)); reflexivity.
Defined.

(** [FrameAnalyzer.__init__] loads the given model path when it exists and
    [yolov8n.pt] otherwise, so a path that does not exist is no error; the
    thresholds are stored as given; a failure of the loader leaves as a
    [RuntimeError] whose message starts with
    [Failed to initialize YOLO model: ]. *)
Theorem analyzer_init_falls_back_to_default_model {F : Type} `{PyFloat F}
    (Path_exists : string -> bool) (YOLO_load : string -> outcome (YOLO F))
    (model_path : string) (confidence_threshold iou_threshold : F) :
  let chosen := if Path_exists model_path then model_path else "yolov8n.pt"%string in
  let init :=
    yolo_analyzer.FrameAnalyzer.__init__ Path_exists YOLO_load model_path
      confidence_threshold iou_threshold in
  (forall m, YOLO_load chosen = Return m ->
     init = Return {| yolo_analyzer.FrameAnalyzer.model := m;
                      yolo_analyzer.FrameAnalyzer.confidence_threshold := confidence_threshold;
                      yolo_analyzer.FrameAnalyzer.iou_threshold := iou_threshold |}) /\
  (forall e, YOLO_load chosen = Raise e ->
     init = Raise (RuntimeError ("Failed to initialize YOLO model: " +:+ str e))) /\
  (forall e, init = Raise e ->
     exists detail, e = RuntimeError ("Failed to initialize YOLO model: " +:+ detail)) /\
  (Path_exists model_path = false ->
     init = yolo_analyzer.FrameAnalyzer.__init__ (fun _ => true) YOLO_load "yolov8n.pt"
              confidence_threshold iou_threshold).
Proof.
  intros chosen init. subst init. unfold yolo_analyzer.FrameAnalyzer.__init__.
  fold chosen.
  assert (Hchosen : (if Path_exists model_path then YOLO_load model_path
                     else YOLO_load "yolov8n.pt"%string) = YOLO_load chosen)
    by (unfold chosen; destruct (Path_exists model_path); reflexivity).
  rewrite Hchosen.
  split; [|split; [|split]].
  - intros m ->. reflexivity.
  - intros e ->. reflexivity.
  - intros e. destruct (YOLO_load chosen) as [m|e']; cbn; [discriminate|].
    intros [= <-]. eauto.
  - intros Hmissing. unfold chosen. rewrite Hmissing. reflexivity.
Qed.

(** A model path that does not exist, with a loader that knows only
    [yolov8n.pt]. *)
Lemma analyzer_init_with_missing_model_file :
  yolo_analyzer.FrameAnalyzer.__init__ (F := PrimFloat.float) (fun _ => false)
    (fun path => if bool_decide (path = "yolov8n.pt"%string) then Return demo_model
                 else Raise (FileNotFoundError path))
    "custom.pt" (#0.5)%py (#0.45)%py
  = Return {| yolo_analyzer.FrameAnalyzer.model := demo_model;
              yolo_analyzer.FrameAnalyzer.confidence_threshold := (#0.5)%py;
              yolo_analyzer.FrameAnalyzer.iou_threshold := (#0.45)%py |}.
Proof.
  refine (proj1 (analyzer_init_falls_back_to_default_model (fun _ => false) _
                   "custom.pt"%string (#0.5)%py (#0.45)%py) demo_model _).
  reflexivity.
Defined.

(** ** The detection loops *)

Section DetectionLoops.
Context {F : Type} `{PyFloat F}.

Lemma service_process_box_reports (self : yolo_service.YOLOService.t F) objs hp box :
  is_Some (names (yolo_service.YOLOService.model self) !! cls box) ->
  exists d hp',
    yolo_service.YOLOService.process_box self (objs, hp) box = Return (objs ++ [d], hp') /\
    service_reports (yolo_service.YOLOService.model self) box d.
Proof.
  intros [n Hn]. unfold yolo_service.YOLOService.process_box, names_getitem.
  rewrite Hn. cbn. destruct (xyxy box) as [[[x1 y1] x2] y2] eqn:Hxy.
  eexists _, _. split; [reflexivity|].
  unfold service_reports. cbn. rewrite Hxy. auto.
Qed.

Lemma service_box_loop_reports (self : yolo_service.YOLOService.t F) bs objs hp :
  Forall (fun box => is_Some (names (yolo_service.YOLOService.model self) !! cls box)) bs ->
  exists new hp',
    for_each bs (yolo_service.YOLOService.process_box self) (objs, hp)
    = Return (objs ++ new, hp') /\
    Forall2 (service_reports (yolo_service.YOLOService.model self)) bs new.
Proof.
  intros Hnames. revert objs hp.
  induction Hnames as [|box bs Hbox _ IH]; intros objs hp.
  - exists [], hp. rewrite app_nil_r. split; [reflexivity | constructor].
  - destruct (service_process_box_reports self objs hp box Hbox) as (d & hp1 & Hstep & Hd).
    destruct (IH (objs ++ [d]) hp1) as (new & hp' & Hloop & Hnew).
    exists (d :: new), hp'. cbn [for_each]. rewrite Hstep. cbn.
    rewrite Hloop, <- app_assoc. split; [reflexivity | constructor; assumption].
Qed.

Lemma service_result_loop_reports (self : yolo_service.YOLOService.t F) results objs hp :
  Forall (fun box => is_Some (names (yolo_service.YOLOService.model self) !! cls box))
         (all_boxes results) ->
  exists new hp',
    for_each results (yolo_service.YOLOService.process_result self) (objs, hp)
    = Return (objs ++ new, hp') /\
    Forall2 (service_reports (yolo_service.YOLOService.model self)) (all_boxes results) new.
Proof.
  revert objs hp. induction results as [|result results IH]; intros objs hp Hnames.
  - exists [], hp. rewrite app_nil_r. split; [reflexivity | constructor].
  - unfold all_boxes in Hnames. cbn [map concat] in Hnames.
    apply Forall_app in Hnames. destruct Hnames as [Hhead Htail].
    cbn [for_each]. unfold all_boxes. cbn [map concat].
    assert (Hstep : yolo_service.YOLOService.process_result self (objs, hp) result
                    = match boxes result with
                      | Some bs =>
                          for_each bs (yolo_service.YOLOService.process_box self) (objs, hp)
                      | None => mret (objs, hp)
                      end) by reflexivity.
    rewrite Hstep. clear Hstep.
    destruct (boxes result) as [bs|].
    + destruct (service_box_loop_reports self bs objs hp Hhead) as (new1 & hp1 & Hloop1 & Hnew1).
      rewrite Hloop1.
      destruct (IH (objs ++ new1) hp1 Htail) as (new2 & hp' & Hloop & Hnew2).
      exists (new1 ++ new2), hp'. cbn. rewrite Hloop, <- app_assoc.
      split; [reflexivity | apply Forall2_app; assumption].
    + destruct (IH objs hp Htail) as (new2 & hp' & Hloop & Hnew2).
      exists new2, hp'. cbn. rewrite Hloop. split; [reflexivity | exact Hnew2].
Qed.

(** One class id without a name stops the loop with an exception. *)
Lemma service_box_loop_raises (self : yolo_service.YOLOService.t F) bs st :
  Exists (fun box => names (yolo_service.YOLOService.model self) !! cls box = None) bs ->
  exists e, for_each bs (yolo_service.YOLOService.process_box self) st = Raise e.
Proof.
  intros Hbad. revert st. induction Hbad as [box bs Hbox | box bs _ IH]; intros [objs hp].
  - cbn [for_each]. unfold yolo_service.YOLOService.process_box, names_getitem.
    rewrite Hbox. cbn. eauto.
  - cbn [for_each].
    destruct (yolo_service.YOLOService.process_box self (objs, hp) box) as [st'|e];
      cbn; [apply IH | eauto].
Qed.

Lemma service_result_loop_raises (self : yolo_service.YOLOService.t F) results st :
  Exists (fun box => names (yolo_service.YOLOService.model self) !! cls box = None)
         (all_boxes results) ->
  exists e, for_each results (yolo_service.YOLOService.process_result self) st = Raise e.
Proof.
  revert st. induction results as [|result results IH]; intros st Hbad.
  - inversion Hbad.
  - unfold all_boxes in Hbad. cbn [map concat] in Hbad.
    apply Exists_app in Hbad. cbn [for_each].
    assert (Hstep : yolo_service.YOLOService.process_result self st result
                    = match boxes result with
                      | Some bs => for_each bs (yolo_service.YOLOService.process_box self) st
                      | None => mret st
                      end) by reflexivity.
    rewrite Hstep. clear Hstep.
    destruct (boxes result) as [bs|].
    + destruct Hbad as [Hhead | Htail].
      * destruct (service_box_loop_raises self bs st Hhead) as (e & He).
        rewrite He. cbn. eauto.
      * destruct (for_each bs (yolo_service.YOLOService.process_box self) st) as [st'|e];
          cbn; [apply IH; exact Htail | eauto].
    + destruct Hbad as [Hhead | Htail]; [inversion Hhead|].
      cbn. apply IH. exact Htail.
Qed.

Lemma analyzer_process_box_reports (self : yolo_analyzer.FrameAnalyzer.t F) objs hp box :
  is_Some (names (yolo_analyzer.FrameAnalyzer.model self) !! cls box) ->
  exists d hp',
    yolo_analyzer.FrameAnalyzer.process_box self (objs, hp) box = Return (objs ++ [d], hp') /\
    analyzer_reports (yolo_analyzer.FrameAnalyzer.model self) box d.
Proof.
  intros [n Hn]. unfold yolo_analyzer.FrameAnalyzer.process_box, names_getitem.
  rewrite Hn. cbn. destruct (xyxyn box) as [[[x1 y1] x2] y2] eqn:Hxy.
  eexists _, _. split; [reflexivity|].
  unfold analyzer_reports. cbn. rewrite Hxy. auto.
Qed.

Lemma analyzer_box_loop_reports (self : yolo_analyzer.FrameAnalyzer.t F) bs objs hp :
  Forall (fun box => is_Some (names (yolo_analyzer.FrameAnalyzer.model self) !! cls box)) bs ->
  exists new hp',
    for_each bs (yolo_analyzer.FrameAnalyzer.process_box self) (objs, hp)
    = Return (objs ++ new, hp') /\
    Forall2 (analyzer_reports (yolo_analyzer.FrameAnalyzer.model self)) bs new.
Proof.
  intros Hnames. revert objs hp.
  induction Hnames as [|box bs Hbox _ IH]; intros objs hp.
  - exists [], hp. rewrite app_nil_r. split; [reflexivity | constructor].
  - destruct (analyzer_process_box_reports self objs hp box Hbox) as (d & hp1 & Hstep & Hd).
    destruct (IH (objs ++ [d]) hp1) as (new & hp' & Hloop & Hnew).
    exists (d :: new), hp'. cbn [for_each]. rewrite Hstep. cbn.
    rewrite Hloop, <- app_assoc. split; [reflexivity | constructor; assumption].
Qed.

Lemma analyzer_box_loop_raises (self : yolo_analyzer.FrameAnalyzer.t F) bs st :
  Exists (fun box => names (yolo_analyzer.FrameAnalyzer.model self) !! cls box = None) bs ->
  exists e, for_each bs (yolo_analyzer.FrameAnalyzer.process_box self) st = Raise e.
Proof.
  intros Hbad. revert st. induction Hbad as [box bs Hbox | box bs _ IH]; intros [objs hp].
  - cbn [for_each]. unfold yolo_analyzer.FrameAnalyzer.process_box, names_getitem.
    rewrite Hbox. cbn. eauto.
  - cbn [for_each].
    destruct (yolo_analyzer.FrameAnalyzer.process_box self (objs, hp) box) as [st'|e];
      cbn; [apply IH | eauto].
Qed.

(** The loop of the analyzer over [results[0]]. *)
Lemma analyzer_first_result_loop (self : yolo_analyzer.FrameAnalyzer.t F)
    (results : list (Result F)) :
  match results with
  | {| boxes := Some bs |} :: _ =>
      for_each bs (yolo_analyzer.FrameAnalyzer.process_box self) ([], false)
  | _ => mret ([], false)
  end
  = for_each (first_boxes results) (yolo_analyzer.FrameAnalyzer.process_box self) ([], false).
Proof. destruct results as [|[[bs|]] rest]; reflexivity. Qed.

(** Every exception that leaves [FrameAnalyzer.analyze_frame] is the
    [RuntimeError] its [except] clause builds. *)
Lemma analyzer_raise_wrapped (self : yolo_analyzer.FrameAnalyzer.t F) fs image_path e :
  yolo_analyzer.FrameAnalyzer.analyze_frame self fs image_path = Raise e ->
  exists e',
    yolo_analyzer.FrameAnalyzer.analyze_frame_body self fs image_path = Raise e' /\
    e = RuntimeError ("Frame analysis failed: " +:+ str e').
Proof.
  unfold yolo_analyzer.FrameAnalyzer.analyze_frame, try_except.
  destruct (yolo_analyzer.FrameAnalyzer.analyze_frame_body self fs image_path) as [r|e'];
    [discriminate|].
  intros [= <-]. eauto.
Qed.

End DetectionLoops.

(** On a frame that loads and on which every reported class id has a name,
    the response of the service lists every box of every result, product
    or not, in the order the model gave them: one entry per box, carrying
    the name of its class, its confidence and its pixel corners
    [[x1, y1, x2, y2]]; and [has_product] holds exactly when one of these
    names is a product class. *)
Theorem service_reports_every_box {F : Type} `{PyFloat F}
    (self : yolo_service.YOLOService.t F) (fs : FileSystem F)
    (frame_path : string) (frame_index : Z) (timestamp : F)
    (image : Image F) (results : list (Result F))
    (Hexists : path_exists fs frame_path = true)
    (Hload : imread fs frame_path = Some image)
    (Hdetect : predict (yolo_service.YOLOService.model self) image
                 (yolo_service.YOLOService.confidence_threshold self) None
               = Return results)
    (Hnames : Forall (fun box =>
                 is_Some (names (yolo_service.YOLOService.model self) !! cls box))
                (all_boxes results)) :
  exists r,
    yolo_service.YOLOService.analyze_frame self fs frame_path frame_index timestamp
      = Return r /\
    Forall2 (service_reports (yolo_service.YOLOService.model self))
      (all_boxes results) (yolo_service.FrameAnalysisResponse.detected_objects r) /\
    length (yolo_service.FrameAnalysisResponse.detected_objects r)
      = length (all_boxes results) /\
    (yolo_service.FrameAnalysisResponse.has_product r = true <->
     exists box n,
       box ∈ all_boxes results /\
       names (yolo_service.YOLOService.model self) !! cls box = Some n /\
       n ∈ yolo_service.YOLOService.product_classes).
Proof.
  destruct (service_result_loop_reports self results [] false Hnames)
    as (new & hp & Hloop & Hnew).
  pose proof (analyze_frame_returns self fs frame_path frame_index timestamp) as Hr.
  unfold yolo_service.YOLOService.analyze_frame_body in Hr.
  rewrite Hexists, Hload, Hdetect in Hr. cbn in Hr. rewrite Hloop in Hr. cbn in Hr.
  eexists. split; [exact Hr|]. cbn.
  split; [exact Hnew|]. split; [symmetry; eapply Forall2_length; exact Hnew|].
  pose proof (service_has_product_iff self fs frame_path frame_index timestamp _ Hr) as Hiff.
  cbn in Hiff. etransitivity; [exact Hiff|].
  split.
  - intros (d & Hin & Hprod).
    apply list_elem_of_lookup in Hin. destruct Hin as (i & Hi).
    destruct (Forall2_lookup_r _ _ _ _ _ Hnew Hi) as (box & Hbox & Hn & _).
    exists box, (yolo_service.DetectedObject.class_name d).
    split; [eapply list_elem_of_lookup_2; exact Hbox|]. split; assumption.
  - intros (box & n & Hin & Hn & Hprod).
    apply list_elem_of_lookup in Hin. destruct Hin as (i & Hi).
    destruct (Forall2_lookup_l _ _ _ _ _ Hnew Hi) as (d & Hd & Hn' & _).
    exists d. split; [eapply list_elem_of_lookup_2; exact Hd|].
    rewrite Hn in Hn'. injection Hn' as <-. exact Hprod.
Qed.

(** A model that answers with two results: the service reports the boxes
    of both, the traffic light and the person. *)
Lemma service_reports_every_box_of_two_results :
  exists r,
    yolo_service.YOLOService.analyze_frame two_result_service
      (demo_fs (F := PrimFloat.float)) "f1.jpg" 1 (#0.0)%py = Return r /\
    length (yolo_service.FrameAnalysisResponse.detected_objects r) = 2%nat.
Proof.
  destruct (service_reports_every_box (F := PrimFloat.float) two_result_service demo_fs "f1.jpg"%string 1%Z
              (#0.0)%py demo_image
              [ {| boxes := Some [traffic_light_box] |}; {| boxes := Some [person_box] |} ]
              eq_refl eq_refl eq_refl)
    as (r & Hr & _ & Hlen & _).
  - unfold all_boxes, first_boxes; cbn [map concat boxes app].
    repeat first [apply Forall_nil_2 | apply Forall_cons_2; [eexists; vm_compute; reflexivity|]].
  - exists r. split; [exact Hr | exact Hlen].
Defined.

(** The analyzer looks at [results[0]] only: on a frame that loads, whose
    grayscale conversion succeeds and on which the class ids of the first
    result have names, the detection list has one entry per box of that
    result, in order, with the name of its class, its confidence and the
    normalized box as [x = x1], [y = y1], [width = x2 - x1],
    [height = y2 - y1].  Boxes of later results are not reported. *)
Theorem analyzer_reports_first_result_only {F : Type} `{PyFloat F}
    (self : yolo_analyzer.FrameAnalyzer.t F) (fs : FileSystem F) (image_path : string)
    (image : Image F) (gray : Gray F) (results : list (Result F))
    (Hload : imread fs image_path = Some image)
    (Hdetect : predict (yolo_analyzer.FrameAnalyzer.model self) image
                 (yolo_analyzer.FrameAnalyzer.confidence_threshold self)
                 (Some (yolo_analyzer.FrameAnalyzer.iou_threshold self))
               = Return results)
    (Hgray : cvtColor image = Return gray)
    (Hnames : Forall (fun box =>
                 is_Some (names (yolo_analyzer.FrameAnalyzer.model self) !! cls box))
                (first_boxes results)) :
  exists r,
    yolo_analyzer.FrameAnalyzer.analyze_frame self fs image_path = Return r /\
    Forall2 (analyzer_reports (yolo_analyzer.FrameAnalyzer.model self))
      (first_boxes results) (yolo_analyzer.FrameAnalysis.detected_objects r) /\
    length (yolo_analyzer.FrameAnalysis.detected_objects r) = length (first_boxes results).
Proof.
  destruct (analyzer_box_loop_reports self (first_boxes results) [] false Hnames)
    as (new & hp & Hloop & Hnew).
  destruct (quality_metrics_result image gray Hgray) as (qm & Hqm & _).
  unfold yolo_analyzer.FrameAnalyzer.analyze_frame,
    yolo_analyzer.FrameAnalyzer.analyze_frame_body.
  rewrite Hload, Hdetect. cbn [mbind outcome_bind].
  rewrite analyzer_first_result_loop, Hloop. cbn [mbind outcome_bind].
  rewrite Hqm. cbn.
  eexists. split; [reflexivity|]. cbn.
  split; [exact Hnew | symmetry; eapply Forall2_length; exact Hnew].
Qed.

(** The same two results on the analyzer path: the traffic light of the
    first result is reported, the person of the second is not. *)
Lemma analyzer_reports_first_of_two_results :
  exists r,
    yolo_analyzer.FrameAnalyzer.analyze_frame two_result_analyzer
      (demo_fs (F := PrimFloat.float)) "f1.jpg" = Return r /\
    length (yolo_analyzer.FrameAnalysis.detected_objects r) = 1%nat /\
    yolo_analyzer.FrameAnalysis.has_product r = false.
Proof.
  destruct (analyzer_reports_first_result_only (F := PrimFloat.float) two_result_analyzer demo_fs "f1.jpg"%string
              demo_image demo_gray
              [ {| boxes := Some [traffic_light_box] |}; {| boxes := Some [person_box] |} ]
              eq_refl eq_refl eq_refl)
    as (r & Hr & _ & Hlen).
  - unfold all_boxes, first_boxes; cbn [map concat boxes app].
    repeat first [apply Forall_nil_2 | apply Forall_cons_2; [eexists; vm_compute; reflexivity|]].
  - exists r. split; [exact Hr|]. split; [exact Hlen|].
    vm_compute in Hr. injection Hr as <-. reflexivity.
Defined.

(** ** Failures on the two paths *)

(** A class id that [model.names] does not hold fails the whole frame.  On
    the service path one such box among the results turns the response
    into the degraded one, and the other detections of the frame are lost
    with it; on the analyzer path one such box in the first result makes
    [analyze_frame] raise its [RuntimeError]. *)
Theorem unknown_class_id_fails_the_frame {F : Type} `{PyFloat F} :
  (forall (self : yolo_service.YOLOService.t F) fs frame_path frame_index timestamp
          image results,
     path_exists fs frame_path = true ->
     imread fs frame_path = Some image ->
     predict (yolo_service.YOLOService.model self) image
       (yolo_service.YOLOService.confidence_threshold self) None = Return results ->
     Exists (fun box => names (yolo_service.YOLOService.model self) !! cls box = None)
            (all_boxes results) ->
     yolo_service.YOLOService.analyze_frame self fs frame_path frame_index timestamp
     = Return (yolo_service.YOLOService.failed_analysis frame_index timestamp)) /\
  (forall (self : yolo_analyzer.FrameAnalyzer.t F) fs image_path image results,
     imread fs image_path = Some image ->
     predict (yolo_analyzer.FrameAnalyzer.model self) image
       (yolo_analyzer.FrameAnalyzer.confidence_threshold self)
       (Some (yolo_analyzer.FrameAnalyzer.iou_threshold self)) = Return results ->
     Exists (fun box => names (yolo_analyzer.FrameAnalyzer.model self) !! cls box = None)
            (first_boxes results) ->
     exists detail,
       yolo_analyzer.FrameAnalyzer.analyze_frame self fs image_path
       = Raise (RuntimeError ("Frame analysis failed: " +:+ detail))).
Proof.
  split.
  - intros self fs frame_path frame_index timestamp image results Hexists Hload Hdetect Hbad.
    destruct (service_result_loop_raises self results ([], false) Hbad) as (e & He).
    rewrite analyze_frame_returns. unfold yolo_service.YOLOService.analyze_frame_body.
    rewrite Hexists, Hload, Hdetect. cbn. rewrite He. reflexivity.
  - intros self fs image_path image results Hload Hdetect Hbad.
    destruct (analyzer_box_loop_raises self (first_boxes results) ([], false) Hbad)
      as (e & He).
    unfold yolo_analyzer.FrameAnalyzer.analyze_frame,
      yolo_analyzer.FrameAnalyzer.analyze_frame_body.
    rewrite Hload, Hdetect. cbn [mbind outcome_bind].
    rewrite analyzer_first_result_loop, He. cbn. eauto.
Qed.

(** A bottle and a box of the unnamed class 80 on the same frame: the
    service answers with the degraded response, the bottle is not
    reported. *)
Lemma unknown_class_id_loses_the_bottle :
  yolo_service.YOLOService.analyze_frame unnamed_service
    (demo_fs (F := PrimFloat.float)) "f1.jpg" 1 (#0.0)%py
  = Return (yolo_service.YOLOService.failed_analysis 1 (#0.0)%py).
Proof.
  refine (proj1 (unknown_class_id_fails_the_frame (F := PrimFloat.float))
            unnamed_service demo_fs "f1.jpg"%string 1%Z (#0.0)%py demo_image
            [ {| boxes := Some [bottle_box; shoe_box] |} ] eq_refl eq_refl eq_refl _).
  unfold all_boxes; cbn [map concat boxes app].
  apply Exists_cons_tl, Exists_cons_hd. vm_compute. reflexivity.
Defined.

(** An image whose grayscale conversion raises cannot be analyzed on the
    analyzer path: [_calculate_quality_metrics] has no handler of its own,
    so [analyze_frame] raises its [RuntimeError] whatever the detector
    answered, and [main] prints the error record and exits with status 1.
    When the detections themselves went through, the message carries the
    text of the conversion error. *)
Theorem analyzer_raises_when_grayscale_fails {F : Type} `{PyFloat F}
    (self : yolo_analyzer.FrameAnalyzer.t F) (fs : FileSystem F) (image_path : string)
    (image : Image F) (e : exn)
    (Hload : imread fs image_path = Some image)
    (Hgray : cvtColor image = Raise e) :
  (exists detail,
     yolo_analyzer.FrameAnalyzer.analyze_frame self fs image_path
     = Raise (RuntimeError ("Frame analysis failed: " +:+ detail))) /\
  (forall results,
     predict (yolo_analyzer.FrameAnalyzer.model self) image
       (yolo_analyzer.FrameAnalyzer.confidence_threshold self)
       (Some (yolo_analyzer.FrameAnalyzer.iou_threshold self)) = Return results ->
     Forall (fun box =>
               is_Some (names (yolo_analyzer.FrameAnalyzer.model self) !! cls box))
            (first_boxes results) ->
     yolo_analyzer.FrameAnalyzer.analyze_frame self fs image_path
     = Raise (RuntimeError ("Frame analysis failed: " +:+ str e))) /\
  (forall Path_exists YOLO_load model_path confidence_threshold iou_threshold,
     let printed :=
       yolo_analyzer.main Path_exists YOLO_load fs image_path model_path
         confidence_threshold iou_threshold in
     yolo_analyzer.exit_code printed = 1%Z /\
     yolo_analyzer.result printed = error_result /\
     is_Some (yolo_analyzer.error printed)).
Proof.
  assert (Hraises : forall self' : yolo_analyzer.FrameAnalyzer.t F,
            exists detail,
              yolo_analyzer.FrameAnalyzer.analyze_frame self' fs image_path
              = Raise (RuntimeError ("Frame analysis failed: " +:+ detail))).
  { intros self'. unfold yolo_analyzer.FrameAnalyzer.analyze_frame,
      yolo_analyzer.FrameAnalyzer.analyze_frame_body.
    rewrite Hload.
    destruct (predict _ _ _ _) as [results|e1]; cbn [mbind outcome_bind]; [|cbn; eauto].
    rewrite analyzer_first_result_loop.
    destruct (for_each _ _ _) as [[objs hp]|e2]; cbn [mbind outcome_bind]; [|cbn; eauto].
    unfold yolo_analyzer.FrameAnalyzer._calculate_quality_metrics. rewrite Hgray.
    cbn. eauto. }
  split; [apply Hraises|]. split.
  - intros results Hdetect Hnames.
    destruct (analyzer_box_loop_reports self (first_boxes results) [] false Hnames)
      as (new & hp & Hloop & _).
    unfold yolo_analyzer.FrameAnalyzer.analyze_frame,
      yolo_analyzer.FrameAnalyzer.analyze_frame_body.
    rewrite Hload, Hdetect. cbn [mbind outcome_bind].
    rewrite analyzer_first_result_loop, Hloop. cbn [mbind outcome_bind].
    unfold yolo_analyzer.FrameAnalyzer._calculate_quality_metrics. rewrite Hgray.
    reflexivity.
  - intros Path_exists YOLO_load model_path ct it printed. subst printed.
    unfold yolo_analyzer.main.
    destruct (yolo_analyzer.FrameAnalyzer.__init__ Path_exists YOLO_load model_path ct it)
      as [analyzer|e0]; cbn [mbind outcome_bind].
    + destruct (Hraises analyzer) as (detail & ->). cbn. repeat split; eauto.
    + cbn. repeat split; eauto.
Qed.

(** The image of the demo world whose conversion raises. *)
Lemma analyzer_raises_on_odd_image :
  yolo_analyzer.FrameAnalyzer.analyze_frame demo_analyzer
    (demo_fs (F := PrimFloat.float)) "odd.jpg"
  = Raise (RuntimeError
             "Frame analysis failed: Invalid number of channels in input image").
Proof.
  refine (proj1 (proj2 (analyzer_raises_when_grayscale_fails (F := PrimFloat.float)
                          demo_analyzer demo_fs "odd.jpg"%string odd_image
                          (cv2_error "Invalid number of channels in input image")
                          eq_refl eq_refl))
            [ {| boxes := Some [bottle_box; traffic_light_box] |} ] eq_refl _).
  unfold first_boxes.
  repeat first [apply Forall_nil_2 | apply Forall_cons_2; [eexists; vm_compute; reflexivity|]].
Defined.

(** Every exception that leaves [FrameAnalyzer.analyze_frame] is a
    [RuntimeError] whose message starts with [Frame analysis failed: ].
    The analyzer does not test whether the file exists: an image that
    [cv2.imread] cannot produce, missing or not decodable, gives the message
    [Frame analysis failed: Could not load image: <path>], and a detector
    failure gives the detector's own text after the prefix. *)
Theorem analyzer_failures_are_runtime_errors {F : Type} `{PyFloat F}
    (self : yolo_analyzer.FrameAnalyzer.t F) (fs : FileSystem F) (image_path : string) :
  (forall e,
     yolo_analyzer.FrameAnalyzer.analyze_frame self fs image_path = Raise e ->
     exists detail, e = RuntimeError ("Frame analysis failed: " +:+ detail)) /\
  (imread fs image_path = None ->
     yolo_analyzer.FrameAnalyzer.analyze_frame self fs image_path
     = Raise (RuntimeError
                ("Frame analysis failed: Could not load image: " +:+ image_path))) /\
  (forall image msg,
     imread fs image_path = Some image ->
     predict (yolo_analyzer.FrameAnalyzer.model self) image
       (yolo_analyzer.FrameAnalyzer.confidence_threshold self)
       (Some (yolo_analyzer.FrameAnalyzer.iou_threshold self)) = Raise (ModelError msg) ->
     yolo_analyzer.FrameAnalyzer.analyze_frame self fs image_path
     = Raise (RuntimeError ("Frame analysis failed: " +:+ msg))).
Proof.
  split; [|split].
  - intros e He. destruct (analyzer_raise_wrapped self fs image_path e He) as (e' & _ & ->).
    eauto.
  - intros Hdec. unfold yolo_analyzer.FrameAnalyzer.analyze_frame,
      yolo_analyzer.FrameAnalyzer.analyze_frame_body.
    rewrite Hdec. reflexivity.
  - intros image msg Hload Hdetect. unfold yolo_analyzer.FrameAnalyzer.analyze_frame,
      yolo_analyzer.FrameAnalyzer.analyze_frame_body.
    rewrite Hload, Hdetect. reflexivity.
Qed.

(** A missing file and a file that cannot be decoded, in the demo world. *)
Lemma analyzer_failures_on_unreadable_files :
  yolo_analyzer.FrameAnalyzer.analyze_frame demo_analyzer
    (demo_fs (F := PrimFloat.float)) "missing.jpg"
  = Raise (RuntimeError "Frame analysis failed: Could not load image: missing.jpg") /\
  yolo_analyzer.FrameAnalyzer.analyze_frame demo_analyzer
    (demo_fs (F := PrimFloat.float)) "truncated.jpg"
  = Raise (RuntimeError "Frame analysis failed: Could not load image: truncated.jpg").
Proof.
  split.
  - exact (proj1 (proj2 (analyzer_failures_are_runtime_errors (F := PrimFloat.float)
                           demo_analyzer demo_fs "missing.jpg"%string)) eq_refl).
  - exact (proj1 (proj2 (analyzer_failures_are_runtime_errors (F := PrimFloat.float)
                           demo_analyzer demo_fs "truncated.jpg"%string)) eq_refl).
Defined.

(** ** The command line *)

Lemma analyzer_init_raise_wrapped {F : Type} `{PyFloat F} Path_exists YOLO_load
    model_path (confidence_threshold iou_threshold : F) e :
  yolo_analyzer.FrameAnalyzer.__init__ Path_exists YOLO_load model_path
    confidence_threshold iou_threshold = Raise e ->
  exists detail, e = RuntimeError ("Failed to initialize YOLO model: " +:+ detail).
Proof.
  unfold yolo_analyzer.FrameAnalyzer.__init__.
  destruct (if Path_exists model_path then YOLO_load model_path
            else YOLO_load "yolov8n.pt"%string) as [m|e']; cbn; [discriminate|].
  intros [= <-]. eauto.
Qed.

(** [main], once its four arguments are read, exits with status 0 exactly
    when the analyzer was built and the analysis returned, and then prints
    the analysis with no [error] entry.  In every other case it exits with
    status 1 and prints the same fixed record (no detections, no product,
    [quality_score] 0.0, [blur_score] 1.0, [brightness_score] 0.0,
    [composition_score] 0.0) together with an [error] text that starts with
    [Failed to initialize YOLO model: ] or with [Frame analysis failed: ]. *)
Theorem main_prints_analysis_or_error_record {F : Type} `{PyFloat F}
    (Path_exists : string -> bool) (YOLO_load : string -> outcome (YOLO F))
    (fs : FileSystem F) (image_path model_path : string)
    (confidence_threshold iou_threshold : F) :
  let printed :=
    yolo_analyzer.main Path_exists YOLO_load fs image_path model_path
      confidence_threshold iou_threshold in
  let init :=
    yolo_analyzer.FrameAnalyzer.__init__ Path_exists YOLO_load model_path
      confidence_threshold iou_threshold in
  (yolo_analyzer.exit_code printed = 0%Z <->
   exists analyzer r,
     init = Return analyzer /\
     yolo_analyzer.FrameAnalyzer.analyze_frame analyzer fs image_path = Return r /\
     printed = {| yolo_analyzer.error := None;
                  yolo_analyzer.result := r;
                  yolo_analyzer.exit_code := 0 |}) /\
  (yolo_analyzer.exit_code printed <> 0%Z ->
   yolo_analyzer.exit_code printed = 1%Z /\
   yolo_analyzer.result printed = error_result /\
   exists detail,
     yolo_analyzer.error printed = Some ("Failed to initialize YOLO model: " +:+ detail) \/
     yolo_analyzer.error printed = Some ("Frame analysis failed: " +:+ detail)).
Proof.
  intros printed init. subst printed init. unfold yolo_analyzer.main.
  destruct (yolo_analyzer.FrameAnalyzer.__init__ Path_exists YOLO_load model_path
              confidence_threshold iou_threshold) as [analyzer|e0] eqn:Hinit;
    cbn [mbind outcome_bind].
  - destruct (yolo_analyzer.FrameAnalyzer.analyze_frame analyzer fs image_path)
      as [r|e1] eqn:Hrun.
    + split.
      * split; [|reflexivity]. intros _. exists analyzer, r. rewrite Hrun. auto.
      * cbn. intros Hne. contradiction Hne. reflexivity.
    + destruct (analyzer_raise_wrapped analyzer fs image_path e1 Hrun) as (e' & _ & ->).
      split.
      * split; [discriminate|]. intros (analyzer' & r & [= <-] & Hr & _). congruence.
      * intros _. cbn. repeat split. eauto.
  - destruct (analyzer_init_raise_wrapped _ _ _ _ _ _ Hinit) as (detail & ->).
    split.
    + split; [discriminate|]. intros (analyzer' & r & Hinit' & _). discriminate.
    + intros _. cbn. repeat split. eauto.
Qed.

(** The demo analyzer on a frame that loads, and on a missing one. *)
Lemma main_on_demo_frames :
  yolo_analyzer.exit_code
    (yolo_analyzer.main (F := PrimFloat.float) (fun _ => true) (fun _ => Return demo_model)
       demo_fs "f1.jpg" "yolov8n.pt" (#0.5)%py (#0.5)%py) = 0%Z /\
  yolo_analyzer.result
    (yolo_analyzer.main (F := PrimFloat.float) (fun _ => true) (fun _ => Return demo_model)
       demo_fs "missing.jpg" "yolov8n.pt" (#0.5)%py (#0.5)%py) = error_result.
Proof.
  split.
  - apply (proj1 (main_prints_analysis_or_error_record (F := PrimFloat.float)
                    (fun _ => true) (fun _ => Return demo_model)
                    demo_fs "f1.jpg"%string "yolov8n.pt"%string (#0.5)%py (#0.5)%py)).
    eexists _, _. split; [reflexivity|]. split; vm_compute; reflexivity.
  - apply (proj2 (main_prints_analysis_or_error_record (F := PrimFloat.float)
                    (fun _ => true) (fun _ => Return demo_model)
                    demo_fs "missing.jpg"%string "yolov8n.pt"%string (#0.5)%py (#0.5)%py)).
    vm_compute. discriminate.
Defined.

(** ** Signs in binary64 *)

Section Binary64Signs.
Local Open Scope Z_scope.

Lemma leb_0_of_nonneg (x : PrimFloat.float) :
  nonneg_sf (Prim2SF x) -> PrimFloat.leb (#0.0)%py x = true.
Proof.
  rewrite leb_spec. change (Prim2SF (#0.0)%py) with (S754_zero false).
  destruct (Prim2SF x) as [s|[|]| |[|] m e]; cbn; try contradiction; reflexivity.
Qed.

(** What lies above a float that is not negative is not negative, and is a
    number. *)
Lemma nonneg_of_ltb (c o : PrimFloat.float) :
  nonneg_sf (Prim2SF c) -> PrimFloat.ltb c o = true -> nonneg_sf (Prim2SF o).
Proof.
  rewrite ltb_spec. unfold SFltb, SFcompare.
  destruct (Prim2SF c) as [sc|[|]| |[|] mc ec]; cbn [nonneg_sf]; try contradiction;
    destruct (Prim2SF o) as [so|[|]| |[|] mo eo]; cbn [nonneg_sf]; try discriminate; auto.
Qed.

Lemma mul_nonneg x my ey :
  nonneg_sf x -> nonneg_sf (SF64mul x (S754_finite false my ey)).
Proof.
  destruct x as [s|[|]| |[|] mx ex]; cbn [nonneg_sf]; intros Hx; try contradiction.
  - exact I.
  - exact I.
  - unfold SF64mul, SFmul. cbn [xorb]. apply binary_round_aux_nonneg. lia.
Qed.

(** [min(x, 1.0)] of a float that is not negative lies in [[0, 1]]. *)
Lemma unit64_min_1 (x : PrimFloat.float) :
  nonneg_sf (Prim2SF x) -> unit64 (py_min x (#1.0)%py).
Proof.
  intros Hx. unfold py_min. cbn [fltb binary64].
  destruct (PrimFloat.ltb (#1.0)%py x) eqn:Hlt.
  - split; vm_compute; reflexivity.
  - assert (Hval : exists vx, fval x = Some vx).
    { unfold fval. rewrite ltb_spec in Hlt.
      change (Prim2SF (#1.0)%py) with (S754_finite false 4503599627370496 (-52)) in Hlt.
      destruct (Prim2SF x) as [s|[|]| |[|] m e]; cbn in Hx; try contradiction;
        try discriminate; unfold sf_value; eauto. }
    destruct Hval as (vx & Hvx). apply unit64_val. exists vx. split; [exact Hvx|].
    rewrite (fltb_val _ _ _ _ fval_1 Hvx) in Hlt. apply Z.ltb_ge in Hlt.
    pose proof (sf_value_nonneg _ _ Hvx). lia.
Qed.

End Binary64Signs.

(** ** The range of the composition score *)






(** ** Subtraction in binary64 *)

Section Binary64Subtraction.
Local Open Scope Z_scope.

Lemma shl_align_snd m e e' :
  snd (shl_align m e e') = Z.min e e'.
Proof.
  unfold shl_align. destruct (e' - e) as [|d|d] eqn:Hd; cbn [snd]; lia.
Qed.

Lemma shl_align_val m e e' :
  Z.pos (fst (shl_align m e e')) = Z.pos m * 2 ^ (e - Z.min e e').
Proof.
  destruct (Z.le_gt_cases e' e) as [Hle|Hgt].
  - rewrite shl_align_fst by exact Hle. f_equal. f_equal. lia.
  - unfold shl_align. destruct (e' - e) as [|d|d] eqn:Hd; try lia. cbn [fst].
    replace (e - Z.min e e') with 0 by lia. lia.
Qed.

(** The value of a positive integer mantissa put into the format. *)
Lemma binary_normalize_val M e :
  0 < M -> - scale <= e -> M * 2 ^ (e + scale) < 2 ^ (scale + 64) ->
  sf_value (binary_normalize prec emax M e false) = Some (Rnd (M * 2 ^ (e + scale))).
Proof.
  intros HM He Hbound. destruct M as [|p|p]; try lia.
  unfold binary_normalize, binary_round. rewrite fexp64_eq.
  change (Z.pos (digits2_pos p)) with (Zdigits2 (Z.pos p)).
  set (E := fexp64 (Zdigits2 (Z.pos p) + e)).
  pose proof (shl_align_val p e E) as Hfst.
  pose proof (shl_align_snd p e E) as Hsnd.
  destruct (shl_align p e E) as [mz ez]. cbn [fst snd] in Hfst, Hsnd. subst ez.
  assert (HE : -1074 <= E) by (unfold E, fexp64; lia).
  pose proof (pow2_pos (e - Z.min e E) ltac:(lia)) as Hp.
  assert (Hval : Z.pos mz * 2 ^ (Z.min e E + scale) = Z.pos p * 2 ^ (e + scale)).
  { rewrite Hfst, <- Z.mul_assoc, <- Z.pow_add_r by (unfold scale in *; lia).
    f_equal. f_equal. lia. }
  rewrite <- Hval. apply round_val.
  - lia.
  - rewrite Zdigits2_log2 by lia. rewrite Hfst.
    rewrite Z.log2_mul_pow2 by lia.
    unfold E. rewrite Zdigits2_log2 by lia. unfold fexp64. lia.
  - unfold scale in *. lia.
  - rewrite Hval. exact Hbound.
Qed.

Lemma sub_val x y vx vy :
  valid_binary x = true -> valid_binary y = true ->
  sf_value x = Some vx -> sf_value y = Some vy ->
  vy <= vx -> vx < 2 ^ (scale + 64) ->
  sf_value (SF64sub x y) = Some (Rnd (vx - vy)).
Proof.
  intros Hx Hy Hvx Hvy Hle Hbound.
  destruct x as [sx|sx| |[|] mx ex]; try discriminate;
    destruct y as [sy|sy| |[|] my ey]; try discriminate.
  - unfold sf_value in Hvx, Hvy. apply Some_Z_eq in Hvx, Hvy. subst.
    destruct sx, sy; reflexivity.
  - unfold sf_value in Hvx, Hvy. apply Some_Z_eq in Hvx, Hvy. subst vx vy.
    destruct (valid_finite_digits _ _ _ Hy) as (Hey & _).
    pose proof (pow2_pos (ey + scale) ltac:(unfold scale; lia)). lia.
  - unfold sf_value in Hvy. apply Some_Z_eq in Hvy. subst vy.
    rewrite Z.sub_0_r, (Rnd_val _ _ Hx Hvx). exact Hvx.
  - unfold sf_value in Hvx, Hvy. apply Some_Z_eq in Hvx, Hvy. subst vx vy.
    destruct (valid_finite_digits _ _ _ Hx) as (Hex & _).
    destruct (valid_finite_digits _ _ _ Hy) as (Hey & _).
    unfold SF64sub, SFsub. cbn [cond_Zopp].
    set (ez := Z.min ex ey).
    pose proof (shl_align_fst mx ex ez ltac:(unfold ez; lia)) as Hax.
    pose proof (shl_align_fst my ey ez ltac:(unfold ez; lia)) as Hay.
    set (M := Z.pos (fst (shl_align mx ex ez)) - Z.pos (fst (shl_align my ey ez))).
    assert (Hval : M * 2 ^ (ez + scale)
                   = Z.pos mx * 2 ^ (ex + scale) - Z.pos my * 2 ^ (ey + scale)).
    { unfold M. rewrite Hax, Hay, Z.mul_sub_distr_r, <- !Z.mul_assoc.
      rewrite <- !Z.pow_add_r by (unfold ez, scale; lia).
      f_equal; f_equal; f_equal; lia. }
    pose proof (pow2_pos (ez + scale) ltac:(unfold ez, scale; lia)) as Hp.
    rewrite <- Hval.
    destruct (Z.eq_dec M 0) as [HM0 | HM0].
    + rewrite HM0. reflexivity.
    + assert (HM : 0 < M) by nia.
      apply binary_normalize_val.
      * exact HM.
      * unfold ez, scale. lia.
      * rewrite Hval. lia.
Qed.

Lemma fval_sub (x y : PrimFloat.float) vx vy :
  fval x = Some vx -> fval y = Some vy -> vy <= vx -> vx < 2 ^ (scale + 64) ->
  fval (PrimFloat.sub x y) = Some (Rnd (vx - vy)).
Proof.
  intros Hx Hy Hle Hb. unfold fval. rewrite sub_spec.
  apply sub_val; auto using fval_valid.
Qed.

Lemma Rnd_1 : Rnd (2 ^ scale) = 2 ^ scale.
Proof. apply (Rnd_val (Prim2SF (#1.0)%py)); [apply fval_valid | exact fval_1]. Qed.

(** [1.0 - x] stays in [[0, 1]] when [x] is there. *)
Lemma unit64_complement (x : PrimFloat.float) :
  unit64 x -> unit64 (PrimFloat.sub (#1.0)%py x).
Proof.
  intros Hx. apply unit64_val in Hx. destruct Hx as (v & Hv & Hb).
  apply unit64_val. exists (Rnd (2 ^ scale - v)). split.
  - apply fval_sub; [exact fval_1 | exact Hv | lia |].
    apply Z.pow_lt_mono_r; unfold scale; lia.
  - split; [apply Rnd_nonneg; lia|].
    rewrite <- Rnd_1 at 2. apply Rnd_mono. lia.
Qed.

End Binary64Subtraction.

(** ** The blends of the two paths in binary64 *)

Section Binary64Blends.
Local Open Scope Z_scope.

Lemma Prim2SF_04 : Prim2SF (#0.4)%py = S754_finite false m04 (-54).
Proof. vm_compute. reflexivity. Qed.

Lemma times04_mono v w : 0 <= v <= w -> times04 v <= times04 w.
Proof.
  intros Hvw. unfold times04. apply Rnd_mono. split.
  - apply Z.div_pos; lia.
  - apply Z.div_le_mono; [lia | nia].
Qed.

Lemma fval_times04 (x : PrimFloat.float) v :
  fval x = Some v -> v <= 2 ^ scale ->
  fval (PrimFloat.mul x (#0.4)%py) = Some (times04 v).
Proof.
  intros Hv Hb. unfold fval. rewrite mul_spec, Prim2SF_04.
  apply (mul_val (Prim2SF x) m04 (-54) v); [apply fval_valid | exact Hv | reflexivity | lia |].
  apply Z.le_lt_trans with (2 ^ scale); [exact Hb|].
  apply Z.pow_lt_mono_r; unfold scale; lia.
Qed.

Lemma times03_nonneg v : 0 <= v -> 0 <= times03 v.
Proof.
  intros Hv. unfold times03. apply Rnd_nonneg. apply Z.div_pos; lia.
Qed.

Lemma blend_mono_l va wa vb vc :
  0 <= va <= wa -> 0 <= vb -> 0 <= vc -> blend va vb vc <= blend wa vb vc.
Proof.
  intros Ha Hb Hc. unfold blend.
  pose proof (times03_nonneg vb Hb). pose proof (times03_nonneg vc Hc).
  apply Rnd_mono. split.
  - pose proof (Rnd_nonneg (va + times03 vb) ltac:(lia)). lia.
  - apply Z.add_le_mono_r. apply Rnd_mono. lia.
Qed.

(** The aggregate of the analyzer, [u*0.4 + b*0.3 + c*0.3], stays in
    [[0, 1]] when its three inputs are there. *)
Lemma quality_blend_unit64 (u b c : PrimFloat.float) :
  unit64 u -> unit64 b -> unit64 c ->
  unit64 (PrimFloat.add
            (PrimFloat.add (PrimFloat.mul u (#0.4)%py) (PrimFloat.mul b (#0.3)%py))
            (PrimFloat.mul c (#0.3)%py)).
Proof.
  intros Hu Hb Hc. apply unit64_val in Hu, Hb, Hc.
  destruct Hu as (vu & Hvu & Bu). destruct Hb as (vb & Hvb & Bb).
  destruct Hc as (vc & Hvc & Bc).
  pose proof (fval_times04 u vu Hvu ltac:(lia)) as Ha.
  assert (Htop : Z.leb (times04 (2 ^ scale)) (2 ^ scale) = true /\
                 Z.leb (blend (times04 (2 ^ scale)) (2 ^ scale) (2 ^ scale)) (2 ^ scale)
                 = true) by (split; vm_compute; reflexivity).
  destruct Htop as [Htop1 Htop2]. apply Z.leb_le in Htop1, Htop2.
  pose proof (times04_mono vu (2 ^ scale) ltac:(lia)) as Hva.
  assert (Hva0 : 0 <= times04 vu).
  { unfold times04. apply Rnd_nonneg. apply Z.div_pos; lia. }
  pose proof (fval_blend _ b c _ vb vc Ha Hvb Hvc ltac:(lia) Bb Bc) as Hq.
  apply unit64_val. eexists. split; [exact Hq|].
  split.
  - unfold blend. apply Rnd_nonneg.
    pose proof (Rnd_nonneg (times04 vu + times03 vb)
                  ltac:(pose proof (times03_nonneg vb ltac:(lia)); lia)).
    pose proof (times03_nonneg vc ltac:(lia)). lia.
  - pose proof (blend_mono_l (times04 vu) (times04 (2 ^ scale)) vb vc
                  ltac:(lia) ltac:(lia) ltac:(lia)).
    pose proof (blend_mono (times04 (2 ^ scale)) vb vc (2 ^ scale) (2 ^ scale)
                  ltac:(lia) ltac:(lia) ltac:(lia)).
    lia.
Qed.

(** The blend of the service by [has_product]: with a product it is at
    least 0.4, without one at most 0.72. *)
Lemma blend_by_product64 (b c : PrimFloat.float) :
  unit64 b -> unit64 c ->
  PrimFloat.leb (#0.4)%py
    (PrimFloat.add
       (PrimFloat.add (PrimFloat.mul (#1.0)%py (#0.4)%py) (PrimFloat.mul b (#0.3)%py))
       (PrimFloat.mul c (#0.3)%py)) = true /\
  PrimFloat.leb
    (PrimFloat.add
       (PrimFloat.add (PrimFloat.mul (#0.3)%py (#0.4)%py) (PrimFloat.mul b (#0.3)%py))
       (PrimFloat.mul c (#0.3)%py)) (#0.72)%py = true.
Proof.
  intros Hb Hc. apply unit64_val in Hb, Hc.
  destruct Hb as (vb & Hvb & Bb). destruct Hc as (vc & Hvc & Bc).
  assert (H04 : exists v, fval (#0.4)%py = Some v) by (eexists; vm_compute; reflexivity).
  assert (H072 : exists v, fval (#0.72)%py = Some v) by (eexists; vm_compute; reflexivity).
  destruct H04 as (v04 & H04). destruct H072 as (v072 & H072).
  assert (Hhi : exists va, fval (PrimFloat.mul (#1.0)%py (#0.4)%py) = Some va /\
                  Z.leb va (2 ^ scale) = true /\ Z.leb 0 va = true /\
                  Z.leb v04 (blend va 0 0) = true).
  { vm_compute in H04. apply Some_Z_eq in H04. subst v04.
    eexists. split; [vm_compute; reflexivity|]. repeat split; vm_compute; reflexivity. }
  assert (Hlo : exists va, fval (PrimFloat.mul (#0.3)%py (#0.4)%py) = Some va /\
                  Z.leb va (2 ^ scale) = true /\ Z.leb 0 va = true /\
                  Z.leb (blend va (2 ^ scale) (2 ^ scale)) v072 = true).
  { vm_compute in H072. apply Some_Z_eq in H072. subst v072.
    eexists. split; [vm_compute; reflexivity|]. repeat split; vm_compute; reflexivity. }
  destruct Hhi as (vh & Hvh & Hh1 & Hh0 & Hh). destruct Hlo as (vl & Hvl & Hl1 & Hl0 & Hl).
  apply Z.leb_le in Hh1, Hh0, Hh, Hl1, Hl0, Hl.
  split.
  - pose proof (fval_blend _ b c vh vb vc Hvh Hvb Hvc Hh1 Bb Bc) as Hq.
    rewrite (fleb_val _ _ _ _ H04 Hq). apply Z.leb_le.
    pose proof (blend_mono vh 0 0 vb vc ltac:(lia) ltac:(lia) ltac:(lia)). lia.
  - pose proof (fval_blend _ b c vl vb vc Hvl Hvb Hvc Hl1 Bb Bc) as Hq.
    rewrite (fleb_val _ _ _ _ Hq H072). apply Z.leb_le.
    pose proof (blend_mono vl vb vc (2 ^ scale) (2 ^ scale)
                  ltac:(lia) ltac:(lia) ltac:(lia)). lia.
Qed.

End Binary64Blends.

(** ** The ranges of the scores *)

Lemma quality_metrics_unit64 (image : Image PrimFloat.float) (gray : Gray PrimFloat.float) qm :
  cvtColor image = Return gray -> gray_measured64 gray ->
  yolo_analyzer.FrameAnalyzer._calculate_quality_metrics image = Return qm ->
  unit64 (yolo_analyzer.QualityMetrics.blur_score qm) /\
  unit64 (yolo_analyzer.QualityMetrics.brightness_score qm) /\
  unit64 (yolo_analyzer.QualityMetrics.contrast_score qm) /\
  unit64 (yolo_analyzer.QualityMetrics.overall_quality qm).
Proof.
  intros Hgray [Hvar Hstd] Hqm.
  unfold yolo_analyzer.FrameAnalyzer._calculate_quality_metrics in Hqm.
  rewrite Hgray in Hqm. cbn [mbind outcome_bind mret outcome_ret] in Hqm.
  cbv zeta in Hqm. injection Hqm as <-.
  cbn [yolo_analyzer.QualityMetrics.blur_score yolo_analyzer.QualityMetrics.brightness_score
       yolo_analyzer.QualityMetrics.contrast_score
       yolo_analyzer.QualityMetrics.overall_quality].
  assert (Hblur : unit64 (#1.0 - py_min (Laplacian_var gray / #1000.0) #1.0)%py)
    by (apply unit64_complement, unit64_blur, Hvar).
  assert (Hbright : forall s : PrimFloat.float, unit64 (py_max #0.0 (py_min #1.0 s))%py)
    by (intros s; apply unit64_clamp).
  assert (Hcontrast : unit64 (py_min (np_std gray / #255.0 * #2) #1.0)%py).
  { apply unit64_min_1. cbn [fmul fdiv binary64]. rewrite mul_spec.
    change (Prim2SF (#2)%py) with (S754_finite false 4503599627370496 (-51)).
    apply mul_nonneg. rewrite div_spec.
    change (Prim2SF (#255.0)%py) with (S754_finite false 8972014882652160 (-45)).
    apply div_nonneg, nonneg_of_leb_0, Hstd. }
  split; [exact Hblur|]. split; [apply Hbright|]. split; [exact Hcontrast|].
  apply quality_blend_unit64; [apply unit64_complement, Hblur | apply Hbright | exact Hcontrast].
Qed.

Lemma quality_metrics_unit (image : Image R) (gray : Gray R) qm :
  cvtColor image = Return gray -> gray_measured gray ->
  yolo_analyzer.FrameAnalyzer._calculate_quality_metrics image = Return qm ->
  (0 <= yolo_analyzer.QualityMetrics.blur_score qm <= 1)%R /\
  (0 <= yolo_analyzer.QualityMetrics.brightness_score qm <= 1)%R /\
  (0 <= yolo_analyzer.QualityMetrics.contrast_score qm <= 1)%R /\
  (0 <= yolo_analyzer.QualityMetrics.overall_quality qm <= 1)%R.
Proof.
  intros Hgray [Hvar Hstd] Hqm.
  unfold yolo_analyzer.FrameAnalyzer._calculate_quality_metrics in Hqm.
  rewrite Hgray in Hqm. cbn [mbind outcome_bind mret outcome_ret] in Hqm.
  cbv zeta in Hqm. injection Hqm as <-.
  cbn [yolo_analyzer.QualityMetrics.blur_score yolo_analyzer.QualityMetrics.brightness_score
       yolo_analyzer.QualityMetrics.contrast_score
       yolo_analyzer.QualityMetrics.overall_quality].
  set (b := (np_mean gray / #255.0)%py).
  set (s := (if (b <? #0.2)%py then (b * #2.5)%py
             else if (#0.8 <? b)%py then ((#1.0 - b) * #5)%py else (#1.0)%py)).
  rewrite !py_max_exact, !py_min_exact.
  cbn [fadd fsub fmul fdiv flit exact]. unfold Q2R. cbn [Qnum Qden].
  generalize s. intros s'. unfold Rmax, Rmin. decide_comparisons; lra.
Qed.

(** Every quality figure of the thumbnail path lies in [[0, 1]] once the
    gray image is measured with a variance and a standard deviation that
    are not negative: the stored [blur_score], the [brightness_score], the
    [contrast_score] and the aggregate, and with them the [quality_score],
    [blur_score] and [brightness_score] that [analyze_frame] returns.
    Proved in binary64, with the rounding of every operation, and in exact
    arithmetic. *)
Theorem analyzer_quality_metrics_in_unit_interval :
  (forall (image : Image PrimFloat.float) (gray : Gray PrimFloat.float) qm,
     cvtColor image = Return gray -> gray_measured64 gray ->
     yolo_analyzer.FrameAnalyzer._calculate_quality_metrics image = Return qm ->
     unit64 (yolo_analyzer.QualityMetrics.blur_score qm) /\
     unit64 (yolo_analyzer.QualityMetrics.brightness_score qm) /\
     unit64 (yolo_analyzer.QualityMetrics.contrast_score qm) /\
     unit64 (yolo_analyzer.QualityMetrics.overall_quality qm)) /\
  (forall (self : yolo_analyzer.FrameAnalyzer.t PrimFloat.float) fs image_path image gray r,
     imread fs image_path = Some image ->
     cvtColor image = Return gray -> gray_measured64 gray ->
     yolo_analyzer.FrameAnalyzer.analyze_frame self fs image_path = Return r ->
     unit64 (yolo_analyzer.FrameAnalysis.quality_score r) /\
     unit64 (yolo_analyzer.FrameAnalysis.blur_score r) /\
     unit64 (yolo_analyzer.FrameAnalysis.brightness_score r)) /\
  (forall (image : Image R) (gray : Gray R) qm,
     cvtColor image = Return gray -> gray_measured gray ->
     yolo_analyzer.FrameAnalyzer._calculate_quality_metrics image = Return qm ->
     (0 <= yolo_analyzer.QualityMetrics.blur_score qm <= 1)%R /\
     (0 <= yolo_analyzer.QualityMetrics.brightness_score qm <= 1)%R /\
     (0 <= yolo_analyzer.QualityMetrics.contrast_score qm <= 1)%R /\
     (0 <= yolo_analyzer.QualityMetrics.overall_quality qm <= 1)%R).
Proof.
  split; [exact quality_metrics_unit64|]. split; [|exact quality_metrics_unit].
  intros self fs image_path image gray r Hload Hgray Hmeasured Hr.
  destruct (analyzer_result self fs image_path r Hr)
    as (image' & qm & Hload' & Hqm & -> & -> & -> & _).
  rewrite Hload in Hload'. injection Hload' as <-.
  destruct (quality_metrics_unit64 image gray qm Hgray Hmeasured Hqm) as (? & ? & _ & ?).
  auto.
Qed.

(** The demo image in binary64: variance 250, mean 127.5, deviation 51. *)
Lemma analyzer_quality_metrics_of_demo_image :
  exists qm,
    yolo_analyzer.FrameAnalyzer._calculate_quality_metrics
      (demo_image (F := PrimFloat.float)) = Return qm /\
    unit64 (yolo_analyzer.QualityMetrics.overall_quality qm) /\
    yolo_analyzer.QualityMetrics.overall_quality qm
    = (#0.25 * #0.4 + #1.0 * #0.3 + #0.4 * #0.3)%py.
Proof.
  eexists. split; [vm_compute; reflexivity|]. split.
  - refine (proj2 (proj2 (proj2
              (proj1 analyzer_quality_metrics_in_unit_interval demo_image demo_gray _
                 eq_refl _ eq_refl)))).
    split; vm_compute; reflexivity.
  - vm_compute. reflexivity.
Defined.

(** On the service path a frame with a product scores at least 0.4 and a
    frame without one at most 0.72, whatever its blur and brightness
    (variance not negative): the detection term moves the score by the gap
    between [1.0*0.4] and [0.3*0.4].  Proved in binary64 and in exact
    arithmetic. *)
Theorem service_quality_by_has_product :
  (forall (self : yolo_service.YOLOService.t PrimFloat.float) fs frame_path
          frame_index timestamp r,
     measured64 fs ->
     analysis_succeeds self fs frame_path ->
     yolo_service.YOLOService.analyze_frame self fs frame_path frame_index timestamp
       = Return r ->
     (yolo_service.FrameAnalysisResponse.has_product r = true ->
      PrimFloat.leb (#0.4)%py (yolo_service.FrameAnalysisResponse.quality_score r) = true) /\
     (yolo_service.FrameAnalysisResponse.has_product r = false ->
      PrimFloat.leb (yolo_service.FrameAnalysisResponse.quality_score r) (#0.72)%py = true)) /\
  (forall (self : yolo_service.YOLOService.t R) fs frame_path frame_index timestamp r,
     measured fs ->
     analysis_succeeds self fs frame_path ->
     yolo_service.YOLOService.analyze_frame self fs frame_path frame_index timestamp
       = Return r ->
     (yolo_service.FrameAnalysisResponse.has_product r = true ->
      (0.4 <= yolo_service.FrameAnalysisResponse.quality_score r)%R) /\
     (yolo_service.FrameAnalysisResponse.has_product r = false ->
      (yolo_service.FrameAnalysisResponse.quality_score r <= 0.72)%R)).
Proof.
  split.
  - intros self fs frame_path frame_index timestamp r Hfs Hok Hr.
    apply succeeds_result in Hr; [|exact Hok].
    destruct (body_result _ _ _ _ _ _ Hr) as (image & _ & Hload & Hblur & Hbright & Hq).
    pose proof (service_blur_score_unit64 image (Hfs _ _ Hload)) as Bblur.
    pose proof (service_brightness_score_unit64 image) as Bbright.
    rewrite <- Hblur in Bblur. rewrite <- Hbright in Bbright.
    destruct (blend_by_product64 _ _ Bblur Bbright) as [Hhi Hlo].
    rewrite Hq. split; intros ->; assumption.
  - intros self fs frame_path frame_index timestamp r Hfs Hok Hr.
    apply succeeds_result in Hr; [|exact Hok].
    destruct (body_result _ _ _ _ _ _ Hr) as (image & _ & Hload & Hblur & Hbright & Hq).
    pose proof (service_blur_score_bounds image (Hfs _ _ Hload)) as Bblur.
    pose proof (service_brightness_score_bounds image) as Bbright.
    rewrite <- Hblur in Bblur. rewrite <- Hbright in Bbright.
    rewrite Hq. split; intros ->; exact_arith.
Qed.

(** Frame 1 of the demo world shows a bottle, frame 2 nothing. *)
Lemma service_quality_by_has_product_demo :
  (exists r,
     yolo_service.YOLOService.analyze_frame demo_service
       (demo_fs (F := PrimFloat.float)) "f1.jpg" 1 (#0.0)%py = Return r /\
     PrimFloat.leb (#0.4)%py (yolo_service.FrameAnalysisResponse.quality_score r) = true) /\
  (exists r,
     yolo_service.YOLOService.analyze_frame demo_service
       (demo_fs (F := PrimFloat.float)) "f2.jpg" 2 (#0.5)%py = Return r /\
     PrimFloat.leb (yolo_service.FrameAnalysisResponse.quality_score r) (#0.72)%py = true).
Proof.
  split.
  - pose proof (analyze_frame_returns demo_service (demo_fs (F := PrimFloat.float))
                  "f1.jpg" 1 (#0.0)%py) as Hr.
    match type of Hr with _ = Return ?v => set (r := v) in Hr end.
    exists r. split; [exact Hr|].
    refine (proj1 (proj1 service_quality_by_has_product demo_service demo_fs
                     "f1.jpg"%string 1%Z (#0.0)%py r demo_fs_measured64 _ Hr) _).
    + eexists _, _, _. repeat split; vm_compute; reflexivity.
    + vm_compute. reflexivity.
  - pose proof (analyze_frame_returns demo_service (demo_fs (F := PrimFloat.float))
                  "f2.jpg" 2 (#0.5)%py) as Hr.
    match type of Hr with _ = Return ?v => set (r := v) in Hr end.
    exists r. split; [exact Hr|].
    refine (proj2 (proj1 service_quality_by_has_product demo_service demo_fs
                     "f2.jpg"%string 2%Z (#0.5)%py r demo_fs_measured64
                     black_frame_succeeds64 Hr) _).
    vm_compute. reflexivity.
Defined.

(** ** The order of binary64 on floats that are not negative *)

Section Binary64Order.
Local Open Scope Z_scope.

Lemma sf_value_lt_top x v :
  valid_binary x = true -> sf_value x = Some v -> v < 2 ^ (scale + 1100).
Proof.
  intros Hx Hv. destruct x as [s|s| |[|] m e]; try discriminate;
    unfold sf_value in Hv; apply Some_Z_eq in Hv; subst v.
  - apply pow2_pos. unfold scale. lia.
  - destruct (valid_finite_digits _ _ _ Hx) as (He & Hd & _).
    pose proof (log2_lt_pow2_digits (Z.pos m) ltac:(lia)) as [_ Hm].
    pose proof (pow2_pos (e + scale) ltac:(unfold scale; lia)) as Hp.
    apply Z.lt_le_trans with (2 ^ (Z.log2 (Z.pos m) + 1) * 2 ^ (e + scale)); [nia|].
    rewrite <- Z.pow_add_r by (pose proof (Z.log2_nonneg (Z.pos m)); unfold scale; lia).
    apply Z.pow_le_mono_r; unfold scale; lia.
Qed.

Lemma rank_nonneg_sf x : nonneg_sf x <-> exists r, rank x = Some r.
Proof.
  destruct x as [s|[|]| |[|] m e]; unfold rank, sf_value, nonneg_sf; split;
    try tauto; intros H; try (destruct H as (r & Hr); discriminate); eauto.
Qed.

Lemma rank_nonneg x r : rank x = Some r -> 0 <= r.
Proof.
  destruct x as [s|[|]| |[|] m e]; unfold rank, sf_value; intros Hr; try discriminate;
    apply Some_Z_eq in Hr; subst r.
  - lia.
  - apply Z.lt_le_incl, pow2_pos. unfold scale. lia.
  - pose proof (Z.pow_nonneg 2 (e + scale)). lia.
Qed.

Lemma rank_compare x y rx ry :
  valid_binary x = true -> valid_binary y = true ->
  rank x = Some rx -> rank y = Some ry ->
  SFcompare x y = Some (rx ?= ry).
Proof.
  intros Hx Hy Hrx Hry.
  assert (Hinf : forall z rz, valid_binary z = true -> rank z = Some rz ->
            z = S754_infinity false /\ rz = 2 ^ (scale + 1100) \/
            sf_value z = Some rz /\ rz < 2 ^ (scale + 1100)).
  { intros z rz Hz Hr. destruct z as [s|[|]| |s m e]; cbn in Hr; try discriminate.
    - right. split; [exact Hr | eapply sf_value_lt_top; eassumption].
    - left. apply Some_Z_eq in Hr. auto.
    - right. split; [exact Hr | eapply sf_value_lt_top; eassumption]. }
  destruct (Hinf x rx Hx Hrx) as [[-> ->] | [Hvx Hbx]];
    destruct (Hinf y ry Hy Hry) as [[-> ->] | [Hvy Hby]].
  - rewrite Z.compare_refl. reflexivity.
  - replace (2 ^ (scale + 1100) ?= ry) with Gt by (symmetry; apply Z.compare_gt_iff; lia).
    destruct y as [s|s| |[|] m e]; try discriminate; reflexivity.
  - replace (rx ?= 2 ^ (scale + 1100)) with Lt by (symmetry; apply Z.compare_lt_iff; lia).
    destruct x as [s|s| |[|] m e]; try discriminate; reflexivity.
  - apply compare_val; assumption.
Qed.

(** Two floats above zero at the same place are the same float. *)
Lemma rank_inj x y r :
  valid_binary x = true -> valid_binary y = true ->
  rank x = Some r -> rank y = Some r -> 0 < r -> x = y.
Proof.
  intros Hx Hy Hrx Hry Hr.
  pose proof (rank_compare x y r r Hx Hy Hrx Hry) as Hc. rewrite Z.compare_refl in Hc.
  destruct x as [sx|[|]| |[|] mx ex]; cbn in Hrx; try discriminate;
    try (apply Some_Z_eq in Hrx; lia);
    destruct y as [sy|[|]| |[|] my ey]; cbn in Hry; try discriminate;
    try (apply Some_Z_eq in Hry; lia); try reflexivity; try discriminate.
  cbn [SFcompare] in Hc. injection Hc as Hc.
  destruct (Z.compare_spec ex ey) as [He|He|He]; try discriminate.
  subst ey. rewrite Pos.compare_cont_spec in Hc.
  destruct (Pos.compare mx my) eqn:Hm; cbn [Pos.switch_Eq] in Hc; try discriminate.
  apply Pos.compare_eq in Hm. subst my. reflexivity.
Qed.

Lemma frank_ltb (x y : PrimFloat.float) rx ry :
  frank x = Some rx -> frank y = Some ry -> PrimFloat.ltb x y = (rx <? ry).
Proof.
  intros Hx Hy. rewrite ltb_spec. unfold SFltb.
  rewrite (rank_compare _ _ rx ry (fval_valid x) (fval_valid y) Hx Hy).
  unfold Z.ltb. destruct (rx ?= ry); reflexivity.
Qed.

Lemma frank_above (c x : PrimFloat.float) rc :
  frank c = Some rc -> PrimFloat.ltb c x = true ->
  exists rx, frank x = Some rx /\ rc < rx.
Proof.
  intros Hc Hlt.
  assert (Hnn : nonneg_sf (Prim2SF x)).
  { eapply nonneg_of_ltb; [|exact Hlt]. apply rank_nonneg_sf. eauto. }
  apply rank_nonneg_sf in Hnn. destruct Hnn as (rx & Hrx). exists rx. split; [exact Hrx|].
  rewrite (frank_ltb c x rc rx Hc Hrx) in Hlt. apply Z.ltb_lt. exact Hlt.
Qed.

Lemma frank_inj (x y : PrimFloat.float) r :
  frank x = Some r -> frank y = Some r -> 0 < r -> x = y.
Proof.
  intros Hx Hy Hr. apply Prim2SF_inj.
  exact (rank_inj _ _ r (fval_valid x) (fval_valid y) Hx Hy Hr).
Qed.

(** The running maximum [max(max(c, x), y)] does not depend on the order
    in which [x] and [y] arrive, when [c] is a number that is not
    negative; [x] and [y] are any floats. *)
Lemma py_max_swap64 (c x y : PrimFloat.float) :
  nonneg_sf (Prim2SF c) ->
  py_max (py_max c x) y = py_max (py_max c y) x.
Proof.
  intros Hc. apply rank_nonneg_sf in Hc. destruct Hc as (rc & Hrc).
  pose proof (rank_nonneg _ _ Hrc) as Hrc0.
  unfold py_max. cbn [fltb binary64].
  destruct (PrimFloat.ltb c x) eqn:Hcx; destruct (PrimFloat.ltb c y) eqn:Hcy;
    cbv beta iota; rewrite ?Hcx, ?Hcy.
  - destruct (frank_above c x rc Hrc Hcx) as (rx & Hrx & Hx).
    destruct (frank_above c y rc Hrc Hcy) as (ry & Hry & Hy).
    rewrite (frank_ltb x y rx ry Hrx Hry), (frank_ltb y x ry rx Hry Hrx).
    destruct (Z.ltb_spec rx ry) as [Hlt|Hge]; destruct (Z.ltb_spec ry rx) as [Hlt'|Hge'];
      try lia; try reflexivity.
    assert (rx = ry) by lia. subst ry. apply (frank_inj x y rx Hrx Hry). lia.
  - destruct (frank_above c x rc Hrc Hcx) as (rx & Hrx & Hx).
    destruct (PrimFloat.ltb x y) eqn:Hxy; [|reflexivity].
    destruct (frank_above x y rx Hrx Hxy) as (ry & Hry & Hy).
    rewrite (frank_ltb c y rc ry Hrc Hry) in Hcy. apply Z.ltb_ge in Hcy. lia.
  - destruct (frank_above c y rc Hrc Hcy) as (ry & Hry & Hy).
    destruct (PrimFloat.ltb y x) eqn:Hyx; [|reflexivity].
    destruct (frank_above y x ry Hry Hyx) as (rx & Hrx & Hx).
    rewrite (frank_ltb c x rc rx Hrc Hrx) in Hcx. apply Z.ltb_ge in Hcx. lia.
  - reflexivity.
Qed.

Lemma py_max_nonneg64 (c x : PrimFloat.float) :
  nonneg_sf (Prim2SF c) -> nonneg_sf (Prim2SF (py_max c x)).
Proof.
  intros Hc. unfold py_max. cbn [fltb binary64].
  destruct (PrimFloat.ltb c x) eqn:Hlt; [eapply nonneg_of_ltb; eassumption | exact Hc].
Qed.

Lemma running_max_permutation64 (xs ys : list PrimFloat.float) (c : PrimFloat.float) :
  Permutation xs ys -> nonneg_sf (Prim2SF c) ->
  fold_left py_max xs c = fold_left py_max ys c.
Proof.
  intros Hperm. revert c.
  induction Hperm as [|x xs ys _ IH|x y xs|xs ys zs _ IH1 _ IH2]; intros c Hc;
    cbn [fold_left].
  - reflexivity.
  - apply IH, py_max_nonneg64, Hc.
  - rewrite (py_max_swap64 c y x Hc). reflexivity.
  - rewrite (IH1 c Hc). apply IH2, Hc.
Qed.

End Binary64Order.

(** ** The composition score as a running maximum *)

Section CompositionLoopFacts.
Context {F : Type} `{PyFloat F}.

Lemma composition_step_eq (c m : F) (obj : yolo_analyzer.Detection.t F) :
  yolo_analyzer.FrameAnalyzer.composition_step (c, m) obj
  = (py_max c (obj_score obj), py_max m (yolo_analyzer.Detection.confidence obj)).
Proof. reflexivity. Qed.

Lemma composition_loop_eq (ds : list (yolo_analyzer.Detection.t F)) (c m : F) :
  fold_left yolo_analyzer.FrameAnalyzer.composition_step ds (c, m)
  = (fold_left py_max (map obj_score ds) c,
     fold_left py_max (map (@yolo_analyzer.Detection.confidence F) ds) m).
Proof.
  revert c m. induction ds as [|obj ds IH]; intros c m; cbn [fold_left map].
  - reflexivity.
  - rewrite composition_step_eq. apply IH.
Qed.

Lemma composition_score_eq (d : yolo_analyzer.Detection.t F)
    (ds : list (yolo_analyzer.Detection.t F)) (image_shape : Z * Z * Z) :
  yolo_analyzer.FrameAnalyzer._calculate_composition_score (d :: ds) image_shape
  = boost_and_clamp
      (fold_left py_max (map obj_score (d :: ds)) (#0.0)%py,
       fold_left py_max (map (@yolo_analyzer.Detection.confidence F) (d :: ds)) (#0.0)%py).
Proof.
  unfold yolo_analyzer.FrameAnalyzer._calculate_composition_score.
  destruct image_shape as [[height width] channels].
  rewrite composition_loop_eq. reflexivity.
Qed.

End CompositionLoopFacts.

Lemma Rmax_swap_running (c x y : R) : py_max (py_max c x) y = py_max (py_max c y) x.
Proof.
  rewrite !py_max_exact. unfold Rmax. decide_comparisons; lra.
Qed.

Lemma running_max_permutation (xs ys : list R) (c : R) :
  Permutation xs ys -> fold_left py_max xs c = fold_left py_max ys c.
Proof.
  intros Hperm. revert c.
  induction Hperm as [|x xs ys _ IH|x y xs|xs ys zs _ IH1 _ IH2]; intros c;
    cbn [fold_left].
  - reflexivity.
  - apply IH.
  - rewrite (Rmax_swap_running c y x). reflexivity.
  - rewrite (IH1 c). apply IH2.
Qed.

(** The composition score does not depend on the order in which the
    detections are listed, nor on the image shape it is passed: the loop
    keeps a running maximum, which starts at 0.0 and which a score that is
    not a number never replaces.  Proved in binary64 for all detections,
    whatever their coordinates and confidences, and in exact arithmetic. *)
Theorem composition_score_ignores_order_and_shape :
  (forall (detected_objects detected_objects' : list (yolo_analyzer.Detection.t PrimFloat.float))
          (image_shape image_shape' : Z * Z * Z),
     Permutation detected_objects detected_objects' ->
     yolo_analyzer.FrameAnalyzer._calculate_composition_score detected_objects image_shape
     = yolo_analyzer.FrameAnalyzer._calculate_composition_score detected_objects'
         image_shape') /\
  (forall (detected_objects detected_objects' : list (yolo_analyzer.Detection.t R))
          (image_shape image_shape' : Z * Z * Z),
     Permutation detected_objects detected_objects' ->
     yolo_analyzer.FrameAnalyzer._calculate_composition_score detected_objects image_shape
     = yolo_analyzer.FrameAnalyzer._calculate_composition_score detected_objects'
         image_shape').
Proof.
  split.
  - intros ds ds' image_shape image_shape' Hperm.
    destruct ds as [|d ds]; destruct ds' as [|d' ds'].
    + reflexivity.
    + apply Permutation_nil in Hperm. discriminate.
    + symmetry in Hperm. apply Permutation_nil in Hperm. discriminate.
    + rewrite !composition_score_eq. f_equal. f_equal.
      * apply running_max_permutation64; [apply Permutation_map; exact Hperm | exact I].
      * apply running_max_permutation64; [apply Permutation_map; exact Hperm | exact I].
  - intros ds ds' image_shape image_shape' Hperm.
    destruct ds as [|d ds]; destruct ds' as [|d' ds'].
    + reflexivity.
    + apply Permutation_nil in Hperm. discriminate.
    + symmetry in Hperm. apply Permutation_nil in Hperm. discriminate.
    + rewrite !composition_score_eq. f_equal. f_equal.
      * apply running_max_permutation, Permutation_map, Hperm.
      * apply running_max_permutation, Permutation_map, Hperm.
Qed.

(** The centered bottle and the corner traffic light, in either order and
    on two frame sizes, in binary64. *)
Lemma composition_score_of_two_detections_swapped :
  yolo_analyzer.FrameAnalyzer._calculate_composition_score
    [centered_detection (F := PrimFloat.float); corner_detection] (720, 1280, 3)%Z
  = yolo_analyzer.FrameAnalyzer._calculate_composition_score
      [corner_detection (F := PrimFloat.float); centered_detection] (480, 640, 3)%Z.
Proof.
  apply (proj1 composition_score_ignores_order_and_shape). apply perm_swap.
Defined.

(** ** The brightness scores of the two paths, in exact arithmetic *)

(** Decides the comparisons of [b] with the thresholds, then those of
    [min] and [max]. *)
Ltac brightness_cases b :=
  repeat match goal with
         | |- context [Rle_dec ?u b] => destruct (Rle_dec u b)
         | |- context [Rle_dec b ?v] => destruct (Rle_dec b v)
         | |- context [Rlt_dec ?u b] => destruct (Rlt_dec u b)
         | |- context [Rlt_dec b ?v] => destruct (Rlt_dec b v)
         end;
  cbn [andb]; unfold Rmax, Rmin; decide_comparisons; try lra.

Lemma service_brightness_exact (image : Image R) (gray : Gray R) :
  cvtColor image = Return gray ->
  yolo_service.YOLOService.calculate_brightness_score image
  = (let b := np_mean gray / 255 in
     Rmax 0 (Rmin 1 (if Rle_dec 0.3 b
                     then if Rle_dec b 0.8 then 1 else (1 - b) / 0.2
                     else b / 0.3)))%R.
Proof.
  intros Hgray. unfold yolo_service.YOLOService.calculate_brightness_score.
  rewrite Hgray. cbv zeta. rewrite py_max_exact, py_min_exact.
  cbn [fadd fsub fmul fdiv fltb fleb flit exact]. unfold Q2R, Rleb, Rltb. cbn [Qnum Qden].
  replace (np_mean gray / (2550 * / 10))%R with (np_mean gray / 255)%R by lra.
  generalize (np_mean gray / 255)%R. intros b.
  brightness_cases b.
Qed.

Lemma analyzer_brightness_exact (image : Image R) (gray : Gray R) qm :
  cvtColor image = Return gray ->
  yolo_analyzer.FrameAnalyzer._calculate_quality_metrics image = Return qm ->
  yolo_analyzer.QualityMetrics.brightness_score qm
  = (let b := np_mean gray / 255 in
     Rmax 0 (Rmin 1 (if Rlt_dec b 0.2 then b * 2.5
                     else if Rlt_dec 0.8 b then (1 - b) * 5 else 1)))%R.
Proof.
  intros Hgray Hqm. unfold yolo_analyzer.FrameAnalyzer._calculate_quality_metrics in Hqm.
  rewrite Hgray in Hqm. cbn [mbind outcome_bind mret outcome_ret] in Hqm.
  cbv zeta in Hqm. injection Hqm as <-.
  cbn [yolo_analyzer.QualityMetrics.brightness_score]. cbv zeta.
  rewrite py_max_exact, py_min_exact.
  cbn [fadd fsub fmul fdiv fltb fleb flit exact]. unfold Q2R, Rleb, Rltb. cbn [Qnum Qden].
  replace (np_mean gray / (2550 * / 10))%R with (np_mean gray / 255)%R by lra.
  generalize (np_mean gray / 255)%R. intros b.
  brightness_cases b.
Qed.

(** In exact arithmetic the brightness score of the service, as a function
    of the mean gray level [b = mean/255], is 1 exactly on [[0.3, 0.8]],
    is 0 exactly for [b <= 0] and [b >= 1], rises with [b] up to 0.8 and
    falls with it from 0.3 on. *)
Theorem service_brightness_score_shape
    (image image' : Image R) (gray gray' : Gray R)
    (Hgray : cvtColor image = Return gray)
    (Hgray' : cvtColor image' = Return gray') :
  let b := (np_mean gray / 255)%R in
  let b' := (np_mean gray' / 255)%R in
  let s := yolo_service.YOLOService.calculate_brightness_score image in
  let s' := yolo_service.YOLOService.calculate_brightness_score image' in
  (s = 1%R <-> (0.3 <= b <= 0.8)%R) /\
  (s = 0%R <-> (b <= 0 \/ 1 <= b)%R) /\
  ((b <= b' <= 0.8)%R -> (s <= s')%R) /\
  ((0.3 <= b <= b')%R -> (s' <= s)%R).
Proof.
  intros b b' s s'. subst s s'.
  rewrite (service_brightness_exact image gray Hgray),
    (service_brightness_exact image' gray' Hgray').
  cbv zeta. fold b b'. clearbody b b'.
  split; [|split; [|split]].
  - split; [|intros Hb; brightness_cases b].
    intros Hs. destruct (Rle_dec 0.3 b) as [H1|H1]; [destruct (Rle_dec b 0.8) as [H2|H2]|].
    + lra.
    + exfalso. revert Hs. brightness_cases b.
    + exfalso. revert Hs. brightness_cases b.
  - split.
    + intros Hs. destruct (Rle_dec b 0) as [H1|H1]; [lra|].
      destruct (Rle_dec 1 b) as [H2|H2]; [lra|].
      exfalso. revert Hs. brightness_cases b.
    + intros Hb. brightness_cases b.
  - intros Hb.
    destruct (Rle_dec 0.3 b), (Rle_dec b 0.8), (Rle_dec 0.3 b'), (Rle_dec b' 0.8);
      try lra; unfold Rmax, Rmin; decide_comparisons; lra.
  - intros Hb.
    destruct (Rle_dec 0.3 b), (Rle_dec b 0.8), (Rle_dec 0.3 b'), (Rle_dec b' 0.8);
      try lra; unfold Rmax, Rmin; decide_comparisons; lra.
Qed.

(** The demo image, of mean gray level 127.5, and the black one. *)
Lemma service_brightness_score_of_demo_images :
  yolo_service.YOLOService.calculate_brightness_score (demo_image (F := R)) = 1%R /\
  yolo_service.YOLOService.calculate_brightness_score (black_image (F := R)) = 0%R.
Proof.
  pose proof (service_brightness_score_shape demo_image black_image demo_gray
                flat_black_gray eq_refl eq_refl) as (Hone & _).
  pose proof (service_brightness_score_shape black_image demo_image flat_black_gray
                demo_gray eq_refl eq_refl) as (_ & Hzero & _).
  split.
  - apply Hone. cbn. unfold Q2R. cbn. lra.
  - apply Hzero. cbn. unfold Q2R. cbn. lra.
Defined.

(** In exact arithmetic the brightness score of the analyzer is 1 on
    [[0.2, 0.8]] and stays below 0.5 for every darker frame, so it jumps at
    0.2; it is the score of the service from [b = 0.3] on, lies below it
    for [0 < b < 0.2] and above it for [0.2 <= b < 0.3]. *)
Theorem analyzer_brightness_score_shape
    (image : Image R) (gray : Gray R) (qm : yolo_analyzer.QualityMetrics.t R)
    (Hgray : cvtColor image = Return gray)
    (Hqm : yolo_analyzer.FrameAnalyzer._calculate_quality_metrics image = Return qm) :
  let b := (np_mean gray / 255)%R in
  let s := yolo_analyzer.QualityMetrics.brightness_score qm in
  let service := yolo_service.YOLOService.calculate_brightness_score image in
  ((0.2 <= b <= 0.8)%R -> s = 1%R) /\
  ((b < 0.2)%R -> (s < 0.5)%R) /\
  ((0.3 <= b)%R -> s = service) /\
  ((0 < b < 0.2)%R -> (s < service)%R) /\
  ((0.2 <= b < 0.3)%R -> (service < s)%R).
Proof.
  intros b s service. subst s service.
  rewrite (analyzer_brightness_exact image gray qm Hgray Hqm),
    (service_brightness_exact image gray Hgray).
  cbv zeta. fold b. clearbody b.
  repeat split; intros Hb; brightness_cases b.
Qed.

(** The demo image on the plateau. *)
Lemma analyzer_brightness_score_of_demo_image :
  exists qm,
    yolo_analyzer.FrameAnalyzer._calculate_quality_metrics (demo_image (F := R))
    = Return qm /\
    yolo_analyzer.QualityMetrics.brightness_score qm = 1%R.
Proof.
  eexists. split; [reflexivity|].
  refine (proj1 (analyzer_brightness_score_shape demo_image demo_gray _ eq_refl eq_refl) _).
  cbn. unfold Q2R. cbn. lra.
Defined.

(** ** Products that may overflow *)

Section Binary64Saturation.
Local Open Scope Z_scope.


Lemma sat_finite x v : valid_binary x = true -> sf_value x = Some v -> sat v = v.
Proof.
  intros Hx Hv. unfold sat.
  destruct x as [s|s| |[|] m e]; try discriminate; unfold sf_value in Hv;
    apply Some_Z_eq in Hv; subst v.
  - reflexivity.
  - destruct (valid_finite_digits _ _ _ Hx) as (He & Hd & _).
    pose proof (log2_lt_pow2_digits (Z.pos m) ltac:(lia)) as [_ Hm].
    pose proof (pow2_pos (e + scale) ltac:(unfold scale; lia)) as Hp.
    assert (Z.pos m * 2 ^ (e + scale) < 2 ^ (1024 + scale)).
    { apply Z.lt_le_trans with (2 ^ (Z.log2 (Z.pos m) + 1) * 2 ^ (e + scale)); [nia|].
      rewrite <- Z.pow_add_r by (pose proof (Z.log2_nonneg (Z.pos m)); unfold scale; lia).
      apply Z.pow_le_mono_r; unfold scale; lia. }
    destruct (Z.ltb_spec (Z.pos m * 2 ^ (e + scale)) (2 ^ (1024 + scale))); lia.
Qed.

End Binary64Saturation.

Section Binary64Products.
Local Open Scope Z_scope.




Lemma rank_sat x r : valid_binary x = true -> rank x = Some r -> sat r = r.
Proof.
  intros Hx Hr. destruct x as [s|[|]| |[|] m e]; try discriminate.
  - eapply sat_finite; eassumption.
  - unfold rank in Hr. apply Some_Z_eq in Hr. subst r. unfold sat.
    assert (2 ^ (1024 + scale) <= 2 ^ (scale + 1100))
      by (apply Z.pow_le_mono_r; unfold scale; lia).
    destruct (Z.ltb_spec (2 ^ (scale + 1100)) (2 ^ (1024 + scale))); [lia|reflexivity].
  - eapply sat_finite; eassumption.
Qed.





Lemma frank_leb (x y : PrimFloat.float) rx ry :
  frank x = Some rx -> frank y = Some ry -> PrimFloat.leb x y = (rx <=? ry).
Proof.
  intros Hx Hy. rewrite leb_spec. unfold SFleb.
  rewrite (rank_compare _ _ rx ry (fval_valid x) (fval_valid y) Hx Hy).
  unfold Z.leb. destruct (rx ?= ry); reflexivity.
Qed.







End Binary64Products.

(** ** More detections, and detections of low confidence *)

Lemma running_max_above (xs : list R) (c : R) : (c <= fold_left py_max xs c)%R.
Proof.
  revert c. induction xs as [|x xs IH]; intros c; cbn [fold_left]; [lra|].
  specialize (IH (py_max c x)). rewrite py_max_exact in *.
  pose proof (Rmax_l c x). lra.
Qed.



Lemma obj_score_bounds (obj : yolo_analyzer.Detection.t R) :
  (0 <= yolo_analyzer.BBox.width (yolo_analyzer.Detection.bbox obj)
        * yolo_analyzer.BBox.height (yolo_analyzer.Detection.bbox obj))%R ->
  (0 <= yolo_analyzer.Detection.confidence obj)%R ->
  (0 <= obj_score obj <= yolo_analyzer.Detection.confidence obj)%R.
Proof.
  intros Harea Hconf. unfold obj_score. cbv zeta.
  rewrite !py_min_exact, !py_max_exact. exact_literals.
  match goal with
  | |- context [R_sqrt.sqrt ?t] =>
      pose proof (sqrt_pos t) as Hd; set (dist := R_sqrt.sqrt t) in *
  end.
  set (area := (yolo_analyzer.BBox.width (yolo_analyzer.Detection.bbox obj)
                * yolo_analyzer.BBox.height (yolo_analyzer.Detection.bbox obj))%R) in *.
  set (conf := yolo_analyzer.Detection.confidence obj) in *.
  assert (Hw : exists w, (0 <= w <= 1)%R /\
     ((1 - Rmin (dist * 2) 1) * 0.4
      + (if Rleb 0.1 area && Rleb area 0.6 then 1
         else if Rltb area 0.1 then area * 10
              else Rmax 0.2 (1 - (area - 0.6) * 2)) * 0.6)%R = w).
  { eexists. split; [|reflexivity].
    unfold Rleb, Rltb, Rmin, Rmax.
    destruct (Rle_dec 0.1 area), (Rle_dec area 0.6), (Rlt_dec area 0.1); cbn [andb];
      decide_comparisons; lra. }
  destruct Hw as (w & Hw & ->).
  split; [apply Rmult_le_pos; lra|].
  rewrite <- (Rmult_1_l conf) at 2. apply Rmult_le_compat_r; lra.
Qed.

Lemma running_max_below (xs : list R) (c k : R) :
  (c <= k)%R -> Forall (fun x => (x <= k)%R) xs -> (fold_left py_max xs c <= k)%R.
Proof.
  intros Hc Hxs. revert c Hc. induction Hxs as [|x xs Hx _ IH]; intros c Hc;
    cbn [fold_left]; [exact Hc|].
  apply IH. rewrite py_max_exact. unfold Rmax. decide_comparisons; lra.
Qed.

(** In exact arithmetic, for detections with a box of non-negative area
    and confidences between 0 and [k], the composition score is at most
    [1.2 * k], and at most [k] when [k <= 0.8]: no object scores more than
    its confidence.  So a frame whose detections all have a confidence
    below 0.3 scores less than a frame with no detection at all, which
    scores 0.3. *)
Theorem composition_score_bounded_by_confidence
    (d : yolo_analyzer.Detection.t R) (ds : list (yolo_analyzer.Detection.t R))
    (image_shape : Z * Z * Z) (k : R)
    (Hvalid : Forall (fun obj =>
                (0 <= yolo_analyzer.BBox.width (yolo_analyzer.Detection.bbox obj)
                      * yolo_analyzer.BBox.height (yolo_analyzer.Detection.bbox obj))%R /\
                (0 <= yolo_analyzer.Detection.confidence obj <= k)%R) (d :: ds)) :
  (yolo_analyzer.FrameAnalyzer._calculate_composition_score (d :: ds) image_shape
   <= 1.2 * k)%R /\
  ((k <= 0.8)%R ->
   (yolo_analyzer.FrameAnalyzer._calculate_composition_score (d :: ds) image_shape
    <= k)%R) /\
  ((k < 0.3)%R ->
   (yolo_analyzer.FrameAnalyzer._calculate_composition_score (d :: ds) image_shape
    < yolo_analyzer.FrameAnalyzer._calculate_composition_score [] image_shape)%R).
Proof.
  assert (Hk : (0 <= k)%R).
  { apply Forall_cons_1 in Hvalid. destruct Hvalid as [[_ Hd] _]. lra. }
  assert (Hzero : ((#0.0)%py : R) = 0%R) by (cbn; unfold Q2R; cbn; lra).
  assert (Hc : (0 <= fold_left py_max (map obj_score (d :: ds)) (#0.0)%py <= k)%R).
  { split.
    - rewrite <- Hzero at 1. apply running_max_above.
    - apply running_max_below; [rewrite Hzero; exact Hk|].
      apply Forall_map. eapply Forall_impl; [exact Hvalid|].
      intros obj [Harea Hconf]. pose proof (obj_score_bounds obj Harea ltac:(lra)).
      cbv beta delta [compose]. lra. }
  assert (Hm : (fold_left py_max
                  (map (@yolo_analyzer.Detection.confidence R) (d :: ds)) (#0.0)%py
                <= k)%R).
  { apply running_max_below; [rewrite Hzero; exact Hk|].
    apply Forall_map. eapply Forall_impl; [exact Hvalid|].
    intros obj [_ Hconf]. cbv beta delta [compose]. lra. }
  rewrite composition_score_eq.
  set (c := fold_left py_max (map obj_score (d :: ds)) (#0.0)%py) in *.
  set (m := fold_left py_max
              (map (@yolo_analyzer.Detection.confidence R) (d :: ds)) (#0.0)%py) in *.
  assert (Hscore : (boost_and_clamp (c, m) <= 1.2 * k)%R /\
                   ((k <= 0.8)%R -> (boost_and_clamp (c, m) <= k)%R)).
  { unfold boost_and_clamp. rewrite py_min_exact. exact_literals.
    unfold Rltb, Rmin. split; [|intros Hlow]; decide_comparisons; lra. }
  destruct Hscore as [Hall Hlow].
  split; [exact Hall|]. split; [exact Hlow|].
  intros Hfaint. change (yolo_analyzer.FrameAnalyzer._calculate_composition_score [] image_shape)
    with ((#0.3)%py : R).
  replace ((#0.3)%py : R) with 0.3%R by (cbn; unfold Q2R; cbn; lra).
  pose proof (Hlow ltac:(lra)). lra.
Qed.

(** The small traffic light in the corner, of confidence 0.7, alone on a
    frame. *)
Lemma composition_score_of_corner_detection :
  (yolo_analyzer.FrameAnalyzer._calculate_composition_score
     [corner_detection (F := R)] (720, 1280, 3)%Z <= 0.7)%R.
Proof.
  refine (proj1 (proj2 (composition_score_bounded_by_confidence corner_detection []
                          (720, 1280, 3)%Z 0.7%R _)) _); [|lra].
  repeat constructor; cbn; unfold Q2R; cbn; lra.
Defined.

(** ** The Lambda handlers *)

Section LambdaHandler.
Import lambda_worker.
Context {J Msg Res W : Type} (worker : Worker J Msg Res W).



End LambdaHandler.


(** A worker that publishes the message itself, on four records: a good
    one, one that fails validation, one whose body is not JSON, and a good
    one that is never reached. *)
Lemma lambda_handler_on_four_records :
  lambda_worker.lambda_handler demo_worker
    {| lambda_worker.Records :=
         Some [ {| lambda_worker.body := Some "ok:a" |};
                {| lambda_worker.body := Some "invalid" |};
                {| lambda_worker.body := Some "{" |};
                {| lambda_worker.body := Some "ok:b" |} ] |}
    [] {| lambda_worker.InvalidMessage := 0; lambda_worker.ProcessingError := 0 |}
  = ({| lambda_worker.statusCode := 500;
        lambda_worker.body_ := lambda_worker.error_ "Expecting property name" |},
     ["ok:a"%string],
     {| lambda_worker.InvalidMessage := 1; lambda_worker.ProcessingError := 1 |}).
Proof. vm_compute. reflexivity. Qed.

(** ** auto-tagger: combining and ranking tags *)

Section CombineTags.
Import auto_tagger.
Context {F : Type} `{PyFloat F}.
Variable lower : string -> string.
Variable min_confidence : F.

Lemma combined_nil : combined lower min_confidence [] ([], ∅).
Proof.
  split; [reflexivity|]. split; [constructor|]. split.
  - intros t Hin. inversion Hin.
  - intros tag_data Hin. inversion Hin.
Qed.

Lemma combine_step_combined processed st tag_data :
  combined lower min_confidence processed st ->
  combined lower min_confidence (processed ++ [tag_data])
    (AutoTagger.combine_step lower min_confidence st tag_data).
Proof.
  destruct st as [all_tags seen]. intros (Hseen & Hnodup & Hall & Hcomplete).
  cbn [fst snd] in *. unfold AutoTagger.combine_step.
  set (d := AutoTagger.as_dict tag_data). fold (tag_name lower d).
  assert (Hold : forall t, t ∈ all_tags ->
            (min_confidence <=? Tag.confidence t)%py = true /\
            exists td, td ∈ processed ++ [tag_data] /\ AutoTagger.as_dict td = t).
  { intros t Hin. destruct (Hall t Hin) as (Hmin & td & Htd & Heq).
    split; [exact Hmin|]. exists td. split; [apply elem_of_app; left; exact Htd | exact Heq]. }
  destruct (bool_decide (tag_name lower d ∈ seen)) eqn:Hdup; cbn [negb andb].
  - (* a name met before *)
    apply bool_decide_eq_true in Hdup.
    split; [exact Hseen|]. split; [exact Hnodup|]. split; [exact Hold|].
    cbn [fst snd]. intros td Hin Hmin. apply elem_of_app in Hin. destruct Hin as [Hin|Hin].
    + apply Hcomplete; assumption.
    + apply list_elem_of_singleton in Hin. subst td. fold d.
      rewrite Hseen in Hdup. apply elem_of_list_to_set in Hdup. exact Hdup.
  - apply bool_decide_eq_false in Hdup.
    destruct (min_confidence <=? Tag.confidence d)%py eqn:Hmin.
    + (* kept *)
      assert (Hfresh : tag_name lower d ∉ map (tag_name lower) all_tags).
      { intros Hin. apply Hdup. rewrite Hseen. apply elem_of_list_to_set. exact Hin. }
      split; [|split; [|split]]; cbn [fst snd].
      * rewrite map_app, list_to_set_app_L, Hseen. cbn [map list_to_set].
        rewrite (right_id_L ∅ (∪)). apply (comm_L (∪)).
      * rewrite map_app. apply NoDup_app. split; [exact Hnodup|]. split.
        -- intros x Hx Hx'. apply list_elem_of_singleton in Hx'. subst x. exact (Hfresh Hx).
        -- apply NoDup_singleton.
      * intros t Hin. apply elem_of_app in Hin. destruct Hin as [Hin|Hin].
        -- apply Hold. exact Hin.
        -- apply list_elem_of_singleton in Hin. subst t. split; [exact Hmin|].
           exists tag_data.
           split; [apply elem_of_app; right; apply list_elem_of_singleton; reflexivity
                  | reflexivity].
      * intros td Hin Hmin'. rewrite map_app. apply elem_of_app.
        apply elem_of_app in Hin. destruct Hin as [Hin|Hin].
        -- left. apply Hcomplete; assumption.
        -- right. apply list_elem_of_singleton in Hin. subst td.
           apply list_elem_of_singleton. reflexivity.
    + (* below the threshold *)
      split; [exact Hseen|]. split; [exact Hnodup|]. split; [exact Hold|].
      cbn [fst snd]. intros td Hin Hmin'. apply elem_of_app in Hin. destruct Hin as [Hin|Hin].
      * apply Hcomplete; assumption.
      * apply list_elem_of_singleton in Hin. subst td. fold d in Hmin'. congruence.
Qed.

Lemma combine_list_combined processed st tag_list :
  combined lower min_confidence processed st ->
  combined lower min_confidence (processed ++ tag_list)
    (fold_left (AutoTagger.combine_step lower min_confidence) tag_list st).
Proof.
  revert processed st. induction tag_list as [|td tag_list IH]; intros processed st Hst.
  - rewrite app_nil_r. exact Hst.
  - cbn [fold_left]. replace (processed ++ td :: tag_list)
      with ((processed ++ [td]) ++ tag_list) by (rewrite <- app_assoc; reflexivity).
    apply IH, combine_step_combined, Hst.
Qed.

Lemma combine_lists_combined processed st tag_lists :
  combined lower min_confidence processed st ->
  combined lower min_confidence (processed ++ concat tag_lists)
    (fold_left (fun st tag_list =>
                  fold_left (AutoTagger.combine_step lower min_confidence) tag_list st)
       tag_lists st).
Proof.
  revert processed st. induction tag_lists as [|l tag_lists IH]; intros processed st Hst.
  - cbn. rewrite app_nil_r. exact Hst.
  - cbn [fold_left concat]. rewrite app_assoc.
    apply IH, combine_list_combined, Hst.
Qed.

Lemma combine_loops_combined tag_lists :
  combined lower min_confidence (concat tag_lists)
    (AutoTagger.combine_loops lower min_confidence tag_lists).
Proof. exact (combine_lists_combined [] _ tag_lists combined_nil). Qed.

Lemma insert_by_confidence_perm (x : Tag.t F) l :
  Permutation (AutoTagger.insert_by_confidence x l) (x :: l).
Proof.
  induction l as [|y l IH]; cbn [AutoTagger.insert_by_confidence]; [reflexivity|].
  destruct (Tag.confidence x <? Tag.confidence y)%py; [|reflexivity].
  rewrite IH. apply perm_swap.
Qed.

Lemma sorted_by_confidence_perm (l : list (Tag.t F)) :
  Permutation (AutoTagger.sorted_by_confidence l) l.
Proof.
  induction l as [|x l IH]; cbn; [reflexivity|].
  fold (AutoTagger.sorted_by_confidence l).
  rewrite insert_by_confidence_perm, IH. reflexivity.
Qed.

Lemma combine_and_rank_perm tag_lists :
  Permutation (AutoTagger._combine_and_rank_tags lower min_confidence tag_lists)
    (AutoTagger.combine_loops lower min_confidence tag_lists).1.
Proof.
  unfold AutoTagger._combine_and_rank_tags.
  destruct (AutoTagger.combine_loops lower min_confidence tag_lists) as [all_tags seen].
  apply sorted_by_confidence_perm.
Qed.

End CombineTags.

(** [_combine_and_rank_tags] returns one tag for each lowercased name that
    occurs among its inputs with a confidence of at least
    [min_confidence], and nothing else: no two returned tags share a
    lowercased name, every returned tag is one of the inputs (a plain
    string as the dict with confidence 0.5) and passes the threshold test,
    and every input that passes the test has its name among the returned
    tags.  This holds for any floats, NaN included, which never pass the
    test. *)
Theorem combine_and_rank_tags_keeps_one_per_name
    {F : Type} `{PyFloat F} (lower : string -> string) (min_confidence : F)
    (tag_lists : list (list (auto_tagger.TagData F))) :
  let out := auto_tagger.AutoTagger._combine_and_rank_tags lower min_confidence tag_lists in
  NoDup (map (tag_name lower) out) /\
  (forall t, t ∈ out ->
     (min_confidence <=? auto_tagger.Tag.confidence t)%py = true /\
     exists tag_data, tag_data ∈ concat tag_lists /\
       auto_tagger.AutoTagger.as_dict tag_data = t) /\
  (forall tag_data, tag_data ∈ concat tag_lists ->
     (min_confidence <=?
        auto_tagger.Tag.confidence (auto_tagger.AutoTagger.as_dict tag_data))%py = true ->
     exists t, t ∈ out /\
       tag_name lower t = tag_name lower (auto_tagger.AutoTagger.as_dict tag_data)).
Proof.
  intros out. pose proof (combine_and_rank_perm lower min_confidence tag_lists) as Hperm.
  fold out in Hperm.
  destruct (combine_loops_combined lower min_confidence tag_lists)
    as (_ & Hnodup & Hall & Hcomplete).
  split; [|split].
  - rewrite Hperm. exact Hnodup.
  - intros t Hin. apply Hall. rewrite <- Hperm. exact Hin.
  - intros td Hin Hmin. specialize (Hcomplete td Hin Hmin).
    apply list_elem_of_fmap in Hcomplete. destruct Hcomplete as (t & Heq & Ht).
    exists t. split; [rewrite Hperm; exact Ht | symmetry; exact Heq].
Qed.

(** ** auto-tagger: the order of the ranked tags *)

Section RankedTags64.
Import auto_tagger.
Local Open Scope Z_scope.

Lemma nonneg_of_leb (c o : PrimFloat.float) :
  nonneg_sf (Prim2SF c) -> PrimFloat.leb c o = true -> nonneg_sf (Prim2SF o).
Proof.
  rewrite leb_spec. unfold SFleb, SFcompare.
  destruct (Prim2SF c) as [sc|[|]| |[|] mc ec]; cbn [nonneg_sf]; try contradiction;
    destruct (Prim2SF o) as [so|[|]| |[|] mo eo]; cbn [nonneg_sf]; try discriminate; auto.
Qed.

(** A float equal to a ranked one has the same rank. *)
Lemma frank_eqb_true (x c : PrimFloat.float) rx :
  frank x = Some rx -> PrimFloat.eqb x c = true -> frank c = Some rx.
Proof.
  intros Hx Heq.
  assert (Hc : nonneg_sf (Prim2SF c)).
  { assert (Hnx : nonneg_sf (Prim2SF x)) by (apply rank_nonneg_sf; eauto).
    rewrite FloatAxioms.eqb_spec in Heq. unfold SFeqb, SFcompare in Heq.
    destruct (Prim2SF x) as [sx|[|]| |[|] mx ex]; cbn [nonneg_sf] in Hnx; try contradiction;
      destruct (Prim2SF c) as [sc|[|]| |[|] mc ec]; cbn [nonneg_sf]; try discriminate; auto. }
  apply rank_nonneg_sf in Hc. destruct Hc as (rc & Hrc).
  rewrite FloatAxioms.eqb_spec in Heq. unfold SFeqb in Heq.
  rewrite (rank_compare _ _ rx rc (fval_valid x) (fval_valid c) Hx Hrc) in Heq.
  destruct (Z.compare_spec rx rc) as [->|?|?]; try discriminate. exact Hrc.
Qed.

Lemma insert_by_confidence_sorted64 (x : Tag.t PrimFloat.float) l :
  ranked (x :: l) -> StronglySorted by_confidence64 l ->
  StronglySorted by_confidence64 (AutoTagger.insert_by_confidence x l).
Proof.
  intros Hr Hs. induction Hs as [|y l Hs IH Hy]; cbn [AutoTagger.insert_by_confidence].
  - repeat constructor.
  - apply Forall_cons in Hr. destruct Hr as [(rx & Hrx) Hr].
    apply Forall_cons in Hr. destruct Hr as [(ry & Hry) Hr].
    cbn [fltb binary64]. rewrite (frank_ltb _ _ rx ry Hrx Hry).
    destruct (Z.ltb_spec rx ry) as [Hlt|Hge].
    + constructor.
      * apply IH. apply Forall_cons. split; [eauto | exact Hr].
      * rewrite insert_by_confidence_perm. constructor; [|exact Hy].
        unfold by_confidence64.
        rewrite (frank_leb _ _ rx ry Hrx Hry). apply Z.leb_le. lia.
    + constructor; [constructor; assumption|].
      assert (Hxy : by_confidence64 x y).
      { unfold by_confidence64. rewrite (frank_leb _ _ ry rx Hry Hrx). apply Z.leb_le. lia. }
      constructor; [exact Hxy|].
      rewrite Forall_forall in Hy, Hr |- *. intros z Hz.
      destruct (Hr z Hz) as (rz & Hrz). specialize (Hy z Hz). unfold by_confidence64 in *.
      rewrite (frank_leb _ _ rz ry Hrz Hry) in Hy. apply Z.leb_le in Hy.
      rewrite (frank_leb _ _ rz rx Hrz Hrx). apply Z.leb_le. lia.
Qed.

Lemma ranked_sorted l : ranked l -> ranked (AutoTagger.sorted_by_confidence l).
Proof.
  intros Hr. unfold ranked. rewrite sorted_by_confidence_perm. exact Hr.
Qed.

Lemma sorted_by_confidence_sorted64 l :
  ranked l -> StronglySorted by_confidence64 (AutoTagger.sorted_by_confidence l).
Proof.
  induction l as [|x l IH]; intros Hr; cbn; [constructor|].
  fold (AutoTagger.sorted_by_confidence l).
  pose proof Hr as Hr'. apply Forall_cons in Hr'. destruct Hr' as [Hx Hl].
  apply insert_by_confidence_sorted64; [|apply IH; exact Hl].
  apply Forall_cons. split; [exact Hx | apply ranked_sorted; exact Hl].
Qed.

(** Moving a tag past tags of greater confidence leaves the tags of each
    single confidence in their order. *)
Lemma insert_by_confidence_stable64 c (x : Tag.t PrimFloat.float) l :
  ranked (x :: l) ->
  with_confidence64 c (AutoTagger.insert_by_confidence x l) = with_confidence64 c (x :: l).
Proof.
  induction l as [|y l IH]; intros Hr; cbn [AutoTagger.insert_by_confidence]; [reflexivity|].
  apply Forall_cons in Hr. destruct Hr as [(rx & Hrx) Hr].
  apply Forall_cons in Hr. destruct Hr as [(ry & Hry) Hr].
  cbn [fltb binary64]. rewrite (frank_ltb _ _ rx ry Hrx Hry).
  destruct (Z.ltb_spec rx ry) as [Hlt|Hge]; [|reflexivity].
  unfold with_confidence64 in *. cbn [List.filter].
  rewrite IH by (apply Forall_cons; split; [eauto | exact Hr]). cbn [List.filter].
  destruct (PrimFloat.eqb (Tag.confidence y) c) eqn:Hyc;
    destruct (PrimFloat.eqb (Tag.confidence x) c) eqn:Hxc; try reflexivity.
  pose proof (frank_eqb_true _ _ _ Hrx Hxc) as H1.
  pose proof (frank_eqb_true _ _ _ Hry Hyc) as H2.
  rewrite H1 in H2. apply Some_Z_eq in H2. lia.
Qed.

Lemma sorted_by_confidence_stable64 c l :
  ranked l ->
  with_confidence64 c (AutoTagger.sorted_by_confidence l) = with_confidence64 c l.
Proof.
  induction l as [|x l IH]; intros Hr; [reflexivity|].
  unfold AutoTagger.sorted_by_confidence. cbn [fold_right].
  fold (AutoTagger.sorted_by_confidence l).
  pose proof Hr as Hr'. apply Forall_cons in Hr'. destruct Hr' as [Hx Hl].
  rewrite insert_by_confidence_stable64
    by (apply Forall_cons; split; [exact Hx | apply ranked_sorted; exact Hl]).
  unfold with_confidence64 in *. cbn [List.filter]. rewrite (IH Hl). reflexivity.
Qed.

(** With a threshold that is not negative, what the loops keep is ranked. *)
Lemma combine_loops_ranked lower (min_confidence : PrimFloat.float) tag_lists :
  PrimFloat.leb (#0.0)%py min_confidence = true ->
  ranked (AutoTagger.combine_loops lower min_confidence tag_lists).1.
Proof.
  intros Hmin. destruct (combine_loops_combined lower min_confidence tag_lists)
    as (_ & _ & Hall & _).
  apply Forall_forall. intros t Ht. destruct (Hall t Ht) as (Hge & _).
  apply rank_nonneg_sf. eapply nonneg_of_leb; [|exact Hge].
  apply nonneg_of_leb_0. exact Hmin.
Qed.

End RankedTags64.

Section RankedTags.
Import auto_tagger.

Lemma insert_by_confidence_sorted (x : Tag.t R) l :
  StronglySorted by_confidence l ->
  StronglySorted by_confidence (AutoTagger.insert_by_confidence x l).
Proof.
  intros Hs. induction Hs as [|y l Hs IH Hy]; cbn [AutoTagger.insert_by_confidence].
  - repeat constructor.
  - cbn [fltb exact]. unfold Rltb. destruct (Rlt_dec (Tag.confidence x) (Tag.confidence y)).
    + constructor; [exact IH|]. rewrite insert_by_confidence_perm.
      constructor; [unfold by_confidence; lra | exact Hy].
    + constructor; [constructor; assumption|].
      constructor; [unfold by_confidence; lra|].
      rewrite Forall_forall in Hy |- *. intros z Hz. specialize (Hy z Hz).
      unfold by_confidence in *. lra.
Qed.

Lemma sorted_by_confidence_sorted (l : list (Tag.t R)) :
  StronglySorted by_confidence (AutoTagger.sorted_by_confidence l).
Proof.
  induction l as [|x l IH]; [constructor|].
  unfold AutoTagger.sorted_by_confidence. cbn [fold_right].
  apply insert_by_confidence_sorted, IH.
Qed.

End RankedTags.

(** [_combine_and_rank_tags] returns the tags it kept in the order of a
    stable descending sort.  In binary64, with a [min_confidence] that is
    not negative (so that no kept confidence is NaN): no returned tag has a
    smaller confidence than a later one, the returned list is a
    rearrangement of the kept tags, and the tags of any one confidence
    stand in the order in which the loops met them.  In exact arithmetic
    the returned list is ordered in the same way for every threshold. *)
Theorem combine_and_rank_tags_sorted :
  (forall (lower : string -> string) (min_confidence : PrimFloat.float)
          (tag_lists : list (list (auto_tagger.TagData PrimFloat.float))),
     PrimFloat.leb (#0.0)%py min_confidence = true ->
     let all_tags :=
       (auto_tagger.AutoTagger.combine_loops lower min_confidence tag_lists).1 in
     let out := auto_tagger.AutoTagger._combine_and_rank_tags lower min_confidence tag_lists in
     StronglySorted by_confidence64 out /\
     Permutation out all_tags /\
     forall c, with_confidence64 c out = with_confidence64 c all_tags) /\
  (forall (lower : string -> string) (min_confidence : R)
          (tag_lists : list (list (auto_tagger.TagData R))),
     StronglySorted by_confidence
       (auto_tagger.AutoTagger._combine_and_rank_tags lower min_confidence tag_lists)).
Proof.
  split.
  - intros lower min_confidence tag_lists Hmin all_tags out.
    pose proof (combine_loops_ranked lower min_confidence tag_lists Hmin) as Hr.
    pose proof (combine_and_rank_perm lower min_confidence tag_lists) as Hperm.
    fold all_tags in Hr, Hperm. fold out in Hperm.
    assert (Hout : out = auto_tagger.AutoTagger.sorted_by_confidence all_tags).
    { unfold out, all_tags, auto_tagger.AutoTagger._combine_and_rank_tags.
      destruct (auto_tagger.AutoTagger.combine_loops lower min_confidence tag_lists).
      reflexivity. }
    split; [|split].
    + rewrite Hout. apply sorted_by_confidence_sorted64. exact Hr.
    + exact Hperm.
    + intros c. rewrite Hout. apply sorted_by_confidence_stable64. exact Hr.
  - intros lower min_confidence tag_lists.
    unfold auto_tagger.AutoTagger._combine_and_rank_tags.
    destruct (auto_tagger.AutoTagger.combine_loops lower min_confidence tag_lists).
    apply sorted_by_confidence_sorted.
Qed.

(** The caption tag [dress], the two AI tags and the trending strings, at
    the threshold 0.6. *)
Lemma combine_and_rank_tags_sorted_demo :
  let tag_lists :=
    [ [ auto_tagger.Dict {| auto_tagger.Tag.tag := "viral";
                            auto_tagger.Tag.confidence := (#0.6)%py;
                            auto_tagger.Tag.category := "engagement";
                            auto_tagger.Tag.source := "ai" |};
        auto_tagger.Dict {| auto_tagger.Tag.tag := "dress";
                            auto_tagger.Tag.confidence := (#0.8)%py;
                            auto_tagger.Tag.category := "product";
                            auto_tagger.Tag.source := "caption" |} ];
      map auto_tagger.Str (@auto_tagger.AutoTagger._get_trending_tags) ] in
  let all_tags :=
    (auto_tagger.AutoTagger.combine_loops (fun s => s) (#0.6)%py tag_lists).1 in
  let out := auto_tagger.AutoTagger._combine_and_rank_tags (fun s => s) (#0.6)%py tag_lists in
  map (@auto_tagger.Tag.tag PrimFloat.float) out = [ "dress"; "viral" ]%string /\
  StronglySorted by_confidence64 out /\
  Permutation out all_tags /\
  forall c, with_confidence64 c out = with_confidence64 c all_tags.
Proof.
  split; [vm_compute; reflexivity|].
  apply (proj1 combine_and_rank_tags_sorted (fun s => s) (#0.6)%py).
  vm_compute. reflexivity.
Defined.

(** ** auto-tagger: the overall confidence *)

Section OverallConfidence64.
Import auto_tagger.
Local Open Scope Z_scope.

Lemma binary_normalize_nonneg M e :
  0 < M -> nonneg_sf (binary_normalize prec emax M e false).
Proof.
  intros HM. destruct M as [|p|p]; try lia.
  unfold binary_normalize, binary_round.
  destruct (shl_align p e _) as [mz ez].
  apply binary_round_aux_nonneg. lia.
Qed.

Lemma add_nonneg x y :
  nonneg_sf x -> nonneg_sf y -> nonneg_sf (SF64add x y).
Proof.
  destruct x as [sx|[|]| |[|] mx ex]; cbn [nonneg_sf]; intros Hx; try contradiction;
    destruct y as [sy|[|]| |[|] my ey]; cbn [nonneg_sf]; intros Hy; try contradiction;
    try exact I.
  - unfold SF64add, SFadd. destruct sx, sy; exact I.
  - unfold SF64add, SFadd. cbn [cond_Zopp]. apply binary_normalize_nonneg. lia.
Qed.

Lemma total_confidence_nonneg64 (tags : list (Tag.t PrimFloat.float)) (acc : PrimFloat.float) :
  nonneg_sf (Prim2SF acc) ->
  Forall (fun t => PrimFloat.leb (#0.0)%py (Tag.confidence t) = true) tags ->
  nonneg_sf (Prim2SF (fold_left (fun acc tag => (acc + Tag.confidence tag)%py) tags acc)).
Proof.
  revert acc. induction tags as [|t tags IH]; intros acc Hacc Hall; cbn [fold_left].
  - exact Hacc.
  - apply Forall_cons in Hall. destruct Hall as [Ht Hall].
    apply IH; [|exact Hall]. cbn [fadd binary64]. rewrite add_spec.
    apply add_nonneg; [exact Hacc | apply nonneg_of_leb_0; exact Ht].
Qed.

(** [float(n)] of a positive [int] below [2^63] is a positive number. *)
Lemma of_int_positive n :
  0 < n < 2 ^ 63 ->
  exists m e, Prim2SF (of_int n) = S754_finite false m e.
Proof.
  intros Hn. cbn [of_int binary64_of_int]. rewrite of_uint63_spec.
  assert (Hto : Uint63.to_Z (Uint63.of_Z n) = n).
  { rewrite Uint63.of_Z_spec. apply Z.mod_small. change Uint63.wB with (2 ^ 63). lia. }
  rewrite Hto.
  pose proof (binary_normalize_val n 0 ltac:(lia) ltac:(unfold scale; lia)) as Hval.
  assert (Hb : n * 2 ^ (0 + scale) < 2 ^ (scale + 64)).
  { rewrite Z.add_0_l, (Z.pow_add_r 2 scale 64) by (unfold scale; lia).
    pose proof (pow2_pos scale ltac:(unfold scale; lia)). nia. }
  specialize (Hval Hb). rewrite Z.add_0_l in Hval.
  assert (Hpos : 0 < Rnd (n * 2 ^ scale)).
  { pose proof (Rnd_mono (2 ^ scale) (n * 2 ^ scale)) as Hm. rewrite Rnd_1 in Hm.
    pose proof (pow2_pos scale ltac:(unfold scale; lia)). 
    assert (0 <= 2 ^ scale <= n * 2 ^ scale) by nia. specialize (Hm H0). lia. }
  destruct (binary_normalize prec emax n 0 false) as [s|s| |[|] m e]; try discriminate.
  - unfold sf_value in Hval. apply Some_Z_eq in Hval. lia.
  - eauto.
Qed.

Lemma overall_confidence_unit64 (tags : list (Tag.t PrimFloat.float)) :
  Forall (fun t => PrimFloat.leb (#0.0)%py (Tag.confidence t) = true) tags ->
  Z.of_nat (length tags) < 2 ^ 63 ->
  unit64 (AutoTagger._calculate_overall_confidence tags).
Proof.
  intros Hall Hlen. destruct tags as [|t tags].
  - split; vm_compute; reflexivity.
  - unfold AutoTagger._calculate_overall_confidence.
    set (total := fold_left _ _ _).
    assert (Htotal : nonneg_sf (Prim2SF total)).
    { apply total_confidence_nonneg64; [exact I | exact Hall]. }
    destruct (of_int_positive (Z.of_nat (length (t :: tags)))) as (m & e & Hn).
    { cbn [length] in *. lia. }
    apply unit64_min_1. cbn [fdiv binary64]. rewrite div_spec, Hn.
    apply div_nonneg. exact Htotal.
Qed.

End OverallConfidence64.

Section OverallConfidence.
Import auto_tagger.
Local Open Scope R_scope.

Lemma total_confidence_nonneg (tags : list (Tag.t R)) (acc : R) :
  0 <= acc -> Forall (fun t => 0 <= Tag.confidence t) tags ->
  0 <= fold_left (fun acc tag => (acc + Tag.confidence tag)%py) tags acc.
Proof.
  revert acc. induction tags as [|t tags IH]; intros acc Hacc Hall; cbn [fold_left].
  - exact Hacc.
  - apply Forall_cons in Hall. destruct Hall as [Ht Hall].
    apply IH; [|exact Hall]. cbn [fadd exact]. lra.
Qed.

Lemma overall_confidence_unit (tags : list (Tag.t R)) :
  Forall (fun t => 0 <= Tag.confidence t) tags ->
  0 <= AutoTagger._calculate_overall_confidence tags <= 1.
Proof.
  intros Hall. destruct tags as [|t tags].
  - cbn. unfold Q2R. cbn. lra.
  - unfold AutoTagger._calculate_overall_confidence.
    set (total := fold_left _ _ _).
    assert (Htotal : 0 <= total).
    { apply total_confidence_nonneg; [|exact Hall]. cbn. unfold Q2R. cbn. lra. }
    assert (Hn : 0 < of_int (Z.of_nat (length (t :: tags)))).
    { cbn [of_int exact_of_int]. apply IZR_lt. cbn [length]. lia. }
    set (n := of_int _) in *.
    assert (Hq : 0 <= total / n).
    { apply Rmult_le_pos; [exact Htotal|]. apply Rlt_le, Rinv_0_lt_compat. exact Hn. }
    unfold py_min. cbn [fdiv fltb flit exact]. unfold Rltb, Q2R. cbn [Qnum Qden].
    destruct (Rlt_dec _ _); lra.
Qed.

End OverallConfidence.

(** ** auto-tagger: [generate_tags] *)

(** Decides whether a given name is in the vocabulary. *)
Ltac known_name := apply (bool_decide_unpack _); vm_compute; exact I.

Section GenerateTags.
Import auto_tagger.
Context {F : Type} `{PyFloat F} `{PyIntToFloat F}.
Variable lower : string -> string.
Variable split : string -> list string.

Lemma extract_caption_tags_loop (words : list string) (tags : list (Tag.t F)) :
  let caption_tag t :=
    Tag.tag t ∈ AutoTagger.common_product_words /\ Tag.confidence t = (#0.8)%py /\
    Tag.category t = "product"%string /\ Tag.source t = "caption"%string in
  Forall caption_tag tags ->
  Forall caption_tag
    (fold_left
       (fun tags word =>
          let clean_word := AutoTagger.strip ".,!?#@" word in
          if bool_decide (clean_word ∈ AutoTagger.common_product_words)
          then tags ++ [ {| Tag.tag := clean_word;
                            Tag.confidence := (#0.8)%py;
                            Tag.category := "product";
                            Tag.source := "caption" |} ]
          else tags)
       words tags).
Proof.
  intros caption_tag. revert tags.
  induction words as [|word words IH]; intros tags Htags; cbn [fold_left]; [exact Htags|].
  apply IH. destruct (bool_decide _) eqn:Hin; [|exact Htags].
  apply bool_decide_eq_true in Hin. apply Forall_app. split; [exact Htags|].
  constructor; [|constructor]. unfold caption_tag. cbn. auto.
Qed.

Lemma extract_caption_tags_are_product_words (caption : string) :
  Forall (fun t : Tag.t F =>
            Tag.tag t ∈ AutoTagger.common_product_words /\ Tag.confidence t = (#0.8)%py /\
            Tag.category t = "product"%string /\ Tag.source t = "caption"%string)
    (AutoTagger._extract_caption_tags lower split caption).
Proof. apply extract_caption_tags_loop. constructor. Qed.

(** Where the tags handed to [_combine_and_rank_tags] by [generate_tags]
    come from. *)
Lemma generate_tags_inputs (caption : string) (tag_data : TagData F) :
  tag_data ∈ concat [ map Dict (AutoTagger._extract_caption_tags lower split caption);
                      map Dict (@AutoTagger._generate_ai_tags F _);
                      map Str AutoTagger._get_trending_tags ] ->
  Tag.tag (AutoTagger.as_dict tag_data) ∈ tag_vocabulary /\
  ((exists d, tag_data = Dict d /\
      (Tag.source d = "caption"%string \/ Tag.source d = "ai"%string)) \/
   (exists s, tag_data = Str s)).
Proof.
  cbn [concat]. rewrite app_nil_r. intros Hin.
  apply elem_of_app in Hin. destruct Hin as [Hin|Hin].
  - apply list_elem_of_fmap in Hin. destruct Hin as (d & -> & Hd).
    pose proof (extract_caption_tags_are_product_words caption) as Hall.
    rewrite Forall_forall in Hall. destruct (Hall d Hd) as (Htag & _ & _ & Hsrc).
    split; [|left; eauto]. cbn [AutoTagger.as_dict]. unfold tag_vocabulary.
    apply elem_of_app. left. exact Htag.
  - apply elem_of_app in Hin. destruct Hin as [Hin|Hin].
    + apply list_elem_of_fmap in Hin. destruct Hin as (d & -> & Hd).
      unfold AutoTagger._generate_ai_tags in Hd.
      apply elem_of_cons in Hd. destruct Hd as [->|Hd];
        [|apply elem_of_cons in Hd; destruct Hd as [->|Hd]; [|inversion Hd]].
      * split; [|left; eexists; split; [reflexivity | right; reflexivity]].
        cbn [AutoTagger.as_dict Tag.tag]. known_name.
      * split; [|left; eexists; split; [reflexivity | right; reflexivity]].
        cbn [AutoTagger.as_dict Tag.tag]. known_name.
    + apply list_elem_of_fmap in Hin. destruct Hin as (s & -> & Hs).
      split; [|right; eauto]. cbn [AutoTagger.as_dict Tag.tag].
      unfold AutoTagger._get_trending_tags in Hs.
      repeat (apply elem_of_cons in Hs; destruct Hs as [->|Hs]); try known_name.
      inversion Hs.
Qed.

Lemma tag_vocabulary_NoDup : NoDup tag_vocabulary.
Proof. apply (bool_decide_unpack _). vm_compute. exact I. Qed.

(** A list of tags with distinct lowercased names out of the vocabulary
    has at most fourteen tags. *)
Lemma vocabulary_bound (tags : list (Tag.t F)) :
  NoDup (map (tag_name lower) tags) ->
  Forall (fun t => Tag.tag t ∈ tag_vocabulary) tags ->
  (length tags <= 14)%nat.
Proof.
  intros Hnodup Hall.
  assert (Hnd : NoDup (map (@Tag.tag F) tags)).
  { apply (NoDup_fmap_1 lower). rewrite <- list_fmap_compose. exact Hnodup. }
  rewrite <- (length_map (@Tag.tag F) tags).
  change 14%nat with (length tag_vocabulary).
  apply submseteq_length, NoDup_submseteq; [exact Hnd|].
  intros name Hin.
  apply list_elem_of_fmap in Hin. destruct Hin as (t & -> & Ht).
  rewrite Forall_forall in Hall. apply Hall. exact Ht.
Qed.

Lemma slice_to_take {A} (n : Z) (l : list A) :
  exists k, AutoTagger.slice_to n l = take k l /\ ((0 <= n)%Z -> k = Z.to_nat n).
Proof.
  unfold AutoTagger.slice_to. destruct (Z.leb_spec 0 n).
  - eexists. split; [reflexivity | auto].
  - eexists. split; [reflexivity | lia].
Qed.

End GenerateTags.

Section GenerateTagsFacts.
Import auto_tagger.
Context {F : Type} `{PyFloat F} `{PyIntToFloat F}.
Variable lower : string -> string.
Variable split : string -> list string.

Lemma StronglySorted_take {A} (R : A -> A -> Prop) (k : nat) (l : list A) :
  StronglySorted R l -> StronglySorted R (take k l).
Proof.
  intros Hs. revert k. induction Hs as [|x l Hs IH Hx]; intros [|k]; cbn [take];
    try constructor.
  - apply IH.
  - apply Forall_take. exact Hx.
Qed.

(** What [generate_tags] gets back from [_combine_and_rank_tags]. *)
Lemma generate_tags_all_tags (min_confidence : F) (caption : string) :
  let all_tags :=
    AutoTagger._combine_and_rank_tags lower min_confidence
      [ map Dict (AutoTagger._extract_caption_tags lower split caption);
        map Dict AutoTagger._generate_ai_tags;
        map Str AutoTagger._get_trending_tags ] in
  NoDup (map (tag_name lower) all_tags) /\
  (length all_tags <= 14)%nat /\
  Forall (fun t =>
            (min_confidence <=? Tag.confidence t)%py = true /\
            Tag.tag t ∈ tag_vocabulary /\
            (Tag.source t = "caption"%string \/ Tag.source t = "ai"%string \/
             (min_confidence <=? #0.5)%py = true)) all_tags.
Proof.
  intros all_tags.
  set (tag_lists := [ _; _; _ ]) in all_tags.
  pose proof (combine_and_rank_perm lower min_confidence tag_lists) as Hperm.
  fold all_tags in Hperm.
  destruct (combine_loops_combined lower min_confidence tag_lists)
    as (_ & Hnodup & Hall & _).
  assert (Hnd : NoDup (map (tag_name lower) all_tags)) by (rewrite Hperm; exact Hnodup).
  assert (Hfacts : Forall (fun t =>
            (min_confidence <=? Tag.confidence t)%py = true /\
            Tag.tag t ∈ tag_vocabulary /\
            (Tag.source t = "caption"%string \/ Tag.source t = "ai"%string \/
             (min_confidence <=? #0.5)%py = true)) all_tags).
  { apply Forall_forall. intros t Ht. rewrite Hperm in Ht.
    destruct (Hall t Ht) as (Hmin & td & Htd & Heq).
    destruct (generate_tags_inputs lower split caption td Htd) as (Hvoc & Hsrc).
    rewrite Heq in Hvoc. split; [exact Hmin|]. split; [exact Hvoc|].
    destruct Hsrc as [(d & -> & Hsrc) | (s & ->)].
    - cbn [AutoTagger.as_dict] in Heq. subst d. tauto.
    - subst t. cbn [AutoTagger.as_dict Tag.confidence] in Hmin. tauto. }
  split; [exact Hnd|]. split; [|exact Hfacts].
  apply (vocabulary_bound lower); [exact Hnd|].
  eapply Forall_impl; [exact Hfacts|]. cbn. tauto.
Qed.

End GenerateTagsFacts.

(** For every caption, [generate_tags] with a [min_confidence] that is not
    negative returns, in binary64: at most fourteen generated tags (and at
    most [max_tags] when that is not negative), ordered by non-increasing
    confidence, with pairwise distinct lowercased names, each one out of
    the fixed vocabulary and with a confidence of at least
    [min_confidence]; and at most ten SEO keywords, which are the names of
    the first ten generated tags whenever [max_tags] is at least ten.  With [max_tags] of fourteen or more, the
    default twenty included, no tag is cut off.  Whether storing the tags
    succeeds plays no part. *)
Theorem generate_tags_result_shape
    (lower : string -> string) (split : string -> list string)
    {Table : Type} (put_item : auto_tagger.Item PrimFloat.float -> Table
                -> lambda_worker.result unit * Table)
    (config : auto_tagger.ProcessingConfig PrimFloat.float)
    (content_data : auto_tagger.TikTokContentData) (timestamp : string) (table : Table) :
  PrimFloat.leb (#0.0)%py (auto_tagger.min_confidence config) = true ->
  let result :=
    (auto_tagger.AutoTagger.generate_tags lower split put_item config content_data
       timestamp table).1 in
  let tags := auto_tagger.generated_tags result in
  (length tags <= 14)%nat /\
  ((0 <= auto_tagger.max_tags config)%Z ->
   (Z.of_nat (length tags) <= auto_tagger.max_tags config)%Z) /\
  StronglySorted by_confidence64 tags /\
  NoDup (map (tag_name lower) tags) /\
  Forall (fun t =>
            PrimFloat.leb (auto_tagger.min_confidence config)
              (auto_tagger.Tag.confidence t) = true /\
            auto_tagger.Tag.tag t ∈ tag_vocabulary) tags /\
  (length (auto_tagger.seo_keywords result) <= 10)%nat /\
  ((10 <= auto_tagger.max_tags config)%Z ->
   auto_tagger.seo_keywords result
   = map (@auto_tagger.Tag.tag PrimFloat.float) (take 10 tags)) /\
  ((14 <= auto_tagger.max_tags config)%Z ->
   tags = auto_tagger.AutoTagger._combine_and_rank_tags lower
            (auto_tagger.min_confidence config)
            [ map auto_tagger.Dict
                (auto_tagger.AutoTagger._extract_caption_tags lower split
                   (auto_tagger.caption content_data));
              map auto_tagger.Dict auto_tagger.AutoTagger._generate_ai_tags;
              map auto_tagger.Str auto_tagger.AutoTagger._get_trending_tags ]).
Proof.
  intros Hmin result tags.
  set (min_confidence := auto_tagger.min_confidence config) in *.
  set (tag_lists := [ map auto_tagger.Dict
                        (auto_tagger.AutoTagger._extract_caption_tags lower split
                           (auto_tagger.caption content_data));
                      map auto_tagger.Dict auto_tagger.AutoTagger._generate_ai_tags;
                      map auto_tagger.Str auto_tagger.AutoTagger._get_trending_tags ]).
  set (all_tags := auto_tagger.AutoTagger._combine_and_rank_tags lower min_confidence tag_lists).
  assert (Htags : tags = auto_tagger.AutoTagger.slice_to (auto_tagger.max_tags config) all_tags)
    by reflexivity.
  assert (Hseo : auto_tagger.seo_keywords result
                 = map (@auto_tagger.Tag.tag PrimFloat.float) (take 10 all_tags))
    by reflexivity.
  clearbody tags result.
  destruct (generate_tags_all_tags lower split min_confidence
              (auto_tagger.caption content_data)) as (Hnodup & Hlen & Hall).
  fold tag_lists in Hnodup, Hlen, Hall. fold all_tags in Hnodup, Hlen, Hall.
  destruct (slice_to_take (auto_tagger.max_tags config) all_tags) as (k & Hk & Hk0).
  rewrite Hk in Htags.
  assert (Hsorted : StronglySorted by_confidence64 all_tags).
  { pose proof (combine_loops_ranked lower min_confidence tag_lists Hmin) as Hr.
    unfold all_tags, auto_tagger.AutoTagger._combine_and_rank_tags.
    destruct (auto_tagger.AutoTagger.combine_loops lower min_confidence tag_lists).
    apply sorted_by_confidence_sorted64. exact Hr. }
  subst tags.
  split; [rewrite length_take; lia|].
  split; [intros H0; rewrite length_take, (Hk0 H0); lia|].
  split; [apply StronglySorted_take; exact Hsorted|].
  split.
  { change (map (tag_name lower) (take k all_tags))
      with (tag_name lower <$> take k all_tags).
    rewrite fmap_take.
    apply (sublist_NoDup _ (tag_name lower <$> all_tags)); [exact Hnodup | apply sublist_take]. }
  split.
  { apply Forall_take. eapply Forall_impl; [exact Hall|]. cbn beta. tauto. }
  split.
  { rewrite Hseo, length_map, length_take. lia. }
  split.
  { intros H10. rewrite Hseo, take_take. rewrite (Hk0 ltac:(lia)).
    replace (10 `min` Z.to_nat (auto_tagger.max_tags config))%nat with 10%nat by lia.
    reflexivity. }
  intros H14. rewrite (Hk0 ltac:(lia)). apply take_ge. lia.
Qed.

(** The caption [dress] under the default configuration. *)
Lemma generate_tags_for_dress :
  map (@auto_tagger.Tag.tag PrimFloat.float)
    (auto_tagger.generated_tags (demo_generate_tags "dress"))
  = [ "dress"; "trending"; "viral" ]%string /\
  StronglySorted by_confidence64 (auto_tagger.generated_tags (demo_generate_tags "dress")) /\
  NoDup (map (tag_name (fun s => s))
           (auto_tagger.generated_tags (demo_generate_tags "dress"))).
Proof.
  split; [vm_compute; reflexivity|].
  assert (Hmin : PrimFloat.leb (#0.0)%py (auto_tagger.min_confidence default_tagger_config)
                 = true) by (vm_compute; reflexivity).
  pose proof (generate_tags_result_shape (fun s => s) (fun s => [s])
                (fun item (table : list (auto_tagger.Item PrimFloat.float)) =>
                   (lambda_worker.Ok tt, table ++ [item]))
                default_tagger_config (demo_content "dress") "2024-01-01T00:00:00" []
                Hmin) as Hshape.
  cbv zeta in Hshape. split; apply Hshape.
Defined.

(** With a [min_confidence] above 0.5, the default 0.6 included, the
    trending tags never add a generated tag: every generated tag comes
    from the caption or from the AI tags. *)
Theorem trending_tags_add_nothing_above_half
    {F : Type} `{PyFloat F} `{PyIntToFloat F}
    (lower : string -> string) (split : string -> list string)
    {Table : Type} (put_item : auto_tagger.Item F -> Table -> lambda_worker.result unit * Table)
    (config : auto_tagger.ProcessingConfig F)
    (content_data : auto_tagger.TikTokContentData) (timestamp : string) (table : Table) :
  (auto_tagger.min_confidence config <=? #0.5)%py = false ->
  Forall (fun t => auto_tagger.Tag.source t = "caption"%string \/
                   auto_tagger.Tag.source t = "ai"%string)
    (auto_tagger.generated_tags
       (auto_tagger.AutoTagger.generate_tags lower split put_item config content_data
          timestamp table).1).
Proof.
  intros Hhalf. cbn [fst auto_tagger.AutoTagger.generate_tags auto_tagger.generated_tags].
  destruct (slice_to_take (auto_tagger.max_tags config)
              (auto_tagger.AutoTagger._combine_and_rank_tags lower
                 (auto_tagger.min_confidence config)
                 [ map auto_tagger.Dict
                     (auto_tagger.AutoTagger._extract_caption_tags lower split
                        (auto_tagger.caption content_data));
                   map auto_tagger.Dict auto_tagger.AutoTagger._generate_ai_tags;
                   map auto_tagger.Str auto_tagger.AutoTagger._get_trending_tags ]))
    as (k & Hk & _).
  rewrite Hk. apply Forall_take.
  destruct (generate_tags_all_tags lower split (auto_tagger.min_confidence config)
              (auto_tagger.caption content_data)) as (_ & _ & Hall).
  eapply Forall_impl; [exact Hall|]. cbn beta. intros t (_ & _ & [Hs|[Hs|Hs]]); auto.
  congruence.
Qed.

(** At the default threshold 0.6 the caption [fyp], a trending tag, gives
    the two AI tags only. *)
Lemma trending_tags_add_nothing_at_default :
  map (@auto_tagger.Tag.tag PrimFloat.float)
    (auto_tagger.generated_tags (demo_generate_tags "fyp"))
  = [ "trending"; "viral" ]%string /\
  Forall (fun t => auto_tagger.Tag.source t = "caption"%string \/
                   auto_tagger.Tag.source t = "ai"%string)
    (auto_tagger.generated_tags (demo_generate_tags "fyp")).
Proof.
  split; [vm_compute; reflexivity|].
  apply (trending_tags_add_nothing_above_half (F := PrimFloat.float)).
  vm_compute. reflexivity.
Defined.

(** [_calculate_overall_confidence] returns a number in [[0, 1]] whenever
    no confidence is negative or NaN: 0.0 for no tags, else the mean
    capped at 1.0.  In binary64, with the sum taken from the left, this
    holds although the sum may round or even overflow to infinity; it is
    stated for fewer than [2^63] tags.  Hence the [confidence_score] of
    [generate_tags] lies in [[0, 1]] for every caption when
    [min_confidence] is not negative. *)
Theorem overall_confidence_in_unit_interval :
  (forall tags : list (auto_tagger.Tag.t PrimFloat.float),
     Forall (fun t => PrimFloat.leb (#0.0)%py (auto_tagger.Tag.confidence t) = true) tags ->
     (Z.of_nat (length tags) < 2 ^ 63)%Z ->
     unit64 (auto_tagger.AutoTagger._calculate_overall_confidence tags) /\
     (tags = [] -> auto_tagger.AutoTagger._calculate_overall_confidence tags = (#0.0)%py)) /\
  (forall (lower : string -> string) (split : string -> list string) (Table : Type)
          (put_item : auto_tagger.Item PrimFloat.float -> Table
                -> lambda_worker.result unit * Table)
          (config : auto_tagger.ProcessingConfig PrimFloat.float)
          (content_data : auto_tagger.TikTokContentData) (timestamp : string)
          (table : Table),
     PrimFloat.leb (#0.0)%py (auto_tagger.min_confidence config) = true ->
     unit64 (auto_tagger.confidence_score
               (auto_tagger.AutoTagger.generate_tags lower split put_item config
                  content_data timestamp table).1)) /\
  (forall tags : list (auto_tagger.Tag.t R),
     Forall (fun t => (0 <= auto_tagger.Tag.confidence t)%R) tags ->
     (0 <= auto_tagger.AutoTagger._calculate_overall_confidence tags <= 1)%R).
Proof.
  split; [|split].
  - intros tags Hall Hlen. split.
    + apply overall_confidence_unit64; assumption.
    + intros ->. reflexivity.
  - intros lower split Table put_item config content_data timestamp table Hmin.
    cbn [fst auto_tagger.AutoTagger.generate_tags auto_tagger.confidence_score].
    destruct (generate_tags_all_tags lower split (auto_tagger.min_confidence config)
                (auto_tagger.caption content_data)) as (_ & Hlen & Hall).
    apply overall_confidence_unit64; [|lia].
    eapply Forall_impl; [exact Hall|]. cbn beta. intros t (Hge & _).
    apply leb_0_of_nonneg. eapply nonneg_of_leb; [|exact Hge].
    apply nonneg_of_leb_0. exact Hmin.
  - intros tags Hall. apply overall_confidence_unit. exact Hall.
Qed.

(** Three tags of confidence [2^1023]: their sum is beyond the largest
    double, so it is infinite, and the result is 1.0. *)
Lemma overall_confidence_of_huge_confidences :
  let huge := {| auto_tagger.Tag.tag := "dress";
                 auto_tagger.Tag.confidence :=
                   SF2Prim (S754_finite false 4503599627370496 971);
                 auto_tagger.Tag.category := "product";
                 auto_tagger.Tag.source := "caption" |} in
  unit64 (auto_tagger.AutoTagger._calculate_overall_confidence [huge; huge; huge]) /\
  auto_tagger.AutoTagger._calculate_overall_confidence [huge; huge; huge] = (#1.0)%py.
Proof.
  split; [|vm_compute; reflexivity].
  apply (proj1 overall_confidence_in_unit_interval); [|vm_compute; reflexivity].
  repeat constructor.
Defined.

Section StoreTags.
Import auto_tagger.
Context {F : Type} `{PyFloat F} `{PyIntToFloat F}.
Context {Table : Type}.
Variable put_item : Item F -> Table -> lambda_worker.result unit * Table.

Lemma store_loop_spec video_id timestamp tags table :
  exists done rest,
    tags = done ++ rest /\
    match rest with
    | [] => AutoTagger.stored put_item video_id timestamp done table
              (AutoTagger.store_loop put_item video_id timestamp tags table)
    | tag_data :: _ =>
        exists table1 e,
          AutoTagger.stored put_item video_id timestamp done table table1 /\
          put_item (AutoTagger.item_of video_id timestamp tag_data) table1
          = (lambda_worker.Err e, AutoTagger.store_loop put_item video_id timestamp tags table)
    end.
Proof.
  revert table. induction tags as [|tag_data tags IH]; intros table;
    cbn [AutoTagger.store_loop].
  - exists [], []. split; [reflexivity | constructor].
  - destruct (put_item (AutoTagger.item_of video_id timestamp tag_data) table)
      as [[[]|e] table1] eqn:Hput.
    + destruct (IH table1) as (done & rest & -> & Hrest).
      exists (tag_data :: done), rest. split; [reflexivity|].
      destruct rest as [|t rest].
      * econstructor; eassumption.
      * destruct Hrest as (table2 & e & Hstored & Hfail).
        exists table2, e. split; [econstructor; eassumption | exact Hfail].
    + exists [], (tag_data :: tags). split; [reflexivity|].
      exists table, e. split; [constructor | exact Hput].
Qed.

End StoreTags.

(** [generate_tags] never raises because of the tags table, and what it
    returns does not depend on it; but the table may be left with only a
    part of the generated tags.  The tags are written in order, one item
    each with the tag, the video id, the timestamp, the confidence and the
    category; the first [put_item] that raises ends the writing, silently:
    the tags before it are stored, it and the tags after it are not tried
    again. *)
Theorem store_tags_stops_at_first_failure
    {F : Type} `{PyFloat F} `{PyIntToFloat F}
    (lower : string -> string) (split : string -> list string)
    {Table : Type} (put_item : auto_tagger.Item F -> Table -> lambda_worker.result unit * Table)
    (config : auto_tagger.ProcessingConfig F)
    (content_data : auto_tagger.TikTokContentData) (timestamp : string) (table : Table) :
  let '(result, table') :=
    auto_tagger.AutoTagger.generate_tags lower split put_item config content_data
      timestamp table in
  result
  = (auto_tagger.AutoTagger.generate_tags lower split
       (fun _ (t : unit) => (lambda_worker.Ok tt, t)) config content_data timestamp tt).1 /\
  exists done rest,
    auto_tagger.generated_tags result = done ++ rest /\
    match rest with
    | [] =>
        auto_tagger.AutoTagger.stored put_item (auto_tagger.content_video_id content_data)
          timestamp done table table'
    | tag_data :: _ =>
        exists table1 e,
          auto_tagger.AutoTagger.stored put_item (auto_tagger.content_video_id content_data)
            timestamp done table table1 /\
          put_item (auto_tagger.AutoTagger.item_of
                      (auto_tagger.content_video_id content_data) timestamp tag_data)
            table1
          = (lambda_worker.Err e, table')
    end.
Proof.
  unfold auto_tagger.AutoTagger.generate_tags. cbv zeta.
  split; [reflexivity|].
  unfold auto_tagger.AutoTagger._store_tags.
  cbn [auto_tagger.generated_tags auto_tagger.video_id auto_tagger.processing_timestamp].
  apply store_loop_spec.
Qed.

(** ** thumbnail-generator: [generate_thumbnails] *)

Section GenerateThumbnails.
Import lambda_worker thumbnail_generator.
Context {F : Type} `{PyFloat F}.
Context {Image Bytes S3 : Type} (pil : Pillow Image Bytes).
Variable put_object : string -> string -> Bytes -> S3 -> result unit * S3.
Variable config : ProcessingConfig.

Lemma create_thumbnail_url original_image size video_data s3 thumbnail_url s3' :
  _create_thumbnail pil put_object config original_image size video_data s3
  = (Ok thumbnail_url, s3') ->
  thumbnail_url = url (thumbnail_entry config video_data size).
Proof.
  unfold _create_thumbnail, _upload_to_s3.
  destruct (thumbnail pil original_image size); [|discriminate].
  destruct (Image_new pil size "white"); [|discriminate].
  destruct (paste pil _ _ _); [|discriminate].
  destruct (save_jpeg pil _); [|discriminate].
  destruct (put_object _ _ _ _) as [[u|e] s3'']; [|discriminate].
  intros Heq. injection Heq as <- _. reflexivity.
Qed.

Lemma thumbnails_loop_spec original_image video_data sizes acc s3 :
  match thumbnails_loop pil put_object config original_image video_data sizes acc s3 with
  | (Ok thumbnails, s3') =>
      thumbnails = acc ++ map (thumbnail_entry config video_data) sizes /\
      created pil put_object config original_image video_data sizes s3 s3'
  | (Err e, s3') =>
      exists done size rest s3m,
        sizes = done ++ size :: rest /\
        created pil put_object config original_image video_data done s3 s3m /\
        _create_thumbnail pil put_object config original_image size video_data s3m
        = (Err e, s3')
  end.
Proof.
  revert acc s3. induction sizes as [|size rest IH]; intros acc s3; cbn [thumbnails_loop].
  - split; [rewrite app_nil_r; reflexivity | constructor].
  - destruct (_create_thumbnail pil put_object config original_image size video_data s3)
      as [[u|e] s3'] eqn:Hcreate.
    + specialize (IH (acc ++ [ {| size := size_text size; url := u |} ]) s3').
      destruct (thumbnails_loop _ _ _ _ _ rest _ s3') as [[ts|e] s3''].
      * destruct IH as [-> Hc]. split; [|econstructor; eassumption].
        rewrite <- app_assoc. cbn [map app]. do 2 f_equal.
        rewrite (create_thumbnail_url _ _ _ _ _ _ Hcreate). reflexivity.
      * destruct IH as (done & sz & rest' & s3m & -> & Hc & He).
        exists (size :: done), sz, rest', s3m.
        split; [reflexivity|]. split; [econstructor; eassumption | exact He].
    + exists [], size, rest, s3. split; [reflexivity|]. split; [constructor | exact Hcreate].
Qed.

End GenerateThumbnails.

(** [generate_thumbnails] either returns a result or raises, whatever
    Pillow, the network and S3 do.  When it returns, [thumbnails] has one
    entry per configured size, in the configured order, whose [size] is
    [WxH] and whose [url] is
    [https://<bucket>.s3.amazonaws.com/thumbnails/<video_id>/WxH.jpg]; the
    primary thumbnail is the entry of the first configured size (the empty
    string when no size is configured), and every size was made and
    uploaded, one after the other.  With the default sizes that primary
    thumbnail is the 400x400 one, not the largest.  When it raises, some
    size could not be made or uploaded: the sizes before it were uploaded
    and stay in the bucket, the sizes after it were never tried; or no
    image could be had at all, and the bucket is untouched. *)
Theorem generate_thumbnails_lists_every_size
    {F : Type} `{PyFloat F} {Image Bytes S3 : Type}
    (pil : thumbnail_generator.Pillow Image Bytes)
    (put_object : string -> string -> Bytes -> S3 -> lambda_worker.result unit * S3)
    (config : thumbnail_generator.ProcessingConfig)
    (video_data : thumbnail_generator.TikTokVideoData) (timestamp : string) (s3 : S3) :
  let sizes := thumbnail_generator.thumbnail_sizes config in
  let entry := thumbnail_generator.thumbnail_entry config video_data in
  match thumbnail_generator.generate_thumbnails (F := F) pil put_object config video_data
          timestamp s3 with
  | (lambda_worker.Ok result, s3') =>
      thumbnail_generator.thumbnails result = map entry sizes /\
      thumbnail_generator.primary_thumbnail_url result
      = match sizes with
        | first :: _ => thumbnail_generator.url (entry first)
        | [] => ""%string
        end /\
      (sizes = thumbnail_generator.default_thumbnail_sizes ->
       thumbnail_generator.primary_thumbnail_url result
       = ("https://" +:+ thumbnail_generator.s3_bucket config
          +:+ ".s3.amazonaws.com/thumbnails/"
          +:+ thumbnail_generator.video_id video_data +:+ "/400x400.jpg")%string) /\
      exists original_image,
        thumbnail_generator._download_image pil (thumbnail_generator.source_url video_data)
        = lambda_worker.Ok original_image /\
        thumbnail_generator.created pil put_object config original_image video_data
          sizes s3 s3'
  | (lambda_worker.Err e, s3') =>
      (thumbnail_generator._download_image pil (thumbnail_generator.source_url video_data)
       = lambda_worker.Err e /\ s3' = s3) \/
      exists original_image done size rest s3m,
        thumbnail_generator._download_image pil (thumbnail_generator.source_url video_data)
        = lambda_worker.Ok original_image /\
        sizes = done ++ size :: rest /\
        thumbnail_generator.created pil put_object config original_image video_data
          done s3 s3m /\
        thumbnail_generator._create_thumbnail pil put_object config original_image size
          video_data s3m
        = (lambda_worker.Err e, s3')
  end.
Proof.
  intros sizes entry. unfold thumbnail_generator.generate_thumbnails.
  destruct (thumbnail_generator._download_image pil _) as [original_image|e] eqn:Hget.
  - pose proof (thumbnails_loop_spec pil put_object config original_image video_data
                  sizes [] s3) as Hloop.
    fold sizes.
    destruct (thumbnail_generator.thumbnails_loop pil put_object config original_image
                video_data sizes [] s3) as [[thumbnails|e] s3'].
    + destruct Hloop as [-> Hcreated]. cbn [app].
      cbn [thumbnail_generator.thumbnails thumbnail_generator.primary_thumbnail_url].
      fold entry.
      assert (Hprimary : match map entry sizes with
                         | first :: _ => thumbnail_generator.url first
                         | [] => ""%string
                         end
                         = match sizes with
                           | first :: _ => thumbnail_generator.url (entry first)
                           | [] => ""%string
                           end) by (destruct sizes; reflexivity).
      split; [reflexivity|]. split; [exact Hprimary|]. split.
      * intros Hdefault. rewrite Hprimary, Hdefault.
        cbn [thumbnail_generator.default_thumbnail_sizes].
        unfold entry, thumbnail_generator.thumbnail_entry, thumbnail_generator.url.
        replace (thumbnail_generator.size_text (400, 400)%Z) with "400x400"%string
          by (vm_compute; reflexivity).
        reflexivity.
      * exists original_image. split; [reflexivity | exact Hcreated].
    + right. destruct Hloop as (done & size & rest & s3m & Hsizes & Hcreated & Herr).
      exists original_image, done, size, rest, s3m. auto.
  - left. split; reflexivity.
Qed.

(** The default sizes against a bucket that takes every key, and against
    one that refuses the third. *)
Lemma generate_thumbnails_on_demo_video :
  let config := thumbnail_generator.ProcessingConfig_new "b" "arn" None in
  let run strict :=
    thumbnail_generator.generate_thumbnails (F := PrimFloat.float) demo_pillow
      (demo_put_object strict) config demo_video_data "2024-01-01T00:00:00" [] in
  (exists result,
     run false
     = (lambda_worker.Ok result,
        [ "thumbnails/v1/400x400.jpg"; "thumbnails/v1/800x600.jpg";
          "thumbnails/v1/600x800.jpg"; "thumbnails/v1/1200x630.jpg" ]%string) /\
     thumbnail_generator.primary_thumbnail_url result
     = "https://b.s3.amazonaws.com/thumbnails/v1/400x400.jpg"%string /\
     map thumbnail_generator.size (thumbnail_generator.thumbnails result)
     = [ "400x400"; "800x600"; "600x800"; "1200x630" ]%string) /\
  run true
  = (lambda_worker.Err (lambda_worker.ClientError "AccessDenied"),
     [ "thumbnails/v1/400x400.jpg"; "thumbnails/v1/800x600.jpg" ]%string).
Proof.
  split.
  - eexists. split; [vm_compute; reflexivity|]. split; vm_compute; reflexivity.
  - vm_compute. reflexivity.
Qed.
